(** * Deduplication with conflict resolution (prisma_generator.py)

    A shallow embedding of [deduplicate_with_conflict_resolution] and
    [resolve_screening_conflict], and the properties of the merge that
    the review pipeline relies on.

    Modelling conventions.
    - A paper is a Python [dict] loaded from JSON: an insertion-ordered
      association list from strings to JSON values.  Numbers are exact
      rationals (a finite Python int or float is one); NaN, infinities and
      integers too large to format as a float are outside the model.
    - Strings are sequences of code points below 256; [strip] and [lower]
      follow [str.strip()] and [str.lower()] on that range.
    - The paper dictionaries are objects that the code mutates and copies:
      they live in a store (a list of dictionaries) and the lists that the
      code passes around hold references into it.
    - [print] produces no value; what is kept of each [print] is the
      exception that evaluating its arguments can raise.
    - [input()] reads the next line of a finite script and raises
      [EOFError] when none is left; [datetime.now().isoformat()] reads a
      clock. *)

From Stdlib Require Import QArith Ascii String ssreflect.
From stdpp Require Import base option list strings gmap.

Set Warnings "-register-all,-rewrite-rw".

Local Open Scope general_if_scope.
Local Open Scope string_scope.
Local Open Scope list_scope.

(** ** JSON values and Python dictionaries *)

Inductive value : Type :=
| VNone
| VBool (b : bool)
| VNum (q : Q)
| VStr (s : string)
| VList (l : list value)
| VDict (d : list (string * value)).

Abbreviation pydict := (list (string * value)).

(** [d.get(k)] as an option: the first binding of [k]. *)
Fixpoint dict_get (d : pydict) (k : string) : option value :=
  match d with
  | [] => None
  | (k', v) :: d' => if String.eqb k' k then Some v else dict_get d' k
  end.

(** [d.get(k, dflt)] *)
Definition get_default (d : pydict) (k : string) (dflt : value) : value :=
  default dflt (dict_get d k).

(** [d.get(k)]: a missing key reads as [None]. *)
Definition get_none (d : pydict) (k : string) : value :=
  get_default d k VNone.

(** [d[k] = v]: an existing key keeps its position, a new one goes last. *)
Fixpoint dict_set (d : pydict) (k : string) (v : value) : pydict :=
  match d with
  | [] => [(k, v)]
  | (k', v') :: d' =>
      if String.eqb k' k then (k, v) :: d' else (k', v') :: dict_set d' k v
  end.

(** ** Exceptions *)

Inductive exn : Type :=
| AttributeError
| TypeError
| ValueError
| KeyError
| IndexError
| EOFError
| DanglingRef.

Inductive res (A : Type) : Type :=
| Ok (a : A)
| Raise (e : exn).
Arguments Ok {A} a.
Arguments Raise {A} e.

Definition bind {A B : Type} (m : res A) (f : A -> res B) : res B :=
  match m with
  | Ok a => f a
  | Raise e => Raise e
  end.

Notation "'let*' x ':=' m 'in' k" := (bind m (fun x => k))
  (at level 10, x pattern, m at level 100, k at level 200).
Notation "'check' m 'in' k" := (bind m (fun _ : unit => k))
  (at level 10, m at level 100, k at level 200).

Fixpoint mapM {A B : Type} (f : A -> res B) (l : list A) : res (list B) :=
  match l with
  | [] => Ok []
  | a :: l' => let* b := f a in let* bs := mapM f l' in Ok (b :: bs)
  end.

Fixpoint forM_ {A : Type} (f : A -> res unit) (l : list A) : res unit :=
  match l with
  | [] => Ok tt
  | a :: l' => check f a in forM_ f l'
  end.

(** ** Python primitives on values *)

(** Truth value of a JSON value in a condition. *)
Definition truthy (v : value) : bool :=
  match v with
  | VNone => false
  | VBool b => b
  | VNum q => negb (Qeq_bool q 0)
  | VStr s => negb (String.eqb s "")
  | VList l => negb (Nat.eqb (length l) 0)
  | VDict d => negb (Nat.eqb (length d) 0)
  end.

(** The number a value compares as: [bool] is a subtype of [int]. *)
Definition num_of (v : value) : option Q :=
  match v with
  | VNum q => Some q
  | VBool b => Some (if b then 1%Q else 0%Q)
  | _ => None
  end.

(** [a == b] on hashable values. *)
Definition py_eq (a b : value) : bool :=
  match a, b with
  | VNone, VNone => true
  | VStr s, VStr t => String.eqb s t
  | _, _ =>
      match num_of a, num_of b with
      | Some x, Some y => Qeq_bool x y
      | _, _ => false
      end
  end.

Definition hashable (v : value) : bool :=
  match v with
  | VList _ | VDict _ => false
  | _ => true
  end.

Fixpoint set_mem (v : value) (s : list value) : bool :=
  match s with
  | [] => false
  | x :: s' => py_eq x v || set_mem v s'
  end.

(** [set(l)]: the distinct elements, [TypeError] on an unhashable one. *)
Fixpoint py_set_from (s : list value) (l : list value) : res (list value) :=
  match l with
  | [] => Ok s
  | v :: l' =>
      if hashable v
      then py_set_from (if set_mem v s then s else s ++ [v]) l'
      else Raise TypeError
  end.

Definition py_set (l : list value) : res (list value) := py_set_from [] l.

(** Code points that [str.strip()] removes. *)
Definition is_space (c : ascii) : bool :=
  let n := nat_of_ascii c in
  (((9 <=? n) && (n <=? 13)) || ((28 <=? n) && (n <=? 32))
   || (n =? 133) || (n =? 160))%nat.

Fixpoint lstrip (s : string) : string :=
  match s with
  | EmptyString => EmptyString
  | String c s' => if is_space c then lstrip s' else s
  end.

Fixpoint rstrip (s : string) : string :=
  match s with
  | EmptyString => EmptyString
  | String c s' =>
      match rstrip s' with
      | EmptyString => if is_space c then EmptyString else String c EmptyString
      | t => String c t
      end
  end.

Definition strip (s : string) : string := rstrip (lstrip s).

(** [str.lower()] on one code point below 256. *)
Definition lower_char (c : ascii) : ascii :=
  let n := nat_of_ascii c in
  if (((65 <=? n) && (n <=? 90))
      || ((192 <=? n) && (n <=? 222) && negb (n =? 215)))%nat
  then ascii_of_nat (n + 32)
  else c.

Fixpoint lower (s : string) : string :=
  match s with
  | EmptyString => EmptyString
  | String c s' => String (lower_char c) (lower s')
  end.

(** [v.strip()]: only [str] has the method. *)
Definition str_strip (v : value) : res string :=
  match v with
  | VStr s => Ok (strip s)
  | _ => Raise AttributeError
  end.

(** [v[:n]] evaluated for printing: [str] and [list] can be sliced. *)
Definition check_slice (v : value) : res unit :=
  match v with
  | VStr _ | VList _ => Ok tt
  | _ => Raise TypeError
  end.

(** [f"{v:.2f}"]: numbers format, [None] and containers raise [TypeError],
    a [str] raises [ValueError]. *)
Definition check_format_2f (v : value) : res unit :=
  match v with
  | VNum _ | VBool _ => Ok tt
  | VStr _ => Raise ValueError
  | _ => Raise TypeError
  end.

(** [len(v)] *)
Definition py_len (v : value) : res nat :=
  match v with
  | VStr s => Ok (String.length s)
  | VList l => Ok (length l)
  | VDict d => Ok (length d)
  | _ => Raise TypeError
  end.

(** [d[k]] *)
Definition dict_index (d : pydict) (k : string) : res value :=
  match dict_get d k with
  | Some v => Ok v
  | None => Raise KeyError
  end.

(** [a > b] between the keys that [max] compares.  The keys reaching it
    have been formatted with [.2f] before, so they are numbers. *)
Definition py_gt (a b : value) : res bool :=
  match num_of a, num_of b with
  | Some x, Some y => Ok (negb (Qle_bool x y))
  | _, _ => Raise TypeError
  end.

(** ** The store of paper objects, and the outside world *)

Abbreviation ref := nat.
Abbreviation heap := (list pydict).

Definition deref (h : heap) (r : ref) : res pydict :=
  match h !! r with
  | Some d => Ok d
  | None => Raise DanglingRef
  end.

(** [stdin]: the lines the user will type; [clock n]: what the [n]-th
    call of [datetime.now().isoformat()] returns. *)
Record world : Type := World {
  stdin : list string;
  clock : nat -> string;
  ticks : nat
}.

(** ** Identity of a paper (lines 103-113) *)

Definition confidence_key (p : pydict) : value :=
  get_default p "confidence" (VNum 0).

Definition decision_of (p : pydict) : value :=
  get_default p "decision" (VStr "UNKNOWN").

Definition paper_identifier (paper : pydict) : res (option string) :=
  let* doi0 := str_strip (get_default paper "doi" (VStr "")) in
  let doi := lower doi0 in
  let* openalex_id := str_strip (get_default paper "openalex_id" (VStr "")) in
  check check_slice (get_default paper "title" (VStr "No title")) in
  Ok (if truthy (VStr doi) && negb (String.eqb doi "")
      then Some ("doi:" +:+ doi)
      else if truthy (VStr openalex_id) && negb (String.eqb openalex_id "")
      then Some ("openalex:" +:+ openalex_id)
      else None).

(** [paper_groups]: a dict from identifier to the list of its papers, in
    order of first insertion. *)
Abbreviation groups := (list (string * list ref)).

Fixpoint groups_add (pg : groups) (k : string) (r : ref) : groups :=
  match pg with
  | [] => [(k, [r])]
  | (k', g) :: pg' =>
      if String.eqb k' k then (k', g ++ [r]) :: pg'
      else (k', g) :: groups_add pg' k r
  end.

(** The first loop (lines 101-123). *)
Fixpoint group_loop (h : heap) (papers : list ref)
    (paper_groups : groups) (no_identifier_papers : list ref)
    : res (groups * list ref) :=
  match papers with
  | [] => Ok (paper_groups, no_identifier_papers)
  | r :: rest =>
      let* paper := deref h r in
      let* identifier := paper_identifier paper in
      match identifier with
      | Some k => group_loop h rest (groups_add paper_groups k r)
                    no_identifier_papers
      | None => group_loop h rest paper_groups (no_identifier_papers ++ [r])
      end
  end.

(** ** Audit records *)

Definition duplicate_source (p : pydict) : value :=
  VDict [("source_query_id", get_none p "source_query_id");
         ("source_query_description", get_none p "source_query_description");
         ("decision", get_none p "decision");
         ("confidence", get_none p "confidence");
         ("reason", get_none p "reason")].

Definition original_decision (p : pydict) : value :=
  VDict [("query", get_none p "source_query_description");
         ("decision", get_none p "decision");
         ("confidence", get_none p "confidence");
         ("reason", get_none p "reason")].

(** ** The conflict resolver (resolve_screening_conflict) *)

(** Lines 185-188: the names of the first three authors are joined. *)
Definition check_author (a : value) : res unit :=
  match a with
  | VDict ad =>
      match dict_get ad "name" with
      | None | Some (VStr _) => Ok tt
      | Some _ => Raise TypeError
      end
  | _ => Ok tt
  end.

Definition check_authors (paper : pydict) : res unit :=
  let authors := get_default paper "authors" (VList []) in
  match authors with
  | VList l => if truthy authors then forM_ check_author (take 3 l) else Ok tt
  | _ => Ok tt
  end.

(** Lines 191-193: a long abstract is cut and ["..."] appended.  (Slicing
    a dict raises [TypeError] before Python 3.12 and [KeyError] from it
    on; the model keeps [TypeError].) *)
Definition check_abstract (paper : pydict) : res unit :=
  let abstract := get_none paper "abstract" in
  if truthy abstract then
    let* n := py_len abstract in
    if (300 <? n)%nat
    then match abstract with VStr _ => Ok tt | _ => Raise TypeError end
    else Ok tt
  else Ok tt.

(** Lines 183-204: what is printed before the prompt. *)
Definition show_conflict (conflicted_papers : list pydict) : res unit :=
  match conflicted_papers with
  | [] => Raise IndexError
  | paper :: _ =>
      check check_authors paper in
      check check_abstract paper in
      forM_ (fun p => check_format_2f (confidence_key p)) conflicted_papers
  end.

(** Lines 302-314: option 5 prints every decision in detail. *)
Definition show_details_of (p : pydict) : res unit :=
  check check_format_2f (confidence_key p) in
  let manual := get_none p "manual_screening" in
  if truthy manual then
    match manual with
    | VDict m => check_slice (get_default m "timestamp" (VStr "Unknown"))
    | _ => Raise AttributeError
    end
  else Ok tt.

Definition original_decisions (conflicted_papers : list pydict) : value :=
  VList (map original_decision conflicted_papers).

(** [max(l, key=lambda p: p.get("confidence", 0.0))]: the running maximum
    is replaced only by a strictly greater key. *)
Fixpoint max_from (best : pydict) (l : list pydict) : res pydict :=
  match l with
  | [] => Ok best
  | p :: l' =>
      let* gt := py_gt (confidence_key p) (confidence_key best) in
      if gt then max_from p l' else max_from best l'
  end.

Definition max_confidence (l : list pydict) : res pydict :=
  match l with
  | [] => Raise ValueError
  | p :: l' => max_from p l'
  end.

Section Resolver.

(** [repr] of a value, as an f-string renders it. *)
Variable py_repr : value -> string.

(** Options 1 and 2 (lines 216-256), [verdict] being INCLUDE or EXCLUDE.
    The copy is the value returned; the caller stores it as a new object. *)
Definition resolve_manual (verdict method timestamp : string)
    (conflicted_papers : list pydict) : res pydict :=
  match conflicted_papers with
  | [] => Raise IndexError
  | first :: _ =>
      let resolved_paper := first in
      let resolved_paper := dict_set resolved_paper "decision" (VStr verdict) in
      let resolved_paper := dict_set resolved_paper "confidence" (VNum 1) in
      let resolved_paper :=
        dict_set resolved_paper "reason"
          (VStr ("Manual conflict resolution: User chose to " +:+ verdict
                 +:+ " (had conflicts: "
                 +:+ py_repr (VList (map (fun p => get_none p "decision")
                                         conflicted_papers))
                 +:+ ")")) in
      Ok (dict_set resolved_paper "conflict_resolution"
            (VDict [("method", VStr method);
                    ("timestamp", VStr timestamp);
                    ("original_decisions",
                     original_decisions conflicted_papers)]))
  end.

(** Option 3 (lines 258-277). *)
Definition resolve_highest (timestamp : string)
    (conflicted_papers : list pydict) : res pydict :=
  let* highest_confidence_paper := max_confidence conflicted_papers in
  let resolved_paper :=
    dict_set highest_confidence_paper "conflict_resolution"
      (VDict [("method", VStr "highest_confidence");
              ("timestamp", VStr timestamp);
              ("selected_confidence",
               get_none highest_confidence_paper "confidence");
              ("selected_from_query",
               get_none highest_confidence_paper "source_query_description");
              ("original_decisions",
               original_decisions conflicted_papers)]) in
  let* _ := dict_index resolved_paper "decision" in
  check check_format_2f (confidence_key resolved_paper) in
  Ok resolved_paper.

(** Option 4 (lines 279-297). *)
Definition resolve_recent (timestamp : string)
    (conflicted_papers : list pydict) : res pydict :=
  match last conflicted_papers with
  | None => Raise IndexError
  | Some most_recent_paper =>
      let resolved_paper :=
        dict_set most_recent_paper "conflict_resolution"
          (VDict [("method", VStr "most_recent");
                  ("timestamp", VStr timestamp);
                  ("selected_from_query",
                   get_none most_recent_paper "source_query_description");
                  ("original_decisions",
                   original_decisions conflicted_papers)]) in
      let* _ := dict_index resolved_paper "decision" in
      Ok resolved_paper
  end.

(** The [while True] loop (lines 213-319), one iteration per line read.
    [timestamp] is what [datetime.now().isoformat()] gives in the branch
    that returns. *)
Fixpoint prompt_loop (conflicted_papers : list pydict) (timestamp : string)
    (lines : list string) : res (pydict * list string) :=
  match lines with
  | [] => Raise EOFError
  | line :: rest =>
      let choice := strip line in
      if String.eqb choice "1" then
        let* r := resolve_manual "INCLUDE" "manual_include" timestamp
                    conflicted_papers in
        Ok (r, rest)
      else if String.eqb choice "2" then
        let* r := resolve_manual "EXCLUDE" "manual_exclude" timestamp
                    conflicted_papers in
        Ok (r, rest)
      else if String.eqb choice "3" then
        let* r := resolve_highest timestamp conflicted_papers in
        Ok (r, rest)
      else if String.eqb choice "4" then
        let* r := resolve_recent timestamp conflicted_papers in
        Ok (r, rest)
      else if String.eqb choice "5" then
        check forM_ show_details_of conflicted_papers in
        prompt_loop conflicted_papers timestamp rest
      else prompt_loop conflicted_papers timestamp rest
  end.

Definition resolve_screening_conflict (conflicted_papers : list pydict)
    (identifier : string) (w : world) : res (pydict * world) :=
  check show_conflict conflicted_papers in
  let* (resolved_paper, rest) :=
    prompt_loop conflicted_papers (clock w (ticks w)) (stdin w) in
  Ok (resolved_paper,
      {| stdin := rest; clock := clock w; ticks := S (ticks w) |}).

(** ** The merge (deduplicate_with_conflict_resolution) *)

Record merge_state : Type := MergeState {
  st_heap : heap;
  st_world : world;
  unique_papers : list ref;
  duplicates_removed : Z;
  conflicts_resolved : Z
}.

(** One iteration of the second loop (lines 137-167). *)
Definition process_group (identifier : string) (group : list ref)
    (st : merge_state) : res merge_state :=
  if (length group =? 1)%nat then
    let* r0 := match group with r :: _ => Ok r | [] => Raise IndexError end in
    Ok {| st_heap := st_heap st; st_world := st_world st;
          unique_papers := unique_papers st ++ [r0];
          duplicates_removed := duplicates_removed st;
          conflicts_resolved := conflicts_resolved st |}
  else
    let duplicates_removed' :=
      (duplicates_removed st + (Z.of_nat (length group) - 1))%Z in
    let* ps := mapM (deref (st_heap st)) group in
    let decisions := map decision_of ps in
    let* unique_decisions := py_set decisions in
    if (length unique_decisions =? 1)%nat then
      let* r0 := match group with r :: _ => Ok r | [] => Raise IndexError end in
      let* representative_paper := deref (st_heap st) r0 in
      let sources := VList (map duplicate_source ps) in
      Ok {| st_heap :=
              <[r0 := dict_set representative_paper "duplicate_sources" sources]>
                (st_heap st);
            st_world := st_world st;
            unique_papers := unique_papers st ++ [r0];
            duplicates_removed := duplicates_removed';
            conflicts_resolved := conflicts_resolved st |}
    else
      let conflicts_resolved' := (conflicts_resolved st + 1)%Z in
      let* (resolved_paper, w') :=
        resolve_screening_conflict ps identifier (st_world st) in
      Ok {| st_heap := st_heap st ++ [resolved_paper];
            st_world := w';
            unique_papers := unique_papers st ++ [length (st_heap st)];
            duplicates_removed := duplicates_removed';
            conflicts_resolved := conflicts_resolved' |}.

Fixpoint process_groups (paper_groups : groups) (st : merge_state)
    : res merge_state :=
  match paper_groups with
  | [] => Ok st
  | (identifier, group) :: rest =>
      let* st' := process_group identifier group st in
      process_groups rest st'
  end.

Definition deduplicate_with_conflict_resolution (h : heap) (w : world)
    (papers : list ref) : res merge_state :=
  let start := {| st_heap := h; st_world := w; unique_papers := [];
                  duplicates_removed := 0; conflicts_resolved := 0 |} in
  match papers with
  | [] => Ok start
  | _ =>
      let* (paper_groups, no_identifier_papers) := group_loop h papers [] [] in
      let* st := process_groups paper_groups start in
      Ok {| st_heap := st_heap st; st_world := st_world st;
            unique_papers := unique_papers st ++ no_identifier_papers;
            duplicates_removed := duplicates_removed st;
            conflicts_resolved := conflicts_resolved st |}
  end.

End Resolver.

(** ** Notions used to state the properties of the merge *)

Definition is_ok {A : Type} (r : res A) : bool :=
  match r with
  | Ok _ => true
  | Raise _ => false
  end.

(** The identity key of the object at [r], when the first loop gets one. *)
Definition key_of (h : heap) (r : ref) : option string :=
  match deref h r with
  | Ok paper =>
      match paper_identifier paper with
      | Ok k => k
      | Raise _ => None
      end
  | Raise _ => None
  end.

(** The dictionaries that the references of a group point to. *)
Definition cells (h : heap) (g : list ref) : list pydict :=
  map (fun r => default [] (h !! r)) g.

(** All decisions of a list are equal: each one equals the first. *)
Definition all_equalb (l : list value) : bool :=
  match l with
  | [] => true
  | x :: l' => forallb (py_eq x) l'
  end.

(** A group whose members' decisions are not all equal. *)
Definition conflicting (h : heap) (g : list ref) : bool :=
  negb (all_equalb (map decision_of (cells h g))).

Definition multi_member (g : list ref) : bool := (1 <? length g)%nat.

Definition count_conflicts (h : heap) (gs : groups) : Z :=
  Z.of_nat (length (filter (fun kg => conflicting h kg.2) gs)).

Fixpoint sum_duplicates (gs : groups) : Z :=
  match gs with
  | [] => 0
  | (_, g) :: gs' =>
      ((if multi_member g then Z.of_nat (length g) - 1 else 0)
       + sum_duplicates gs')%Z
  end.

(** The (queryId, decision, confidence) triple of a paper or of an audit
    record. *)
Definition triple_of (p : pydict) : value * value * value :=
  (get_none p "source_query_id", get_none p "decision",
   get_none p "confidence").

Definition record_triple (v : value) : option (value * value * value) :=
  match v with
  | VDict d => Some (triple_of d)
  | _ => None
  end.

(** [paper_groups.get(k)] *)
Fixpoint glookup (pg : groups) (k : string) : option (list ref) :=
  match pg with
  | [] => None
  | (k', g) :: pg' => if String.eqb k' k then Some g else glookup pg' k
  end.

(** The first loop body runs through for the object at [r]. *)
Definition identified (h : heap) (r : ref) : bool :=
  is_ok (let* paper := deref h r in paper_identifier paper).

Definition has_key (h : heap) (k : string) (r : ref) : bool :=
  bool_decide (key_of h r = Some k).

Definition has_no_key (h : heap) (r : ref) : bool :=
  bool_decide (key_of h r = None).

(** What the second loop relies on: distinct keys, and every member of a
    group is a stored object with the key of its group. *)
Definition groups_wf (h : heap) (gs : groups) : Prop :=
  NoDup (map fst gs) /\
  forall k g, (k, g) ∈ gs ->
    g <> [] /\ forall r, r ∈ g -> r < length h /\ key_of h r = Some k.

(** What the second loop emits for a group [g] of the store [h0], as seen
    in the final store [h']: the member itself for a singleton; the first
    member, with its audit trail installed, for a unanimous group; a new
    object holding the resolver's answer for a conflicting group. *)
Definition emitted (py_repr : value -> string) (h0 h' : heap)
    (kg : string * list ref) (o : ref) : Prop :=
  let g := kg.2 in
  if (length g =? 1)%nat then
    head g = Some o /\ h' !! o = h0 !! o
  else if conflicting h0 g then
    length h0 <= o /\
    exists d' w w',
      h' !! o = Some d' /\
      resolve_screening_conflict py_repr (cells h0 g) kg.1 w = Ok (d', w')
  else
    head g = Some o /\
    h' !! o =
      Some (dict_set (default [] (h0 !! o)) "duplicate_sources"
              (VList (map duplicate_source (cells h0 g)))).

(** The groups that the first loop builds, and the papers it leaves
    without a key. *)
Definition groups_of (h : heap) (papers : list ref) : groups :=
  match group_loop h papers [] [] with
  | Ok (gs, _) => gs
  | Raise _ => []
  end.

Definition no_identifier_papers_of (h : heap) (papers : list ref) : list ref :=
  filter (fun r => has_no_key h r) papers.

(** A paper that the resolver can display and select: its decision can be
    put in a set and is present, and the prompts that print it run
    through. *)
Definition resolvable (p : pydict) : bool :=
  hashable (decision_of p)
  && is_ok (check_authors p)
  && is_ok (check_abstract p)
  && is_ok (show_details_of p)
  && is_ok (dict_index p "decision").

(** A line that makes the prompt return: one of the options 1 to 4. *)
Definition resolving (line : string) : bool :=
  let choice := strip line in
  String.eqb choice "1" || String.eqb choice "2"
  || String.eqb choice "3" || String.eqb choice "4".

Definition answers (lines : list string) : nat :=
  length (filter (fun l => resolving l) lines).

(** A well-formed input paper: both loops can handle it. *)
Definition well_formed (h : heap) (r : ref) : bool :=
  identified h r && resolvable (default [] (h !! r)).

(** The option the user ends up choosing: the first line that is one of
    the options 1 to 4. *)
Fixpoint selected (lines : list string) : option string :=
  match lines with
  | [] => None
  | line :: rest => if resolving line then Some (strip line) else selected rest
  end.

(** The branch of the prompt that option [c] runs. *)
Definition resolve_choice (py_repr : value -> string) (c timestamp : string)
    (ps : list pydict) : res pydict :=
  if String.eqb c "1" then
    resolve_manual py_repr "INCLUDE" "manual_include" timestamp ps
  else if String.eqb c "2" then
    resolve_manual py_repr "EXCLUDE" "manual_exclude" timestamp ps
  else if String.eqb c "3" then resolve_highest timestamp ps
  else resolve_recent timestamp ps.

(** The fields that a resolution may change. *)
Definition resolution_field (k : string) : bool :=
  String.eqb k "decision" || String.eqb k "confidence"
  || String.eqb k "reason" || String.eqb k "conflict_resolution".

(** The confidence a paper is ranked by, as a number. *)
Definition conf (p : pydict) : Q := default 0%Q (num_of (confidence_key p)).

(** The dictionary of the object at [r]. *)
Definition cell (h : heap) (r : ref) : pydict := default [] (h !! r).

(** A field that holds no identifier: absent, or a blank string. *)
Definition blank (v : value) : bool :=
  match v with
  | VStr s => String.eqb (strip s) ""
  | _ => false
  end.

(** A record with no DOI and no external (OpenAlex) ID. *)
Definition no_identifier (p : pydict) : bool :=
  blank (get_default p "doi" (VStr ""))
  && blank (get_default p "openalex_id" (VStr "")).

(** ** Sample papers *)

(** A screened paper as [collect_screening_data_query_by_query] builds
    it, the fields that the merge does not read being left out. *)
Definition sample_paper (title doi openalex_id decision : string)
    (confidence : Q) (query_id : Z) (query : string) : pydict :=
  [("title", VStr title); ("doi", VStr doi);
   ("openalex_id", VStr openalex_id); ("decision", VStr decision);
   ("confidence", VNum confidence); ("reason", VStr "screened");
   ("source_query_id", VNum (inject_Z query_id));
   ("source_query_description", VStr query)].

(** Scenario B: two records share the DOI 10.1/y with decisions
    INCLUDE (0.9) and EXCLUDE (0.8). *)
Definition scenario_b : heap :=
  [sample_paper "Paper Y" "10.1/y" "" "INCLUDE" (9 # 10) 1 "query one";
   sample_paper "Paper Y" "10.1/y" "" "EXCLUDE" (8 # 10) 2 "query two"].

(** The user types the given lines; the clock and its reading are
    arbitrary. *)
Definition typing (lines : list string) (clk : nat -> string) (t : nat)
    : world :=
  {| stdin := lines; clock := clk; ticks := t |}.

(** ** The DOI normalisation that the specification describes

    "Trim, lowercase, strip any URL scheme/host prefix": written from the
    specification, to be compared with what [paper_identifier] does. *)

Fixpoint after_slash (s : string) : string :=
  match s with
  | EmptyString => EmptyString
  | String c s' => if Ascii.eqb c "/"%char then s' else after_slash s'
  end.

Fixpoint string_drop (n : nat) (s : string) : string :=
  match n, s with
  | O, _ => s
  | S n', String _ s' => string_drop n' s'
  | S _, EmptyString => EmptyString
  end.

Definition spec_strip_url_prefix (s : string) : string :=
  if String.prefix "https://" s then after_slash (string_drop 8 s)
  else if String.prefix "http://" s then after_slash (string_drop 7 s)
  else s.

Definition spec_normalize_doi (s : string) : string :=
  spec_strip_url_prefix (lower (strip s)).

(** The same publication, once with its DOI as a URL and once bare. *)
Definition doi_as_url : heap :=
  [sample_paper "Paper X" "https://doi.org/10.1/X" "" "INCLUDE" (9 # 10) 1
     "query one";
   sample_paper "Paper X" "10.1/x" "" "INCLUDE" (8 # 10) 2 "query two"].

(** ** Comparing two runs *)

(** A paper with the timestamp of its resolution block blanked. *)
Definition scrub (d : pydict) : pydict :=
  match dict_get d "conflict_resolution" with
  | Some (VDict block) =>
      dict_set d "conflict_resolution"
        (VDict (dict_set block "timestamp" VNone))
  | _ => d
  end.

Definition same_but_timestamp (d1 d2 : pydict) : Prop :=
  scrub d1 = scrub d2.

(** Two results agree: the same exception, or related values. *)
Definition res_sim {A : Type} (R : A -> A -> Prop) (r1 r2 : res A) : Prop :=
  match r1, r2 with
  | Ok a, Ok b => R a b
  | Raise e1, Raise e2 => e1 = e2
  | _, _ => False
  end.

(** Two merge states agree up to timestamps: the same output list,
    counters and remaining input; the first [n] objects (the input
    papers) are identical, the others equal up to the timestamp. *)
Definition st_sim (n : nat) (s1 s2 : merge_state) : Prop :=
  unique_papers s1 = unique_papers s2
  /\ duplicates_removed s1 = duplicates_removed s2
  /\ conflicts_resolved s1 = conflicts_resolved s2
  /\ stdin (st_world s1) = stdin (st_world s2)
  /\ n <= length (st_heap s1)
  /\ take n (st_heap s1) = take n (st_heap s2)
  /\ Forall2 same_but_timestamp (st_heap s1) (st_heap s2).

(** ** More sample data *)

(** A stand-in for [repr] on the decisions of the sample papers. *)
Definition sample_repr_atom (v : value) : string :=
  match v with
  | VNone => "None"
  | VBool true => "True"
  | VBool false => "False"
  | VStr s => "'" +:+ s +:+ "'"
  | _ => "?"
  end.

Fixpoint join_comma (l : list string) : string :=
  match l with
  | [] => ""
  | [s] => s
  | s :: l' => s +:+ ", " +:+ join_comma l'
  end.

Definition sample_repr (v : value) : string :=
  match v with
  | VList l => "[" +:+ join_comma (map sample_repr_atom l) +:+ "]"
  | _ => sample_repr_atom v
  end.

Definition morning (n : nat) : string := "2025-01-11T10:00:00".
Definition evening (n : nat) : string := "2025-01-11T20:30:00".

(** Scenario A: three records share the DOI 10.1/x, all INCLUDE. *)
Definition scenario_a : heap :=
  [sample_paper "Paper X" "10.1/x" "" "INCLUDE" (9 # 10) 1 "query one";
   sample_paper "Paper X" "10.1/X" "" "INCLUDE" (6 # 10) 2 "query two";
   sample_paper "Paper X" " 10.1/x " "" "INCLUDE" (95 # 100) 3 "query three"].

(** Scenario D: a record without DOI or external ID, and one with the DOI
    10.1/z. *)
Definition scenario_d : heap :=
  [sample_paper "Paper N" "" "" "INCLUDE" (7 # 10) 1 "query one";
   sample_paper "Paper Z" "10.1/z" "" "EXCLUDE" (8 # 10) 1 "query one"].

(** Scenario E: a conflicting group and one more paper. *)
Definition scenario_e : heap :=
  scenario_b
  ++ [sample_paper "Paper Z" "10.1/z" "" "INCLUDE" (7 # 10) 1 "query one"].

(** A group whose second record has no decision field. *)
Definition missing_decision : heap :=
  [sample_paper "Paper Z" "10.1/z" "" "INCLUDE" (9 # 10) 1 "query one";
   [("title", VStr "Paper Z"); ("doi", VStr "10.1/z");
    ("openalex_id", VStr ""); ("confidence", VNum (8 # 10));
    ("reason", VStr "screened"); ("source_query_id", VNum 2);
    ("source_query_description", VStr "query two")]].

(** A conflicting group whose second record has the confidence [None]:
    what [collect_screening_data_query_by_query] stores when a screening
    result has no confidence. *)
Definition null_confidence : heap :=
  [sample_paper "Paper Z" "10.1/z" "" "INCLUDE" (9 # 10) 1 "query one";
   [("title", VStr "Paper Z"); ("doi", VStr "10.1/z");
    ("openalex_id", VStr ""); ("decision", VStr "EXCLUDE");
    ("confidence", VNone); ("reason", VStr "screened");
    ("source_query_id", VNum 2);
    ("source_query_description", VStr "query two")]].

(** ** Simple deduplication (deduplicate_papers_simple) *)

(** Lines 53-61: the (type, value) identifiers of a paper, DOI first. *)
Definition paper_identifiers (paper : pydict) : res (list (string * string)) :=
  let* doi0 := str_strip (get_default paper "doi" (VStr "")) in
  let doi := lower doi0 in
  let* openalex_id := str_strip (get_default paper "openalex_id" (VStr "")) in
  let identifiers := [] in
  let identifiers :=
    if truthy (VStr doi) && negb (String.eqb doi "")
    then identifiers ++ [("doi", doi)] else identifiers in
  let identifiers :=
    if truthy (VStr openalex_id) && negb (String.eqb openalex_id "")
    then identifiers ++ [("openalex", openalex_id)] else identifiers in
  Ok identifiers.

(** [f"{id_type}:{id_value}"] *)
Definition identifier_key (id : string * string) : string :=
  id.1 +:+ ":" +:+ id.2.

(** Lines 69-75: is one of the keys in [seen_identifiers]?  The loop
    stops at the first one found. *)
Fixpoint any_seen (identifiers : list (string * string))
    (seen_identifiers : gset string) : bool :=
  match identifiers with
  | [] => false
  | id :: rest =>
      if bool_decide (identifier_key id ∈ seen_identifiers) then true
      else any_seen rest seen_identifiers
  end.

(** Lines 79-81: every key of the paper is added to the set. *)
Fixpoint add_seen (identifiers : list (string * string))
    (seen_identifiers : gset string) : gset string :=
  match identifiers with
  | [] => seen_identifiers
  | id :: rest => add_seen rest (seen_identifiers ∪ {[identifier_key id]})
  end.

(** The loop of lines 51-82. *)
Fixpoint simple_loop (h : heap) (papers : list ref)
    (unique_papers : list ref) (seen_identifiers : gset string)
    (duplicates_count : Z) : res (list ref * Z) :=
  match papers with
  | [] => Ok (unique_papers, duplicates_count)
  | r :: rest =>
      let* paper := deref h r in
      let* identifiers := paper_identifiers paper in
      match identifiers with
      | [] => simple_loop h rest (unique_papers ++ [r]) seen_identifiers
                duplicates_count
      | _ =>
          if any_seen identifiers seen_identifiers then
            simple_loop h rest unique_papers seen_identifiers
              (duplicates_count + 1)
          else
            simple_loop h rest (unique_papers ++ [r])
              (add_seen identifiers seen_identifiers) duplicates_count
      end
  end.

Definition deduplicate_papers_simple (h : heap) (papers : list ref)
    : res (list ref * Z) :=
  match papers with
  | [] => Ok ([], 0%Z)
  | _ => simple_loop h papers [] ∅ 0
  end.

(** The keys of the object at [r], when they can be read. *)
Definition keys_of (h : heap) (r : ref) : list string :=
  match deref h r with
  | Ok paper =>
      match paper_identifiers paper with
      | Ok ids => map identifier_key ids
      | Raise _ => []
      end
  | Raise _ => []
  end.

(** The simple deduplication can read the identifiers of the object. *)
Definition readable (h : heap) (r : ref) : bool :=
  is_ok (let* paper := deref h r in paper_identifiers paper).

Definition is_str (v : value) : bool :=
  match v with
  | VStr _ => true
  | _ => false
  end.

(** The DOI and the OpenAlex ID of the paper are strings, or absent. *)
Definition string_ids (p : pydict) : bool :=
  is_str (get_default p "doi" (VStr ""))
  && is_str (get_default p "openalex_id" (VStr "")).

(** ** A list of papers with distinct keys *)

(** One group per paper that has a key. *)
Definition singles (h : heap) (l : list ref) : groups :=
  omap (fun r => (fun k => (k, [r])) <$> key_of h r) l.

Definition has_some_key (h : heap) (r : ref) : bool :=
  negb (has_no_key h r).

(** ** Collecting the screened papers (collect_screening_data_query_by_query) *)

(** [d.update(other)]: the bindings of [other] are set one after the
    other. *)
Fixpoint dict_update (d other : pydict) : pydict :=
  match other with
  | [] => d
  | (k, v) :: rest => dict_update (dict_set d k v) rest
  end.

(** Lines 370-385, the body of the loop over the screening results of one
    query: the paper of a result, copied, with the screening fields of the
    result and the source query written over it.  [py_str] is how an
    f-string renders the query id. *)
Definition paper_with_source (py_str : value -> string)
    (query_config : pydict) (query_id : value) (paper : value) : res pydict :=
  match paper with
  | VDict result =>
      match get_default result "paper" (VDict []) with
      | VDict paper_data =>
          Ok (dict_update paper_data
                [("decision", get_none result "decision");
                 ("confidence", get_none result "confidence");
                 ("reason", get_none result "reason");
                 ("source_query_id", query_id);
                 ("source_query_description",
                  get_default query_config "description"
                    (VStr ("Query " +:+ py_str query_id)));
                 ("screening_timestamp",
                  get_none result "screening_timestamp");
                 ("model_used", get_none result "model_used")])
      | _ => Raise AttributeError
      end
  | _ => Raise AttributeError
  end.

(** The keys that [paper_with_source] writes. *)
Definition source_field (k : string) : bool :=
  String.eqb k "decision" || String.eqb k "confidence"
  || String.eqb k "reason" || String.eqb k "source_query_id"
  || String.eqb k "source_query_description"
  || String.eqb k "screening_timestamp" || String.eqb k "model_used".

(** The numbers of the [totals] block of the screening summary. *)
Record totals : Type := Totals {
  total_identified : Z;
  totals_duplicates_removed : Z;
  totals_conflicts_resolved : Z;
  total_after_deduplication : Z;
  total_screened : Z;
  total_approved : Z;
  total_excluded : Z;
  total_pending : Z
}.

(** [len([p for p in unique_papers if p.get("decision") == verdict])] *)
Definition count_decision (h : heap) (unique_papers : list ref)
    (verdict : string) : Z :=
  Z.of_nat
    (length (filter (fun r => py_eq (get_none (cell h r) "decision")
                                (VStr verdict)) unique_papers)).

(** Lines 396-471, once the files are read: the deduplication of the
    collected papers and the numbers of the summary.  [None] is the empty
    summary returned when no paper was collected. *)
Definition screening_totals (py_repr : value -> string) (h : heap) (w : world)
    (all_papers : list ref) (late_stage_dedup : bool)
    (total_papers_collected : Z) : res (option (totals * heap * world)) :=
  match all_papers with
  | [] => Ok None
  | _ =>
      let* st :=
        if late_stage_dedup
        then deduplicate_with_conflict_resolution py_repr h w all_papers
        else
          let* (unique_papers, duplicates_removed) :=
            deduplicate_papers_simple h all_papers in
          Ok {| st_heap := h; st_world := w;
                unique_papers := unique_papers;
                duplicates_removed := duplicates_removed;
                conflicts_resolved := 0 |} in
      let total_included :=
        count_decision (st_heap st) (unique_papers st) "INCLUDE" in
      let total_excluded :=
        count_decision (st_heap st) (unique_papers st) "EXCLUDE" in
      Ok (Some
            ({| total_identified :=
                  if late_stage_dedup then total_papers_collected
                  else Z.of_nat (length all_papers);
                totals_duplicates_removed := duplicates_removed st;
                totals_conflicts_resolved := conflicts_resolved st;
                total_after_deduplication :=
                  Z.of_nat (length (unique_papers st));
                total_screened := Z.of_nat (length (unique_papers st));
                total_approved := total_included;
                total_excluded := total_excluded;
                total_pending := 0 |},
             st_heap st, st_world st))
  end.

(** generate_prisma_flow_diagram, line 621: the number printed after
    "Duplicates removed:". *)
Definition flow_duplicates_removed (t : totals) : Z :=
  (total_identified t - total_after_deduplication t)%Z.

(** ** Sample data for the collector and the simple deduplication *)

(** A paper whose DOI is null. *)
Definition null_doi : heap := [[("title", VStr "Paper"); ("doi", VNone)]].

(** A screening result without decision, and the configuration of its
    query. *)
Definition sample_result : pydict :=
  [("paper", VDict [("title", VStr "Paper Y"); ("doi", VStr "10.1/y");
                    ("decision", VStr "stale")]);
   ("confidence", VNum (9 # 10)); ("reason", VStr "screened")].

Definition sample_query_config : pydict :=
  [("id", VNum 1); ("description", VStr "query one")].

(** A stand-in for the rendering of a query id in an f-string. *)
Definition sample_str (v : value) : string := "1".

(** The first loop of the merge can print the title: it is a string or a
    list, or absent. *)
Definition printable_title (p : pydict) : bool :=
  is_ok (check_slice (get_default p "title" (VStr "No title"))).

(** Two records that share an OpenAlex ID; the first has a DOI. *)
Definition shared_openalex : heap :=
  [sample_paper "Paper W" "10.1/w" "W1" "INCLUDE" (9 # 10) 1 "query one";
   sample_paper "Paper W" "" " W1 " "EXCLUDE" (8 # 10) 2 "query two";
   sample_paper "Paper W" "" "W1" "EXCLUDE" (7 # 10) 3 "query three"].

(** * Properties *)

(** ** The error monad *)

Lemma bind_ok {A B : Type} (m : res A) (f : A -> res B) (b : B) :
  bind m f = Ok b -> exists a, m = Ok a /\ f a = Ok b.
Proof. destruct m as [a|e]; simpl; [eauto | discriminate]. Qed.

Ltac inv_ok :=
  repeat match goal with
  | H : bind _ _ = Ok _ |- _ =>
      let a := fresh "a" in
      let Ha := fresh "Ha" in
      apply bind_ok in H; destruct H as (a & Ha & H)
  | H : Ok _ = Ok _ |- _ => injection H as H; try subst
  | H : Raise _ = Ok _ |- _ => discriminate H
  | H : (let (_, _) := ?p in _) = Ok _ |- _ => destruct p
  | u : unit |- _ => destruct u
  end.

Lemma mapM_ok_length {A B : Type} (f : A -> res B) (l : list A) (bs : list B) :
  mapM f l = Ok bs -> length bs = length l.
Proof.
  revert bs; induction l as [|a l IH]; intros bs H; simpl in H.
  - by inv_ok.
  - inv_ok. simpl. f_equal. eauto.
Qed.

Lemma mapM_deref_cells (h : heap) (g : list ref) (ps : list pydict) :
  mapM (deref h) g = Ok ps -> ps = cells h g /\ Forall (fun r => r < length h) g.
Proof.
  revert ps; induction g as [|r g IH]; intros ps H; simpl in H.
  - inv_ok. by split.
  - inv_ok. destruct (IH _ Ha0) as [-> Hv]. unfold deref in Ha.
    destruct (h !! r) as [d|] eqn:E; [|discriminate]. inv_ok.
    split; [by rewrite /cells /= E|].
    constructor; [by eapply lookup_lt_Some|done].
Qed.

Lemma cells_mapM_deref (h : heap) (g : list ref) :
  Forall (fun r => r < length h) g -> mapM (deref h) g = Ok (cells h g).
Proof.
  induction 1 as [|r g Hr _ IH]; [done|]. simpl.
  destruct (lookup_lt_is_Some_2 h r Hr) as [d E].
  by rewrite /deref E /= IH.
Qed.

Lemma forM_ok {A : Type} (f : A -> res unit) (l : list A) :
  forM_ f l = Ok tt <-> Forall (fun a => f a = Ok tt) l.
Proof.
  induction l as [|a l IH]; simpl; [by split; [constructor|]|].
  split.
  - intros H. inv_ok. constructor; [done|by apply IH].
  - intros H. inversion H as [|? ? Ha Hl]; subst. rewrite Ha /=. by apply IH.
Qed.

Lemma head_elem_of {A : Type} (l : list A) (x : A) :
  head l = Some x -> x ∈ l.
Proof. destruct l; [done|]. intros [= ->]. by left. Qed.

(** ** Dictionaries *)

Lemma dict_get_set_eq (d : pydict) (k : string) (v : value) :
  dict_get (dict_set d k v) k = Some v.
Proof.
  induction d as [|[k' v'] d IH]; simpl.
  - by rewrite String.eqb_refl.
  - destruct (String.eqb k' k) eqn:E; simpl.
    + by rewrite String.eqb_refl.
    + by rewrite E.
Qed.

Lemma dict_get_set_ne (d : pydict) (k k' : string) (v : value) :
  k <> k' -> dict_get (dict_set d k v) k' = dict_get d k'.
Proof.
  intros Hne. induction d as [|[k0 v0] d IH]; simpl.
  - destruct (String.eqb k k') eqn:E; [|done].
    by apply String.eqb_eq in E.
  - destruct (String.eqb k0 k) eqn:E; simpl.
    + apply String.eqb_eq in E; subst k0.
      destruct (String.eqb k k') eqn:E'; [|done].
      by apply String.eqb_eq in E'.
    + by rewrite IH.
Qed.

Lemma get_default_set_ne (d : pydict) (k k' : string) (v dflt : value) :
  k <> k' -> get_default (dict_set d k v) k' dflt = get_default d k' dflt.
Proof. intros. by rewrite /get_default dict_get_set_ne. Qed.

Lemma get_default_set_eq (d : pydict) (k : string) (v dflt : value) :
  get_default (dict_set d k v) k dflt = v.
Proof. by rewrite /get_default dict_get_set_eq. Qed.

(** ** The first loop: grouping by identity *)

Lemma key_of_Some_valid (h : heap) (r : ref) (k : string) :
  key_of h r = Some k -> r < length h.
Proof.
  rewrite /key_of /deref. destruct (h !! r) eqn:E; [|done].
  intros _. by eapply lookup_lt_Some.
Qed.

Lemma identified_key_of (h : heap) (r : ref) (paper : pydict) (o : option string) :
  deref h r = Ok paper -> paper_identifier paper = Ok o -> key_of h r = o.
Proof. rewrite /key_of. by intros -> ->. Qed.

Lemma glookup_add (pg : groups) (k k' : string) (r : ref) :
  glookup (groups_add pg k r) k' =
  if decide (k = k') then Some (default [] (glookup pg k) ++ [r])
  else glookup pg k'.
Proof.
  induction pg as [|[k0 g0] pg IH]; simpl.
  - destruct (String.eqb_spec k k'); by case_decide.
  - destruct (String.eqb_spec k0 k) as [->|Hne]; simpl.
    + destruct (String.eqb_spec k k'); by case_decide.
    + rewrite IH. destruct (String.eqb_spec k0 k') as [->|Hne'].
      * by case_decide.
      * done.
Qed.

Lemma groups_add_keys (pg : groups) (k : string) (r : ref) :
  map fst (groups_add pg k r) =
  if decide (k ∈ map fst pg) then map fst pg else map fst pg ++ [k].
Proof.
  induction pg as [|[k0 g0] pg IH].
  - destruct (decide (k ∈ map fst [])) as [H|H]; [|done].
    by apply elem_of_nil in H.
  - cbn [groups_add map fst].
    destruct (String.eqb_spec k0 k) as [->|Hne]; cbn [map fst].
    + destruct (decide (k ∈ k :: map fst pg)) as [H|H]; [done|].
      exfalso. apply H. by left.
    + rewrite IH. destruct (decide (k ∈ map fst pg)) as [H1|H1];
        destruct (decide (k ∈ k0 :: map fst pg)) as [H2|H2]; try done.
      * exfalso. apply H2. by right.
      * apply elem_of_cons in H2 as [->|H2]; done.
Qed.

Lemma glookup_elem_of (pg : groups) (k : string) (g : list ref) :
  NoDup (map fst pg) -> (k, g) ∈ pg <-> glookup pg k = Some g.
Proof.
  induction pg as [|[k0 g0] pg IH]; simpl; intros Hnd.
  - split; [by intros H%elem_of_nil|done].
  - apply NoDup_cons in Hnd as [Hk0 Hnd].
    destruct (String.eqb_spec k0 k) as [->|Hne].
    + split.
      * intros [H|H]%elem_of_cons; [congruence|].
        exfalso. apply Hk0. apply list_elem_of_fmap. by exists (k, g).
      * intros [= ->]. by left.
    + rewrite -IH //. split.
      * intros [H|H]%elem_of_cons; [congruence|done].
      * intros H. by right.
Qed.

Lemma groups_add_NoDup (pg : groups) (k : string) (r : ref) :
  NoDup (map fst pg) -> NoDup (map fst (groups_add pg k r)).
Proof.
  intros Hnd. rewrite groups_add_keys. case_decide as H; [done|].
  apply NoDup_app. split_and!; [done| |apply NoDup_singleton].
  intros x Hx Hx'. apply list_elem_of_singleton in Hx'. by subst x.
Qed.

Lemma groups_add_wf (h : heap) (pg : groups) (k : string) (r : ref) :
  groups_wf h pg -> key_of h r = Some k -> groups_wf h (groups_add pg k r).
Proof.
  intros [Hnd Hm] Hk. split; [by apply groups_add_NoDup|].
  intros k' g' Hin.
  apply glookup_elem_of in Hin; [|by apply groups_add_NoDup].
  rewrite glookup_add in Hin. case_decide as E.
  - subst k'. injection Hin as <-. split.
    + intros H. by apply app_eq_nil in H as [_ ?].
    + intros r' [Hr'|Hr']%elem_of_app;
        [|apply list_elem_of_singleton in Hr'; subst r'].
      * destruct (glookup pg k) as [g|] eqn:Eg; simpl in Hr';
          [|by apply elem_of_nil in Hr'].
        apply glookup_elem_of in Eg; [|done]. by apply (Hm _ _ Eg).
      * split; [by eapply key_of_Some_valid|done].
  - apply glookup_elem_of in Hin; [|done]. by apply Hm.
Qed.

(** The first loop keeps the groups well formed, sends the papers without
    a key to [no_identifier_papers] in input order, and puts the papers
    with key [k] into the group of [k] in input order. *)
Lemma group_loop_spec (h : heap) (papers : list ref) (pg pg' : groups)
    (noid noid' : list ref) :
  group_loop h papers pg noid = Ok (pg', noid') ->
  groups_wf h pg ->
  groups_wf h pg'
  /\ noid' = noid ++ filter (fun r => has_no_key h r) papers
  /\ Forall (fun r => identified h r) papers
  /\ forall k,
       let new := filter (fun r => has_key h k r) papers in
       glookup pg' k =
       match glookup pg k with
       | Some g => Some (g ++ new)
       | None => if decide (new = []) then None else Some new
       end.
Proof.
  revert pg noid. induction papers as [|r papers IH]; intros pg noid H Hwf.
  - simpl in H. inv_ok. split_and!; [done|by rewrite app_nil_r|done|].
    intros k. simpl. destruct (glookup _ k); [by rewrite app_nil_r|done].
  - simpl in H. apply bind_ok in H as (paper & Hd & H).
    apply bind_ok in H as (o & Hid & H).
    pose proof (identified_key_of _ _ _ _ Hd Hid) as Hk.
    assert (Hidd : identified h r) by by rewrite /identified Hd /= Hid.
    destruct o as [k0|].
    + apply IH in H as (Hwf' & -> & Hall & Hg); [|by apply groups_add_wf].
      split_and!; [done| |by constructor|].
      * f_equal. rewrite filter_cons /has_no_key. rewrite Hk.
        by rewrite bool_decide_eq_false_2.
      * intros k. specialize (Hg k). simpl in Hg. rewrite Hg glookup_add.
        rewrite (filter_cons _ r) /has_key Hk.
        destruct (decide (k0 = k)) as [E|E].
        -- subst k0. rewrite bool_decide_eq_true_2 //.
           destruct (glookup pg k) as [g|]; simpl.
           ++ by rewrite -app_assoc.
           ++ by case_decide.
        -- rewrite bool_decide_eq_false_2; [congruence|]. done.
    + apply IH in H as (Hwf' & -> & Hall & Hg); [|done].
      split_and!; [done| |by constructor|].
      * rewrite -app_assoc. f_equal. rewrite filter_cons /has_no_key Hk.
        by rewrite bool_decide_eq_true_2.
      * intros k. specialize (Hg k). simpl in Hg. rewrite Hg.
        rewrite (filter_cons _ r) /has_key Hk.
        by rewrite bool_decide_eq_false_2.
Qed.

Lemma group_loop_total (h : heap) (papers : list ref) (pg : groups)
    (noid : list ref) :
  Forall (fun r => identified h r) papers ->
  exists pg' noid', group_loop h papers pg noid = Ok (pg', noid').
Proof.
  intros Hall. revert pg noid.
  induction Hall as [|r papers Hr _ IH]; intros pg noid; simpl; [eauto|].
  rewrite /identified in Hr. destruct (deref h r) as [paper|]; [|done].
  simpl in *. destruct (paper_identifier paper) as [[k|]|]; [| |done]; simpl;
    apply IH.
Qed.

Lemma groups_wf_nil (h : heap) : groups_wf h [].
Proof.
  split; [constructor|]. intros k g Hin. by apply elem_of_nil in Hin.
Qed.

(** The groups of the first loop, started with no group. *)
Lemma groups_of_spec (h : heap) (papers : list ref) :
  Forall (fun r => identified h r) papers ->
  group_loop h papers [] [] =
    Ok (groups_of h papers, no_identifier_papers_of h papers)
  /\ groups_wf h (groups_of h papers)
  /\ forall k g, (k, g) ∈ groups_of h papers <->
       g = filter (fun r => has_key h k r) papers /\ g <> [].
Proof.
  intros Hid. destruct (group_loop_total h papers [] [] Hid) as (gs & noid & Hg).
  rewrite /groups_of Hg.
  apply group_loop_spec in Hg as (Hwf & -> & _ & Hl); [|apply groups_wf_nil].
  split_and!; [done|done|]. intros k g.
  rewrite glookup_elem_of; [by destruct Hwf|]. rewrite Hl /=.
  destruct (decide (filter (fun r => has_key h k r) papers = [])) as [E|E].
  - split; [done|]. intros [-> ?]. done.
  - split; [by intros [= <-]|]. by intros [-> _].
Qed.

Lemma groups_of_members (h : heap) (papers : list ref) (k : string)
    (g : list ref) (r : ref) :
  Forall (fun r => identified h r) papers ->
  (k, g) ∈ groups_of h papers -> r ∈ g -> r ∈ papers.
Proof.
  intros Hid Hin Hr. apply groups_of_spec in Hin as [-> _]; [|done].
  by apply list_elem_of_filter in Hr as [_ ?].
Qed.

(** ** Conflict detection: [len(set(decisions)) == 1] *)

Lemma py_set_from_length (s s' l : list value) :
  py_set_from s l = Ok s' -> length s <= length s'.
Proof.
  revert s. induction l as [|v l IH]; intros s H; simpl in H.
  - by inv_ok.
  - destruct (hashable v); [|done]. apply IH in H.
    destruct (set_mem v s); [done|]. rewrite length_app /= in H. lia.
Qed.

Lemma py_set_from_single (v : value) (l s : list value) :
  py_set_from [v] l = Ok s ->
  (length s =? 1)%nat = forallb (py_eq v) l.
Proof.
  induction l as [|x l IH]; intros H; simpl in H.
  - by inv_ok.
  - destruct (hashable x); [|done]. simpl. rewrite orb_false_r in H.
    destruct (py_eq v x); simpl.
    + by apply IH.
    + apply py_set_from_length in H. simpl in H.
      apply Nat.eqb_neq. lia.
Qed.

(** For a non-empty list, the set of its elements has one element exactly
    when all of them are equal. *)
Lemma py_set_all_equal (l s : list value) :
  l <> [] -> py_set l = Ok s -> (length s =? 1)%nat = all_equalb l.
Proof.
  destruct l as [|v l]; [done|]. intros _. rewrite /py_set /=.
  destruct (hashable v); [|done]. apply py_set_from_single.
Qed.

Lemma py_set_total (l : list value) :
  Forall (fun v => hashable v) l -> exists s, py_set l = Ok s.
Proof.
  intros H. rewrite /py_set. generalize (@nil value).
  induction H as [|v l Hv _ IH]; intros s; simpl; [eauto|].
  destruct (hashable v); [|done]. apply IH.
Qed.

(** [==] is an equivalence on the values that can be put in a set, so
    "each decision equals the first" is "any two decisions are equal". *)
Lemma py_eq_refl (a : value) : hashable a -> py_eq a a = true.
Proof.
  destruct a as [|b|q|s|l|d]; simpl; try done; intros _.
  - destruct b; by apply Qeq_bool_iff.
  - by apply Qeq_bool_iff.
  - apply String.eqb_refl.
Qed.

Lemma py_eq_sym (a b : value) : py_eq a b = true -> py_eq b a = true.
Proof.
  destruct a as [|x|x|x|x|x], b as [|y|y|y|y|y]; simpl; try done;
    try (intros H%Qeq_bool_iff; apply Qeq_bool_iff; by symmetry).
  intros H%String.eqb_eq. subst. apply String.eqb_refl.
Qed.

Lemma py_eq_trans (a b c : value) :
  py_eq a b = true -> py_eq b c = true -> py_eq a c = true.
Proof.
  destruct a as [|x|x|x|x|x], b as [|y|y|y|y|y], c as [|z|z|z|z|z];
    simpl; try done;
    try (intros H1%Qeq_bool_iff H2%Qeq_bool_iff; apply Qeq_bool_iff;
         by etransitivity).
  intros H1%String.eqb_eq H2%String.eqb_eq. subst. apply String.eqb_refl.
Qed.

Lemma all_equalb_pairwise (l : list value) :
  Forall (fun v => hashable v) l ->
  all_equalb l = true <-> forall x y, x ∈ l -> y ∈ l -> py_eq x y = true.
Proof.
  destruct l as [|v l]; intros Hh.
  - split; [|done]. intros _ x y Hx. by apply elem_of_nil in Hx.
  - simpl. rewrite forallb_forall. split.
    + intros Hall.
      assert (Hv : forall x, x ∈ v :: l -> py_eq v x = true).
      { intros x [->|Hx]%elem_of_cons.
        - apply py_eq_refl. by inversion Hh.
        - apply Hall. by apply list_elem_of_In. }
      intros x y Hx Hy.
      eapply py_eq_trans; [apply py_eq_sym, Hv, Hx|by apply Hv].
    + intros Hall x Hx. apply Hall; [by left|].
      right. by apply list_elem_of_In.
Qed.

(** ** The resolver runs through on displayable papers *)

Lemma is_ok_unit (r : res unit) : is_ok r -> r = Ok tt.
Proof. by destruct r as [[]|]. Qed.

Lemma check_format_num (v : value) :
  check_format_2f v = Ok tt -> exists q, num_of v = Some q.
Proof. destruct v; simpl; try done; eauto. Qed.

Lemma resolvable_format (p : pydict) :
  resolvable p -> check_format_2f (confidence_key p) = Ok tt.
Proof.
  rewrite /resolvable /show_details_of. intros H.
  repeat (apply andb_prop_elim in H as [H ?]).
  destruct (check_format_2f (confidence_key p)) as [[]|]; done.
Qed.

Lemma max_from_elem (best m : pydict) (l : list pydict) :
  max_from best l = Ok m -> m = best \/ m ∈ l.
Proof.
  revert best. induction l as [|p l IH]; intros best H; simpl in H.
  - inv_ok. by left.
  - apply bind_ok in H as (gt & _ & H).
    destruct gt; apply IH in H as [->|H];
      [right; by left|right; by right|by left|right; by right].
Qed.

Lemma max_from_total (best : pydict) (l : list pydict) :
  check_format_2f (confidence_key best) = Ok tt ->
  Forall (fun p => check_format_2f (confidence_key p) = Ok tt) l ->
  exists m, max_from best l = Ok m.
Proof.
  intros Hb Hl. revert best Hb.
  induction Hl as [|p l Hp _ IH]; intros best Hb; simpl; [eauto|].
  destruct (check_format_num _ Hp) as [x Hx].
  destruct (check_format_num _ Hb) as [y Hy].
  rewrite /py_gt Hx Hy /=. destruct (negb _); by apply IH.
Qed.

Lemma max_confidence_elem (l : list pydict) (m : pydict) :
  max_confidence l = Ok m -> m ∈ l.
Proof.
  destruct l as [|p l]; [done|]. simpl.
  intros [->|H]%max_from_elem; [by left|by right].
Qed.

Lemma show_conflict_total (ps : list pydict) :
  ps <> [] -> Forall (fun p => resolvable p) ps -> show_conflict ps = Ok tt.
Proof.
  destruct ps as [|p ps]; [done|]. intros _ Hall. rewrite /show_conflict.
  assert (Hp : resolvable p) by by inversion Hall.
  rewrite /resolvable in Hp. repeat (apply andb_prop_elim in Hp as [Hp ?]).
  rewrite (is_ok_unit (check_authors p)) // (is_ok_unit (check_abstract p)) //.
  cbn [bind]. apply forM_ok. eapply Forall_impl; [exact Hall|].
  intros q Hq. by apply resolvable_format.
Qed.

Lemma show_details_total (ps : list pydict) :
  Forall (fun p => resolvable p) ps -> forM_ show_details_of ps = Ok tt.
Proof.
  intros Hall. apply forM_ok. eapply Forall_impl; [exact Hall|].
  intros q Hq. rewrite /resolvable in Hq.
  repeat (apply andb_prop_elim in Hq as [Hq ?]). by apply is_ok_unit.
Qed.

Lemma resolvable_decision (p : pydict) :
  resolvable p -> exists v, dict_get p "decision" = Some v.
Proof.
  rewrite /resolvable /dict_index. intros H.
  repeat (apply andb_prop_elim in H as [H ?]).
  destruct (dict_get p "decision"); [eauto|done].
Qed.

Section ResolverTotal.

Variable py_repr : value -> string.

Lemma resolve_manual_total (verdict method ts : string) (ps : list pydict) :
  ps <> [] -> exists d, resolve_manual py_repr verdict method ts ps = Ok d.
Proof. destruct ps; [done|]. simpl. eauto. Qed.

Lemma resolve_highest_total (ts : string) (ps : list pydict) :
  ps <> [] -> Forall (fun p => resolvable p) ps ->
  exists d, resolve_highest ts ps = Ok d.
Proof.
  intros Hne Hall. rewrite /resolve_highest.
  assert (exists m, max_confidence ps = Ok m) as [m Hm].
  { destruct ps as [|p ps]; [done|]. simpl.
    inversion Hall as [|? ? Hp Hps]; subst.
    apply max_from_total; [by apply resolvable_format|].
    eapply Forall_impl; [exact Hps|]. intros q Hq.
    by apply resolvable_format. }
  rewrite Hm /=. apply max_confidence_elem in Hm.
  rewrite Forall_forall in Hall. specialize (Hall _ Hm).
  destruct (resolvable_decision _ Hall) as [v Hv].
  rewrite /dict_index dict_get_set_ne // Hv /=.
  rewrite /confidence_key get_default_set_ne //.
  fold (confidence_key m). rewrite resolvable_format //=. eauto.
Qed.

Lemma resolve_recent_total (ts : string) (ps : list pydict) :
  ps <> [] -> Forall (fun p => resolvable p) ps ->
  exists d, resolve_recent ts ps = Ok d.
Proof.
  intros Hne Hall. rewrite /resolve_recent.
  destruct (last ps) as [m|] eqn:El;
    [|by apply last_None in El].
  assert (Hm : m ∈ ps).
  { apply last_Some in El as [l' ->]. apply elem_of_app. right. by left. }
  rewrite Forall_forall in Hall. specialize (Hall _ Hm).
  destruct (resolvable_decision _ Hall) as [v Hv].
  rewrite /dict_index dict_get_set_ne // Hv /=. eauto.
Qed.

(** The prompt returns as soon as a line is one of the options 1 to 4;
    the lines before it are consumed too. *)
Lemma prompt_loop_total (ps : list pydict) (ts : string) (lines : list string) :
  ps <> [] -> Forall (fun p => resolvable p) ps ->
  0 < answers lines ->
  exists d rest,
    prompt_loop py_repr ps ts lines = Ok (d, rest)
    /\ answers rest = answers lines - 1.
Proof.
  intros Hne Hall. induction lines as [|line lines IH]; intros Ha.
  - rewrite /answers /= in Ha. lia.
  - rewrite /answers filter_cons /resolving in Ha |- *. simpl.
    destruct (String.eqb (strip line) "1") eqn:E1.
    { destruct (resolve_manual_total "INCLUDE" "manual_include" ts ps Hne)
        as [d ->]. simpl. exists d, lines. split; [done|]. lia. }
    destruct (String.eqb (strip line) "2") eqn:E2.
    { destruct (resolve_manual_total "EXCLUDE" "manual_exclude" ts ps Hne)
        as [d ->]. simpl. exists d, lines. split; [done|]. lia. }
    destruct (String.eqb (strip line) "3") eqn:E3.
    { destruct (resolve_highest_total ts ps Hne Hall) as [d ->]. simpl.
      exists d, lines. split; [done|]. lia. }
    destruct (String.eqb (strip line) "4") eqn:E4.
    { destruct (resolve_recent_total ts ps Hne Hall) as [d ->]. simpl.
      exists d, lines. split; [done|]. lia. }
    simpl in Ha |- *. rewrite show_details_total //=.
    destruct (String.eqb (strip line) "5"); by apply IH.
Qed.

Lemma resolve_screening_conflict_total (ps : list pydict) (k : string)
    (w : world) :
  ps <> [] -> Forall (fun p => resolvable p) ps ->
  0 < answers (stdin w) ->
  exists d w',
    resolve_screening_conflict py_repr ps k w = Ok (d, w')
    /\ answers (stdin w') = answers (stdin w) - 1.
Proof.
  intros Hne Hall Ha. rewrite /resolve_screening_conflict.
  rewrite show_conflict_total //=.
  destruct (prompt_loop_total ps (clock w (ticks w)) (stdin w) Hne Hall Ha)
    as (d & rest & -> & Hrest). simpl. eauto.
Qed.

End ResolverTotal.

(** ** What the prompt returns *)

Section ResolverResult.

Variable py_repr : value -> string.

Lemma selected_resolving (lines : list string) (c : string) :
  selected lines = Some c ->
  c = "1" \/ c = "2" \/ c = "3" \/ c = "4".
Proof.
  induction lines as [|line lines IH]; [done|]. simpl.
  destruct (resolving line) eqn:E; [|done]. intros [= <-].
  rewrite /resolving in E.
  destruct (String.eqb_spec (strip line) "1"); [by left|].
  destruct (String.eqb_spec (strip line) "2"); [by right; left|].
  destruct (String.eqb_spec (strip line) "3"); [by right; right; left|].
  destruct (String.eqb_spec (strip line) "4"); [by right; right; right|].
  done.
Qed.

(** A returning prompt has run the branch of the selected option. *)
Lemma prompt_loop_ok (ps : list pydict) (ts : string) (lines rest : list string)
    (d : pydict) :
  prompt_loop py_repr ps ts lines = Ok (d, rest) ->
  exists c, selected lines = Some c /\ resolve_choice py_repr c ts ps = Ok d.
Proof.
  induction lines as [|line lines IH]; [done|]. simpl.
  rewrite /resolving /resolve_choice.
  destruct (String.eqb (strip line) "1") eqn:E1.
  { intros H. inv_ok. exists (strip line). by rewrite E1. }
  destruct (String.eqb (strip line) "2") eqn:E2.
  { intros H. inv_ok. exists (strip line). by rewrite E1 E2. }
  destruct (String.eqb (strip line) "3") eqn:E3.
  { intros H. inv_ok. exists (strip line). by rewrite E1 E2 E3. }
  destruct (String.eqb (strip line) "4") eqn:E4.
  { intros H. inv_ok. exists (strip line). by rewrite E1 E2 E3. }
  simpl. destruct (String.eqb (strip line) "5").
  - intros H. apply bind_ok in H as (_ & _ & H). by apply IH.
  - apply IH.
Qed.

(** On displayable papers the prompt returns what the selected option
    gives, whatever was typed before it. *)
Lemma prompt_loop_selected (ps : list pydict) (ts c : string)
    (lines : list string) :
  Forall (fun p => resolvable p) ps ->
  selected lines = Some c ->
  exists rest,
    prompt_loop py_repr ps ts lines =
      (let* d := resolve_choice py_repr c ts ps in Ok (d, rest)).
Proof.
  intros Hall. induction lines as [|line lines IH]; [done|]. simpl.
  rewrite /resolving /resolve_choice.
  destruct (String.eqb (strip line) "1") eqn:E1.
  { intros [= <-]. exists lines. by rewrite E1. }
  destruct (String.eqb (strip line) "2") eqn:E2.
  { intros [= <-]. exists lines. by rewrite E1 E2. }
  destruct (String.eqb (strip line) "3") eqn:E3.
  { intros [= <-]. exists lines. by rewrite E1 E2 E3. }
  destruct (String.eqb (strip line) "4") eqn:E4.
  { intros [= <-]. exists lines. by rewrite E1 E2 E3. }
  simpl. intros Hs. rewrite show_details_total //=.
  destruct (String.eqb (strip line) "5"); by apply IH.
Qed.

Lemma resolution_field_ne (k : string) :
  resolution_field k = false ->
  "decision" <> k /\ "confidence" <> k /\ "reason" <> k
  /\ "conflict_resolution" <> k.
Proof.
  rewrite /resolution_field. intros H.
  repeat (apply orb_false_elim in H as [H ?]).
  split_and!; intros <-; done.
Qed.

(** Options 1 and 2: a copy of the first paper with the verdict, the
    confidence 1.0, a reason and the resolution block. *)
Lemma resolve_manual_result (verdict method ts : string) (ps : list pydict)
    (d : pydict) :
  resolve_manual py_repr verdict method ts ps = Ok d ->
  exists first reason,
    head ps = Some first
    /\ dict_get d "decision" = Some (VStr verdict)
    /\ dict_get d "confidence" = Some (VNum 1)
    /\ dict_get d "reason" = Some (VStr reason)
    /\ dict_get d "conflict_resolution" =
       Some (VDict [("method", VStr method); ("timestamp", VStr ts);
                    ("original_decisions", original_decisions ps)])
    /\ forall k, resolution_field k = false ->
         dict_get d k = dict_get first k.
Proof.
  destruct ps as [|first ps]; [done|]. simpl. intros [= <-].
  eexists first, _. split_and!; [done| | | | |].
  - do 3 (rewrite dict_get_set_ne //). by rewrite dict_get_set_eq.
  - do 2 (rewrite dict_get_set_ne //). by rewrite dict_get_set_eq.
  - rewrite dict_get_set_ne //. by rewrite dict_get_set_eq.
  - by rewrite dict_get_set_eq.
  - intros k (? & ? & ? & ?)%resolution_field_ne.
    by rewrite !dict_get_set_ne.
Qed.

End ResolverResult.

(** ** The highest confidence: [max] returns the first maximum *)

Lemma py_gt_conf (p best : pydict) (gt : bool) :
  py_gt (confidence_key p) (confidence_key best) = Ok gt ->
  if gt then Qlt (conf best) (conf p) else Qle (conf p) (conf best).
Proof.
  rewrite /py_gt /conf.
  destruct (num_of (confidence_key p)) as [x|]; [|done].
  destruct (num_of (confidence_key best)) as [y|]; [|done].
  intros [= <-]. simpl. destruct (Qle_bool x y) eqn:E; simpl.
  - by apply Qle_bool_iff.
  - apply Qnot_le_lt. intros H. apply Qle_bool_iff in H. congruence.
Qed.

Lemma max_from_spec (best m : pydict) (l : list pydict) :
  max_from best l = Ok m ->
  (m = best /\ forall p, p ∈ l -> Qle (conf p) (conf best))
  \/ (exists l1 l2,
        l = l1 ++ m :: l2
        /\ Qlt (conf best) (conf m)
        /\ (forall p, p ∈ l1 -> Qlt (conf p) (conf m))
        /\ (forall p, p ∈ l2 -> Qle (conf p) (conf m))).
Proof.
  revert best. induction l as [|p l IH]; intros best H; simpl in H.
  - inv_ok. left. split; [done|]. intros p Hp. by apply elem_of_nil in Hp.
  - apply bind_ok in H as (gt & Hgt & H). apply py_gt_conf in Hgt.
    destruct gt; apply IH in H as [[-> Hle]|(l1 & l2 & -> & Hlt & H1 & H2)].
    + right. exists [], l. split_and!; try done.
      intros q Hq. by apply elem_of_nil in Hq.
    + right. exists (p :: l1), l2. split_and!; try done.
      * by eapply Qlt_trans.
      * intros q [->|Hq]%elem_of_cons; [done|by apply H1].
    + left. split; [done|].
      intros q [->|Hq]%elem_of_cons; [done|by apply Hle].
    + right. exists (p :: l1), l2. split_and!; try done.
      intros q [->|Hq]%elem_of_cons; [|by apply H1].
      by eapply Qle_lt_trans.
Qed.

(** [max_confidence] picks a member whose confidence no member exceeds
    and no earlier member reaches. *)
Lemma max_confidence_spec (ps : list pydict) (m : pydict) :
  max_confidence ps = Ok m ->
  exists l1 l2,
    ps = l1 ++ m :: l2
    /\ (forall p, p ∈ l1 -> Qlt (conf p) (conf m))
    /\ (forall p, p ∈ l2 -> Qle (conf p) (conf m)).
Proof.
  destruct ps as [|best l]; [done|]. simpl.
  intros [[-> Hle]|(l1 & l2 & -> & Hlt & H1 & H2)]%max_from_spec.
  - exists [], l. split_and!; try done.
    intros q Hq. by apply elem_of_nil in Hq.
  - exists (best :: l1), l2. split_and!; try done.
    intros q [->|Hq]%elem_of_cons; [done|by apply H1].
Qed.

Lemma resolve_highest_result (ts : string) (ps : list pydict) (d : pydict) :
  resolve_highest ts ps = Ok d ->
  exists m,
    max_confidence ps = Ok m
    /\ d = dict_set m "conflict_resolution"
             (VDict [("method", VStr "highest_confidence");
                     ("timestamp", VStr ts);
                     ("selected_confidence", get_none m "confidence");
                     ("selected_from_query",
                      get_none m "source_query_description");
                     ("original_decisions", original_decisions ps)]).
Proof.
  rewrite /resolve_highest. intros H.
  apply bind_ok in H as (m & Hm & H). inv_ok. by exists m.
Qed.

Lemma resolve_recent_result (ts : string) (ps : list pydict) (d : pydict) :
  resolve_recent ts ps = Ok d ->
  exists m,
    last ps = Some m
    /\ d = dict_set m "conflict_resolution"
             (VDict [("method", VStr "most_recent");
                     ("timestamp", VStr ts);
                     ("selected_from_query",
                      get_none m "source_query_description");
                     ("original_decisions", original_decisions ps)]).
Proof.
  rewrite /resolve_recent. destruct (last ps) as [m|]; [|done].
  intros H. inv_ok. by exists m.
Qed.

(** Whatever the option, the answer is a member with some of the four
    resolution fields rewritten, and its resolution block lists every
    original decision. *)
Lemma resolve_choice_audit (py_repr : value -> string) (c ts : string)
    (ps : list pydict) (d : pydict) :
  resolve_choice py_repr c ts ps = Ok d ->
  exists src block,
    src ∈ ps
    /\ dict_get d "conflict_resolution" = Some (VDict block)
    /\ dict_get block "original_decisions" = Some (original_decisions ps)
    /\ forall k, resolution_field k = false -> dict_get d k = dict_get src k.
Proof.
  rewrite /resolve_choice.
  destruct (String.eqb c "1"); [|destruct (String.eqb c "2");
    [|destruct (String.eqb c "3")]].
  - intros (first & reason & Hh & _ & _ & _ & Hb & Hk)%resolve_manual_result.
    eexists first, _. split_and!; [by apply head_elem_of|exact Hb|done|done].
  - intros (first & reason & Hh & _ & _ & _ & Hb & Hk)%resolve_manual_result.
    eexists first, _. split_and!; [by apply head_elem_of|exact Hb|done|done].
  - intros (m & Hm & ->)%resolve_highest_result.
    eexists m, _. split_and!; [by apply max_confidence_elem| | |].
    + by rewrite dict_get_set_eq.
    + done.
    + intros k (? & ? & ? & ?)%resolution_field_ne.
      by rewrite dict_get_set_ne.
  - intros (m & Hm & ->)%resolve_recent_result.
    eexists m, _. split_and!.
    + apply last_Some in Hm as [l' ->]. apply elem_of_app. right. by left.
    + by rewrite dict_get_set_eq.
    + done.
    + intros k (? & ? & ? & ?)%resolution_field_ne.
      by rewrite dict_get_set_ne.
Qed.

(** ** The second loop: one group at a time *)

Section Merge.

Variable py_repr : value -> string.

Lemma conflicting_singleton (h : heap) (g : list ref) :
  length g = 1 -> conflicting h g = false.
Proof. destruct g as [|r [|r' g]]; try done. Qed.

(** One iteration, read off the code. *)
Lemma process_group_step (identifier : string) (g : list ref)
    (st st1 : merge_state) :
  process_group py_repr identifier g st = Ok st1 ->
  g <> [] ->
  exists o,
    unique_papers st1 = unique_papers st ++ [o]
    /\ duplicates_removed st1 =
       (duplicates_removed st
        + (if multi_member g then Z.of_nat (length g) - 1 else 0))%Z
    /\ conflicts_resolved st1 =
       (conflicts_resolved st
        + (if conflicting (st_heap st) g then 1 else 0))%Z
    /\ if (length g =? 1)%nat then
         head g = Some o /\ st_heap st1 = st_heap st
         /\ st_world st1 = st_world st
       else if conflicting (st_heap st) g then
         o = length (st_heap st) /\
         Forall (fun r => r < length (st_heap st)) g /\
         exists d',
           resolve_screening_conflict py_repr (cells (st_heap st) g)
             identifier (st_world st) = Ok (d', st_world st1)
           /\ st_heap st1 = st_heap st ++ [d']
       else
         head g = Some o /\
         Forall (fun r => r < length (st_heap st)) g /\
         st_heap st1 =
           <[o := dict_set (default [] (st_heap st !! o)) "duplicate_sources"
                    (VList (map duplicate_source (cells (st_heap st) g)))]>
             (st_heap st)
         /\ st_world st1 = st_world st.
Proof.
  intros H Hne. rewrite /process_group in H.
  destruct (length g =? 1)%nat eqn:El.
  - apply Nat.eqb_eq in El. destruct g as [|r [|r' g]]; try done.
    simpl in H. inv_ok. exists r. simpl.
    rewrite /multi_member /=. split_and!; try done; lia.
  - apply Nat.eqb_neq in El.
    assert (Hm : multi_member g = true).
    { rewrite /multi_member. apply Nat.ltb_lt.
      destruct g as [|r [|r' g]]; simpl in *; try done; lia. }
    apply bind_ok in H as (ps & Hps & H).
    apply mapM_deref_cells in Hps as [-> Hvalid].
    apply bind_ok in H as (s & Hs & H).
    assert (Hc : (length s =? 1)%nat = negb (conflicting (st_heap st) g)).
    { rewrite /conflicting negb_involutive. apply py_set_all_equal; [|done].
      destruct g; [done|]. done. }
    rewrite Hc in H. rewrite Hm.
    destruct (conflicting (st_heap st) g) eqn:Ec; simpl in H.
    + apply bind_ok in H as ([d' w'] & Hr & H). inv_ok.
      exists (length (st_heap st)). simpl. split_and!; try done. eauto.
    + destruct g as [|r0 g]; [done|]. simpl in H.
      inv_ok. rewrite /deref in Ha.
      destruct (st_heap st !! r0) as [d0|] eqn:E0; [|done]. inv_ok.
      exists r0. cbn [unique_papers duplicates_removed conflicts_resolved
                      st_heap st_world head].
      split_and!; try done; [lia|].
      by rewrite /cells /= E0.
Qed.

Lemma groups_wf_cons (h : heap) (k : string) (g : list ref) (gs : groups) :
  groups_wf h ((k, g) :: gs) ->
  groups_wf h gs
  /\ g <> []
  /\ (forall r, r ∈ g -> r < length h /\ key_of h r = Some k)
  /\ (forall k' g' r, (k', g') ∈ gs -> r ∈ g -> r ∉ g').
Proof.
  intros [Hnd Hm]. simpl in Hnd. apply NoDup_cons in Hnd as [Hk Hnd].
  assert (Hhd : (k, g) ∈ (k, g) :: gs) by by left.
  destruct (Hm _ _ Hhd) as [Hne Hg].
  split_and!; try done.
  - split; [done|]. intros k' g' Hin. apply Hm. by right.
  - intros k' g' r Hin Hr Hr'.
    assert (Hin' : (k', g') ∈ (k, g) :: gs) by by right.
    destruct (Hm _ _ Hin') as [_ Hg'].
    destruct (Hg _ Hr) as [_ E1]. destruct (Hg' _ Hr') as [_ E2].
    assert (k' = k) as -> by congruence.
    apply Hk. apply list_elem_of_fmap. by exists (k, g').
Qed.

Lemma cells_agree (h h0 : heap) (g : list ref) :
  (forall r, r ∈ g -> h !! r = h0 !! r) -> cells h g = cells h0 g.
Proof.
  intros H. rewrite /cells. apply map_ext_in. intros r Hr.
  rewrite H //. by apply list_elem_of_In.
Qed.

Lemma count_conflicts_cons (h : heap) (k : string) (g : list ref) (gs : groups) :
  count_conflicts h ((k, g) :: gs) =
  ((if conflicting h g then 1 else 0) + count_conflicts h gs)%Z.
Proof.
  rewrite /count_conflicts filter_cons /=.
  destruct (conflicting h g); simpl; lia.
Qed.

(** The second loop as a whole: one output per group, in group order, and
    the two counters. *)
Lemma process_groups_spec (h0 : heap) (gs : groups) (st st' : merge_state) :
  process_groups py_repr gs st = Ok st' ->
  groups_wf h0 gs ->
  length h0 <= length (st_heap st) ->
  (forall k g r, (k, g) ∈ gs -> r ∈ g -> st_heap st !! r = h0 !! r) ->
  exists outs,
    unique_papers st' = unique_papers st ++ outs
    /\ Forall2 (emitted py_repr h0 (st_heap st')) gs outs
    /\ duplicates_removed st' = (duplicates_removed st + sum_duplicates gs)%Z
    /\ conflicts_resolved st' =
       (conflicts_resolved st + count_conflicts h0 gs)%Z
    /\ length (st_heap st) <= length (st_heap st')
    /\ (forall r, r < length (st_heap st) ->
          (forall k g, (k, g) ∈ gs -> head g <> Some r) ->
          st_heap st' !! r = st_heap st !! r).
Proof.
  revert st. induction gs as [|[k g] gs IH]; intros st H Hwf Hlen Hag.
  - simpl in H. inv_ok. exists []. rewrite app_nil_r /count_conflicts /=.
    split_and!; try done; try lia.
  - simpl in H. apply bind_ok in H as (st1 & Hstep & H).
    apply groups_wf_cons in Hwf as (Hwf & Hne & Hg & Hdisj).
    assert (Hcells : cells (st_heap st) g = cells h0 g).
    { apply cells_agree. intros r Hr. apply (Hag k g); [by left|done]. }
    assert (Hconf : conflicting (st_heap st) g = conflicting h0 g)
      by by rewrite /conflicting Hcells.
    apply process_group_step in Hstep as (o & Hout & Hdr & Hcr & Hheap);
      [|done].
    rewrite Hconf in Hcr. rewrite Hconf Hcells in Hheap.
    assert (Hfacts :
      length (st_heap st) <= length (st_heap st1)
      /\ (forall k' g' r, (k', g') ∈ gs -> r ∈ g' ->
            st_heap st1 !! r = h0 !! r)
      /\ o < length (st_heap st1)
      /\ (forall k' g', (k', g') ∈ gs -> head g' <> Some o)
      /\ (forall r, r < length (st_heap st) -> head g <> Some r ->
            st_heap st1 !! r = st_heap st !! r)
      /\ (emitted py_repr h0 (st_heap st1) (k, g) o)).
    { rewrite /emitted /=.
      destruct (length g =? 1)%nat eqn:El.
      - destruct Hheap as (Hhd & Hh & _). rewrite Hh.
        pose proof (head_elem_of _ _ Hhd) as Ho.
        split_and!; try done.
        + intros k' g' r Hin Hr. apply (Hag k' g'); [by right|done].
        + destruct (Hg _ Ho). lia.
        + intros k' g' Hin Hh'. apply (Hdisj k' g' o Hin Ho).
          by apply head_elem_of.
        + apply (Hag k g); [by left|done].
      - destruct (conflicting h0 g) eqn:Ec.
        + destruct Hheap as (-> & Hv & d' & Hr & Hh). rewrite Hh.
          rewrite length_app /=. split_and!; try lia.
          * intros k' g' r Hin Hr'.
            assert (Hwf' := Hwf). destruct Hwf' as [_ Hm].
            destruct (Hm _ _ Hin) as [_ Hm'].
            destruct (Hm' _ Hr') as [Hlt _].
            rewrite lookup_app_l; [lia|].
            apply (Hag k' g'); [by right|done].
          * intros k' g' Hin Hh'.
            apply head_elem_of in Hh'.
            destruct Hwf as [_ Hm]. destruct (Hm _ _ Hin) as [_ Hm'].
            destruct (Hm' _ Hh') as [Hlt _]. lia.
          * intros r Hr' _. by rewrite lookup_app_l.
          * exists d', (st_world st), (st_world st1).
            split; [|done]. by rewrite list_lookup_middle.
        + destruct Hheap as (Hhd & Hv & Hh & _). rewrite Hh.
          pose proof (head_elem_of _ _ Hhd) as Ho.
          destruct (Hg _ Ho) as [Hlt _].
          rewrite length_insert. split_and!; try done; try lia.
          * intros k' g' r Hin Hr'.
            rewrite list_lookup_insert_ne.
            { intros ->. by apply (Hdisj k' g' r Hin Ho). }
            apply (Hag k' g'); [by right|done].
          * intros k' g' Hin Hh'. apply (Hdisj k' g' o Hin Ho).
            by apply head_elem_of.
          * intros r Hr' Hne'. rewrite list_lookup_insert_ne; [|done].
            congruence.
          * rewrite list_lookup_insert_eq; [lia|].
            rewrite (Hag k g o); [by left|done|]. done. }
    destruct Hfacts as (Hlen1 & Hag1 & Holt & Hnh & Hframe1 & Hem).
    apply IH in H as (outs & Hout' & Hall & Hdr' & Hcr' & Hlen' & Hframe);
      [|done|lia|done].
    exists (o :: outs). split_and!.
    + by rewrite Hout' Hout -app_assoc.
    + constructor; [|done].
      revert Hem. rewrite /emitted /=.
      destruct (length g =? 1)%nat; [|destruct (conflicting h0 g)].
      * intros [? E]. split; [done|]. rewrite -E. by apply Hframe.
      * intros (? & d' & w & w' & E & ?). split; [done|].
        exists d', w, w'. split; [|done]. rewrite -E. by apply Hframe.
      * intros [? E]. split; [done|]. rewrite -E. by apply Hframe.
    + rewrite Hdr' Hdr /=. lia.
    + rewrite Hcr' Hcr count_conflicts_cons. lia.
    + lia.
    + intros r Hr Hnh'. rewrite Hframe; [lia| |].
      * intros k' g' Hin. apply (Hnh' k' g'). by right.
      * apply Hframe1; [done|]. apply (Hnh' k g). by left.
Qed.

(** ** The merge as a whole *)

Lemma dedup_spec (h : heap) (w : world) (papers : list ref) (st : merge_state) :
  deduplicate_with_conflict_resolution py_repr h w papers = Ok st ->
  let gs := groups_of h papers in
  groups_wf h gs
  /\ Forall (fun r => identified h r) papers
  /\ exists outs,
       unique_papers st = outs ++ no_identifier_papers_of h papers
       /\ Forall2 (emitted py_repr h (st_heap st)) gs outs
       /\ duplicates_removed st = sum_duplicates gs
       /\ conflicts_resolved st = count_conflicts h gs
       /\ length h <= length (st_heap st)
       /\ (forall r, r < length h ->
             (forall k g, (k, g) ∈ gs -> head g <> Some r) ->
             st_heap st !! r = h !! r).
Proof.
  intros H. rewrite /deduplicate_with_conflict_resolution in H.
  destruct papers as [|r0 papers0] eqn:Ep.
  - inv_ok. rewrite /groups_of /no_identifier_papers_of /=.
    split_and!; [apply groups_wf_nil|done|]. exists []. simpl.
    split_and!; try done.
  - rewrite -Ep in H |- *. clear Ep.
    apply bind_ok in H as ([gs noid] & Hg & H).
    apply bind_ok in H as (st1 & Hp & H). inv_ok.
    rewrite /groups_of Hg. cbn [unique_papers st_heap duplicates_removed
                                conflicts_resolved].
    apply group_loop_spec in Hg as (Hwf & Hnoid & Hid & _);
      [|apply groups_wf_nil].
    apply process_groups_spec with (h0 := h) in Hp
      as (outs & Hout & Hall & Hdr & Hcr & Hlen & Hframe); try done.
    simpl in *. split_and!; try done. exists outs.
    split_and!; try done; try lia.
    by rewrite Hout Hnoid.
Qed.

(** ** The merge returns on well-formed input *)

Lemma resolvable_hashable (p : pydict) :
  resolvable p -> hashable (decision_of p).
Proof.
  rewrite /resolvable. intros H.
  by repeat (apply andb_prop_elim in H as [H ?]).
Qed.

Lemma process_group_total (k : string) (g : list ref) (st : merge_state) :
  g <> [] ->
  Forall (fun r => r < length (st_heap st)) g ->
  Forall (fun p => resolvable p) (cells (st_heap st) g) ->
  (conflicting (st_heap st) g -> 0 < answers (stdin (st_world st))) ->
  exists st1,
    process_group py_repr k g st = Ok st1
    /\ answers (stdin (st_world st1)) =
       answers (stdin (st_world st))
       - (if conflicting (st_heap st) g then 1 else 0).
Proof.
  intros Hne Hv Hres Hans. rewrite /process_group.
  destruct (length g =? 1)%nat eqn:El.
  - apply Nat.eqb_eq in El. rewrite conflicting_singleton //.
    destruct g as [|r g]; [done|]. simpl. eexists. split; [done|]. simpl. lia.
  - rewrite cells_mapM_deref //. cbn [bind].
    destruct (py_set_total (map decision_of (cells (st_heap st) g))) as [s Hs].
    { apply Forall_fmap. eapply Forall_impl; [exact Hres|].
      intros p Hp. by apply resolvable_hashable. }
    rewrite Hs. cbn [bind].
    assert (Hc : (length s =? 1)%nat = negb (conflicting (st_heap st) g)).
    { rewrite /conflicting negb_involutive. apply py_set_all_equal; [|done].
      by destruct g. }
    rewrite Hc. destruct (conflicting (st_heap st) g) eqn:Ec; simpl.
    + destruct (resolve_screening_conflict_total py_repr
                  (cells (st_heap st) g) k (st_world st))
        as (d & w' & -> & Hw'); [by destruct g|done|by apply Hans|].
      simpl. eexists. split; [done|]. simpl. lia.
    + destruct g as [|r0 g]; [done|]. simpl.
      inversion Hv as [|? ? Hr0 _]; subst.
      destruct (lookup_lt_is_Some_2 _ _ Hr0) as [d0 E0].
      rewrite /deref E0 /=. eexists. split; [done|]. simpl. lia.
Qed.

Lemma process_groups_single (k : string) (g : list ref) (st : merge_state) :
  process_groups py_repr [(k, g)] st = process_group py_repr k g st.
Proof. simpl. by destruct (process_group py_repr k g st). Qed.

Lemma process_groups_total (h0 : heap) (gs : groups) (st : merge_state) :
  groups_wf h0 gs ->
  length h0 <= length (st_heap st) ->
  (forall k g r, (k, g) ∈ gs -> r ∈ g -> st_heap st !! r = h0 !! r) ->
  (forall k g, (k, g) ∈ gs -> Forall (fun p => resolvable p) (cells h0 g)) ->
  (count_conflicts h0 gs <= Z.of_nat (answers (stdin (st_world st))))%Z ->
  exists st', process_groups py_repr gs st = Ok st'.
Proof.
  revert st. induction gs as [|[k g] gs IH]; intros st Hwf Hlen Hag Hres Hans.
  - simpl. eauto.
  - pose proof Hwf as Hwf0.
    apply groups_wf_cons in Hwf as (Hwf & Hne & Hg & Hdisj).
    assert (Hcells : cells (st_heap st) g = cells h0 g).
    { apply cells_agree. intros r Hr. apply (Hag k g); [by left|done]. }
    assert (Hconf : conflicting (st_heap st) g = conflicting h0 g)
      by by rewrite /conflicting Hcells.
    rewrite count_conflicts_cons in Hans.
    assert (Hnn : (0 <= count_conflicts h0 gs)%Z)
      by (rewrite /count_conflicts; lia).
    destruct (process_group_total k g st) as (st1 & Hst1 & Ha1); [done| | | |].
    { apply Forall_forall. intros r Hr. destruct (Hg _ Hr). lia. }
    { rewrite Hcells. apply (Hres k g). by left. }
    { rewrite Hconf. intros Hc. destruct (conflicting h0 g); [lia|done]. }
    simpl. rewrite Hst1. cbn [bind].
    assert (Hwf1 : groups_wf h0 [(k, g)]).
    { split; [apply NoDup_singleton|]. intros k' g' Hin.
      apply list_elem_of_singleton in Hin as [= -> ->]. done. }
    pose proof Hst1 as Hsingle. rewrite -process_groups_single in Hsingle.
    apply process_groups_spec with (h0 := h0) in Hsingle
      as (_ & _ & _ & _ & _ & Hlen1 & Hframe); [|done|done|].
    2:{ intros k' g' r Hin Hr.
        apply list_elem_of_singleton in Hin as [= -> ->].
        apply (Hag k g); [by left|done]. }
    apply IH; [done|lia| | |].
    + intros k' g' r Hin Hr. rewrite Hframe.
      * destruct Hwf as [_ Hm]. destruct (Hm _ _ Hin) as [_ Hm'].
        destruct (Hm' _ Hr). lia.
      * intros k0 g0 Hin0 Hh.
        apply list_elem_of_singleton in Hin0 as [= -> ->].
        apply head_elem_of in Hh. by apply (Hdisj k' g' r Hin Hh).
      * apply (Hag k' g'); [by right|done].
    + intros k' g' Hin. apply (Hres k' g'). by right.
    + rewrite Ha1 Hconf. destruct (conflicting h0 g); lia.
Qed.

Lemma well_formed_identified (h : heap) (papers : list ref) :
  Forall (fun r => well_formed h r) papers ->
  Forall (fun r => identified h r) papers.
Proof.
  intros Hall. eapply Forall_impl; [exact Hall|].
  intros r H. rewrite /well_formed in H.
  by apply andb_prop_elim in H as [? _].
Qed.

(** The early return on an empty list gives what the loops would give. *)
Lemma dedup_unfold (h : heap) (w : world) (papers : list ref) :
  deduplicate_with_conflict_resolution py_repr h w papers =
  let* (paper_groups, no_identifier_papers) := group_loop h papers [] [] in
  let* st :=
    process_groups py_repr paper_groups
      {| st_heap := h; st_world := w; unique_papers := [];
         duplicates_removed := 0; conflicts_resolved := 0 |} in
  Ok {| st_heap := st_heap st; st_world := st_world st;
        unique_papers := unique_papers st ++ no_identifier_papers;
        duplicates_removed := duplicates_removed st;
        conflicts_resolved := conflicts_resolved st |}.
Proof. by destruct papers. Qed.

Lemma dedup_total (h : heap) (w : world) (papers : list ref) :
  Forall (fun r => well_formed h r) papers ->
  (count_conflicts h (groups_of h papers) <= Z.of_nat (answers (stdin w)))%Z ->
  exists st, deduplicate_with_conflict_resolution py_repr h w papers = Ok st.
Proof.
  intros Hwf Hans. pose proof (well_formed_identified _ _ Hwf) as Hid.
  destruct (groups_of_spec h papers Hid) as (Hg & Hgwf & Hmem).
  rewrite dedup_unfold Hg. cbn [bind].
  match goal with
  | |- context [process_groups _ _ ?s] =>
      destruct (process_groups_total h (groups_of h papers) s) as [st' Hst']
  end.
  - done.
  - simpl. lia.
  - done.
  - intros k g Hin. apply Forall_fmap. apply Forall_forall. intros r Hr.
    pose proof (groups_of_members _ _ _ _ _ Hid Hin Hr) as Hp.
    rewrite Forall_forall in Hwf. specialize (Hwf _ Hp).
    rewrite /well_formed in Hwf. by apply andb_prop_elim in Hwf as [_ ?].
  - exact Hans.
  - rewrite Hst'. simpl. eauto.
Qed.

(** * The claims about the merge *)

Lemma Forall2_elem_of_l {A B : Type} (R : A -> B -> Prop) (l : list A)
    (k : list B) (x : A) :
  Forall2 R l k -> x ∈ l -> exists y, y ∈ k /\ R x y.
Proof.
  induction 1 as [|a b l k Hab _ IH]; intros Hx.
  - by apply elem_of_nil in Hx.
  - apply elem_of_cons in Hx as [->|Hx].
    + exists b. split; [by left|done].
    + destruct (IH Hx) as (y & Hy & HR). exists y. split; [by right|done].
Qed.

Lemma lower_empty (s : string) : lower s = "" <-> s = "".
Proof. by destruct s. Qed.

Lemma identified_cell (h : heap) (r : ref) :
  identified h r ->
  r < length h /\ h !! r = Some (cell h r)
  /\ exists o, paper_identifier (cell h r) = Ok o /\ key_of h r = o.
Proof.
  rewrite /identified /key_of /cell /deref.
  destruct (h !! r) as [p|] eqn:E; [|done]. simpl.
  destruct (paper_identifier p) as [o|]; [|done]. intros _.
  split_and!; [by eapply lookup_lt_Some|done|by exists o].
Qed.

Lemma no_identifier_key (h : heap) (r : ref) :
  identified h r -> no_identifier (cell h r) <-> key_of h r = None.
Proof.
  intros (_ & _ & o & Ho & ->)%identified_cell.
  rewrite /paper_identifier in Ho. rewrite /no_identifier.
  destruct (get_default (cell h r) "doi" (VStr "")) as [| | |s1| |];
    try done. simpl in Ho.
  destruct (get_default (cell h r) "openalex_id" (VStr "")) as [| | |s2| |];
    try done. simpl in Ho.
  apply bind_ok in Ho as ([] & _ & Ho). injection Ho as <-.
  destruct (String.eqb_spec (lower (strip s1)) "") as [E1|E1]; simpl.
  - pose proof (proj1 (lower_empty _) E1) as E1'. rewrite E1'. simpl.
    destruct (String.eqb_spec (strip s2) "") as [E2|E2]; simpl; done.
  - destruct (String.eqb_spec (strip s1) "") as [E1'|E1']; simpl.
    + exfalso. apply E1. by rewrite E1'.
    + done.
Qed.

Lemma no_identifier_filter (h : heap) (papers : list ref) :
  Forall (fun r => identified h r) papers ->
  no_identifier_papers_of h papers =
  filter (fun r => no_identifier (cell h r)) papers.
Proof.
  rewrite /no_identifier_papers_of.
  induction 1 as [|r papers Hr _ IH]; [done|].
  rewrite !filter_cons IH. apply no_identifier_key in Hr.
  rewrite /has_no_key.
  destruct (decide (key_of h r = None)) as [E|E].
  - rewrite bool_decide_eq_true_2 //.
    destruct (no_identifier (cell h r)); [done|]. by apply Hr in E.
  - rewrite bool_decide_eq_false_2 //.
    destruct (no_identifier (cell h r)); [|done]. exfalso. by apply E, Hr.
Qed.

(** C4. Conflict accounting: every run of the merge that returns gives a
    [conflicts_resolved] equal to the number of identity groups whose
    members' decisions are not all equal, and a [duplicates_removed] equal
    to the sum of (size - 1) over the groups with more than one member;
    and the merge does return on well-formed papers when the user answers
    every conflict. *)
Theorem conflict_accounting (h : heap) (w : world) (papers : list ref) :
  (forall st,
     deduplicate_with_conflict_resolution py_repr h w papers = Ok st ->
     conflicts_resolved st = count_conflicts h (groups_of h papers)
     /\ duplicates_removed st = sum_duplicates (groups_of h papers))
  /\ (Forall (fun r => well_formed h r) papers ->
      (count_conflicts h (groups_of h papers)
       <= Z.of_nat (answers (stdin w)))%Z ->
      exists st,
        deduplicate_with_conflict_resolution py_repr h w papers = Ok st).
Proof.
  split.
  - intros st H. apply dedup_spec in H as (_ & _ & outs & _ & _ & ? & ? & _).
    done.
  - apply dedup_total.
Qed.

(** C7. Papers without identifier: a record with no DOI and no external
    ID gets no identity key and is in no group; in every run that returns,
    the output ends with exactly these records, one entry per input
    occurrence and in input order, after one entry per group, and their
    objects are not modified.  The merge returns on well-formed papers
    when the user answers every conflict. *)
Theorem no_identifier_papers_kept (h : heap) (w : world) (papers : list ref) :
  (forall st,
     deduplicate_with_conflict_resolution py_repr h w papers = Ok st ->
     exists outs,
       length outs = length (groups_of h papers)
       /\ unique_papers st =
          outs ++ filter (fun r => no_identifier (cell h r)) papers
       /\ forall r, r ∈ papers -> no_identifier (cell h r) ->
            key_of h r = None
            /\ (forall k g, (k, g) ∈ groups_of h papers -> r ∉ g)
            /\ st_heap st !! r = h !! r)
  /\ (Forall (fun r => well_formed h r) papers ->
      (count_conflicts h (groups_of h papers)
       <= Z.of_nat (answers (stdin w)))%Z ->
      exists st,
        deduplicate_with_conflict_resolution py_repr h w papers = Ok st).
Proof.
  split; [|apply dedup_total].
  intros st H.
  apply dedup_spec in H as (Hwf & Hid & outs & Hout & Hall & _ & _ & _ & Hfr).
  exists outs. split_and!.
  - symmetry. by eapply Forall2_length.
  - by rewrite Hout no_identifier_filter.
  - intros r Hr Hno. rewrite Forall_forall in Hid. specialize (Hid _ Hr).
    pose proof (proj1 (no_identifier_key h r Hid) Hno) as Hk.
    assert (Hnot : forall k g, (k, g) ∈ groups_of h papers -> r ∉ g).
    { intros k g Hin Hrg. destruct Hwf as [_ Hm].
      destruct (Hm _ _ Hin) as [_ Hg]. destruct (Hg _ Hrg) as [_ E].
      congruence. }
    split_and!; [done|done|].
    apply Hfr; [by apply identified_cell in Hid as [? _]|].
    intros k g Hin Hh. apply (Hnot k g Hin). by apply head_elem_of.
Qed.

Lemma resolve_screening_conflict_ok (ps : list pydict) (k : string)
    (w w' : world) (d : pydict) :
  resolve_screening_conflict py_repr ps k w = Ok (d, w') ->
  show_conflict ps = Ok tt
  /\ exists c,
       selected (stdin w) = Some c
       /\ resolve_choice py_repr c (clock w (ticks w)) ps = Ok d.
Proof.
  rewrite /resolve_screening_conflict. intros H.
  apply bind_ok in H as ([] & Hshow & H).
  apply bind_ok in H as ([d0 rest] & Hp & H). injection H as <- _.
  split; [done|]. by eapply prompt_loop_ok.
Qed.

Lemma multi_member_length (g : list ref) :
  multi_member g -> (length g =? 1)%nat = false.
Proof.
  rewrite /multi_member. intros H%Is_true_true%Nat.ltb_lt.
  apply Nat.eqb_neq. lia.
Qed.

Lemma duplicate_source_triple (p : pydict) :
  record_triple (duplicate_source p) = Some (triple_of p).
Proof. done. Qed.

(** C9. A unanimous group with more than one member is represented by its
    first member itself: the emitted reference is that of the first input
    record, whose dictionary has been given the key [duplicate_sources] in
    place and agrees with what it was on every other key.  The merge
    returns on well-formed papers when the user answers every conflict. *)
Theorem unanimous_representative (h : heap) (w : world) (papers : list ref) :
  (forall st,
     deduplicate_with_conflict_resolution py_repr h w papers = Ok st ->
     forall k g,
       (k, g) ∈ groups_of h papers -> multi_member g ->
       conflicting h g = false ->
       exists r0 d0 d',
         head g = Some r0 /\ h !! r0 = Some d0
         /\ r0 ∈ unique_papers st
         /\ st_heap st !! r0 = Some d'
         /\ d' = dict_set d0 "duplicate_sources"
                   (VList (map duplicate_source (cells h g)))
         /\ forall key, key <> "duplicate_sources" ->
              dict_get d' key = dict_get d0 key)
  /\ (Forall (fun r => well_formed h r) papers ->
      (count_conflicts h (groups_of h papers)
       <= Z.of_nat (answers (stdin w)))%Z ->
      exists st,
        deduplicate_with_conflict_resolution py_repr h w papers = Ok st).
Proof.
  split; [|apply dedup_total].
  intros st H k g Hin Hmulti Hun.
  apply dedup_spec in H as (Hwf & Hid & outs & Hout & Hall & _).
  destruct (Forall2_elem_of_l _ _ _ _ Hall Hin) as (o & Ho & Hem).
  rewrite /emitted /= multi_member_length // Hun in Hem.
  destruct Hem as [Hhd Hcell].
  destruct Hwf as [_ Hm]. destruct (Hm _ _ Hin) as [_ Hg].
  destruct (Hg _ (head_elem_of _ _ Hhd)) as [Hlt _].
  destruct (lookup_lt_is_Some_2 _ _ Hlt) as [d0 Hd0].
  rewrite Hd0 /= in Hcell.
  eexists o, d0, _. split_and!; try done.
  - rewrite Hout. apply elem_of_app. by left.
  - intros key Hkey. by rewrite dict_get_set_ne.
Qed.

(** C1 as amended. For a unanimous group with more than one member the
    emitted paper is the first member and carries [duplicate_sources] with
    one record per member, in group order, whose (query id, decision,
    confidence) triples are the members'.  For a conflicting group the
    emitted paper is a new object to which the merge adds no
    [duplicate_sources]: that key reads as it did in the member that was
    copied, and the members' decisions are in
    [conflict_resolution.original_decisions], one record per member in
    group order.  The merge returns on well-formed papers when the user
    answers every conflict. *)
Theorem audit_trail (h : heap) (w : world) (papers : list ref) :
  (forall st,
     deduplicate_with_conflict_resolution py_repr h w papers = Ok st ->
     forall k g,
       (k, g) ∈ groups_of h papers -> multi_member g ->
       exists o d',
         o ∈ unique_papers st /\ st_heap st !! o = Some d'
         /\ if conflicting h g then
              h !! o = None
              /\ exists src block,
                   src ∈ cells h g
                   /\ dict_get d' "duplicate_sources" =
                      dict_get src "duplicate_sources"
                   /\ dict_get d' "conflict_resolution" = Some (VDict block)
                   /\ dict_get block "original_decisions" =
                      Some (VList (map original_decision (cells h g)))
            else
              head g = Some o
              /\ exists records,
                   dict_get d' "duplicate_sources" = Some (VList records)
                   /\ length records = length g
                   /\ map record_triple records =
                      map (fun p => Some (triple_of p)) (cells h g))
  /\ (Forall (fun r => well_formed h r) papers ->
      (count_conflicts h (groups_of h papers)
       <= Z.of_nat (answers (stdin w)))%Z ->
      exists st,
        deduplicate_with_conflict_resolution py_repr h w papers = Ok st).
Proof.
  split; [|apply dedup_total].
  intros st H k g Hin Hmulti.
  apply dedup_spec in H as (Hwf & Hid & outs & Hout & Hall & _).
  destruct (Forall2_elem_of_l _ _ _ _ Hall Hin) as (o & Ho & Hem).
  assert (Hoo : o ∈ unique_papers st).
  { rewrite Hout. apply elem_of_app. by left. }
  rewrite /emitted /= multi_member_length // in Hem.
  destruct (conflicting h g).
  - destruct Hem as (Hlen & d' & w0 & w' & Hd' & Hres).
    exists o, d'. split_and!; try done.
    { by apply lookup_ge_None. }
    apply resolve_screening_conflict_ok in Hres as (_ & c & _ & Hc).
    apply resolve_choice_audit in Hc as (src & block & Hsrc & Hb & Ho' & Hk).
    exists src, block. split_and!; try done. by apply Hk.
  - destruct Hem as [Hhd Hcell].
    eexists o, _. split_and!; try done.
    eexists. split_and!; [by rewrite dict_get_set_eq| |].
    + by rewrite length_map /cells length_map.
    + by rewrite map_map.
Qed.

Lemma selected_answers (lines : list string) (c : string) :
  selected lines = Some c -> 0 < answers lines.
Proof.
  induction lines as [|line lines IH]; [done|]. simpl.
  rewrite /answers filter_cons. destruct (resolving line); simpl; [lia|].
  apply IH.
Qed.

Lemma conflicting_multi (h : heap) (g : list ref) :
  conflicting h g -> g <> [] /\ (length g =? 1)%nat = false.
Proof. destruct g as [|r [|r' g]]; done. Qed.

(** On displayable papers the resolver returns what the selected option
    gives, having read the clock once. *)
Lemma resolve_screening_conflict_selected (ps : list pydict) (k c : string)
    (w : world) :
  ps <> [] -> Forall (fun p => resolvable p) ps ->
  selected (stdin w) = Some c ->
  exists rest,
    resolve_screening_conflict py_repr ps k w =
      (let* d := resolve_choice py_repr c (clock w (ticks w)) ps in
       Ok (d, {| stdin := rest; clock := clock w; ticks := S (ticks w) |})).
Proof.
  intros Hne Hall Hsel. rewrite /resolve_screening_conflict.
  rewrite show_conflict_total //. cbn [bind].
  destruct (prompt_loop_selected py_repr ps (clock w (ticks w)) c (stdin w)
              Hall Hsel) as [rest ->].
  exists rest. by destruct (resolve_choice _ _ _ _).
Qed.

(** C10. Forced resolution of a conflicting group (option 1, INCLUDE, or
    option 2, EXCLUDE): the resolved paper is a new object appended to the
    store, the existing objects staying as they are; its decision is the
    verdict, its confidence exactly 1.0, and every field other than
    decision, confidence, reason and conflict_resolution reads as in the
    first member of the group. *)
Theorem forced_resolution_frame (k c : string) (g : list ref)
    (st : merge_state) :
  Forall (fun r => r < length (st_heap st)) g ->
  Forall (fun p => resolvable p) (cells (st_heap st) g) ->
  conflicting (st_heap st) g ->
  selected (stdin (st_world st)) = Some c ->
  c = "1" \/ c = "2" ->
  exists st1 first d,
    process_group py_repr k g st = Ok st1
    /\ head (cells (st_heap st) g) = Some first
    /\ st_heap st1 = st_heap st ++ [d]
    /\ unique_papers st1 = unique_papers st ++ [length (st_heap st)]
    /\ dict_get d "decision" =
       Some (VStr (if String.eqb c "1" then "INCLUDE" else "EXCLUDE"))
    /\ dict_get d "confidence" = Some (VNum 1)
    /\ forall key, resolution_field key = false ->
         dict_get d key = dict_get first key.
Proof.
  intros Hv Hres Hconf Hsel Hc.
  destruct (conflicting_multi _ _ Hconf) as [Hne El].
  assert (Hne' : cells (st_heap st) g <> []) by by destruct g.
  destruct (resolve_screening_conflict_selected _ k c (st_world st) Hne' Hres Hsel)
    as [rest Hr].
  rewrite /process_group El cells_mapM_deref //. cbn [bind].
  destruct (py_set_total (map decision_of (cells (st_heap st) g))) as [s Hs].
  { apply Forall_fmap. eapply Forall_impl; [exact Hres|].
    intros p Hp. by apply resolvable_hashable. }
  rewrite Hs. cbn [bind].
  assert (Hlen : (length s =? 1)%nat = false).
  { rewrite (py_set_all_equal _ _ _ Hs); [by destruct g|].
    rewrite /conflicting in Hconf. by destruct (all_equalb _). }
  rewrite Hlen Hr.
  assert (exists verdict method,
    resolve_choice py_repr c (clock (st_world st) (ticks (st_world st)))
      (cells (st_heap st) g) =
    resolve_manual py_repr verdict method
      (clock (st_world st) (ticks (st_world st))) (cells (st_heap st) g)
    /\ verdict = (if String.eqb c "1" then "INCLUDE" else "EXCLUDE"))
    as (verdict & method & -> & Hverdict).
  { destruct Hc as [-> | ->]; rewrite /resolve_choice /=; eauto. }
  destruct (resolve_manual_total py_repr verdict method
              (clock (st_world st) (ticks (st_world st)))
              (cells (st_heap st) g) Hne') as [d Hd].
  rewrite Hd. cbn [bind].
  apply resolve_manual_result in Hd
    as (first & reason & Hh & Hdec & Hcf & _ & _ & Hk).
  eexists _, first, d. split_and!; try done. by rewrite Hdec Hverdict.
Qed.

(** C5. Highest confidence (option 3): on displayable papers the resolver
    returns a copy of the member [m] of the group whose confidence no
    member exceeds and no earlier member reaches; the copy has the
    decision, confidence and reason of [m] and a resolution block with
    method "highest_confidence".  In scenario B the merged paper has
    decision INCLUDE, confidence 0.9 and that method. *)
Theorem highest_confidence_selected :
  (forall (ps : list pydict) (k : string) (w : world),
     ps <> [] -> Forall (fun p => resolvable p) ps ->
     selected (stdin w) = Some "3" ->
     exists d w' l1 m l2 block,
       resolve_screening_conflict py_repr ps k w = Ok (d, w')
       /\ ps = l1 ++ m :: l2
       /\ (forall p, p ∈ l1 -> Qlt (conf p) (conf m))
       /\ (forall p, p ∈ l2 -> Qle (conf p) (conf m))
       /\ dict_get d "decision" = dict_get m "decision"
       /\ dict_get d "confidence" = dict_get m "confidence"
       /\ dict_get d "reason" = dict_get m "reason"
       /\ dict_get d "conflict_resolution" = Some (VDict block)
       /\ dict_get block "method" = Some (VStr "highest_confidence"))
  /\ (forall (clk : nat -> string) (t : nat),
      exists st d block,
        deduplicate_with_conflict_resolution py_repr scenario_b
          (typing ["3"] clk t) [0; 1] = Ok st
        /\ unique_papers st = [2]
        /\ st_heap st !! 2 = Some d
        /\ dict_get d "decision" = Some (VStr "INCLUDE")
        /\ dict_get d "confidence" = Some (VNum (9 # 10))
        /\ dict_get d "conflict_resolution" = Some (VDict block)
        /\ dict_get block "method" = Some (VStr "highest_confidence")).
Proof.
  split.
  - intros ps k w Hne Hall Hsel.
    destruct (resolve_screening_conflict_selected ps k "3" w Hne Hall Hsel)
      as [rest Hr].
    destruct (resolve_highest_total (clock w (ticks w)) ps Hne Hall)
      as [d Hd].
    rewrite /resolve_choice /= Hd /= in Hr.
    apply resolve_highest_result in Hd as (m & Hm & ->).
    apply max_confidence_spec in Hm as (l1 & l2 & -> & H1 & H2).
    eexists _, _, l1, m, l2, _. split_and!; try done.
    + by rewrite dict_get_set_ne.
    + by rewrite dict_get_set_ne.
    + by rewrite dict_get_set_ne.
    + by rewrite dict_get_set_eq.
    + done.
  - intros clk t. eexists _, _, _. by split_and!; try reflexivity.
Qed.

(** ** Running out of input *)

Lemma prompt_loop_answers (ps : list pydict) (ts : string)
    (lines rest : list string) (d : pydict) :
  prompt_loop py_repr ps ts lines = Ok (d, rest) ->
  answers lines = S (answers rest).
Proof.
  induction lines as [|line lines IH]; [done|]. simpl.
  rewrite /answers filter_cons /resolving.
  destruct (String.eqb (strip line) "1"); [intros H; by inv_ok|].
  destruct (String.eqb (strip line) "2"); [intros H; by inv_ok|].
  destruct (String.eqb (strip line) "3"); [intros H; by inv_ok|].
  destruct (String.eqb (strip line) "4"); [intros H; by inv_ok|].
  simpl. destruct (String.eqb (strip line) "5").
  - intros H. apply bind_ok in H as (_ & _ & H). by apply IH.
  - apply IH.
Qed.

Lemma prompt_loop_eof (ps : list pydict) (ts : string) (lines : list string) :
  Forall (fun p => resolvable p) ps -> answers lines = 0 ->
  prompt_loop py_repr ps ts lines = Raise EOFError.
Proof.
  intros Hall. induction lines as [|line lines IH]; [done|]. simpl.
  rewrite /answers filter_cons /resolving.
  destruct (String.eqb (strip line) "1"); [done|].
  destruct (String.eqb (strip line) "2"); [done|].
  destruct (String.eqb (strip line) "3"); [done|].
  destruct (String.eqb (strip line) "4"); [done|].
  simpl. intros Ha. rewrite show_details_total //=.
  destruct (String.eqb (strip line) "5"); by apply IH.
Qed.

(** The store after one more group still agrees with the initial store
    on the members of the groups to come. *)
Lemma process_group_agree (h0 : heap) (k : string) (g : list ref)
    (gs : groups) (st st1 : merge_state) :
  process_group py_repr k g st = Ok st1 ->
  groups_wf h0 ((k, g) :: gs) ->
  length h0 <= length (st_heap st) ->
  (forall k' g' r, (k', g') ∈ (k, g) :: gs -> r ∈ g' ->
     st_heap st !! r = h0 !! r) ->
  length h0 <= length (st_heap st1)
  /\ forall k' g' r, (k', g') ∈ gs -> r ∈ g' -> st_heap st1 !! r = h0 !! r.
Proof.
  intros Hst1 Hwf0 Hlen Hag.
  pose proof Hwf0 as (Hwf & Hne & Hg & Hdisj)%groups_wf_cons.
  assert (Hwf1 : groups_wf h0 [(k, g)]).
  { split; [apply NoDup_singleton|]. intros k' g' Hin.
    apply list_elem_of_singleton in Hin as [= -> ->]. done. }
  rewrite -process_groups_single in Hst1.
  apply process_groups_spec with (h0 := h0) in Hst1
    as (_ & _ & _ & _ & _ & Hlen1 & Hframe); [|done|done|].
  2:{ intros k' g' r Hin Hr.
      apply list_elem_of_singleton in Hin as [= -> ->].
      apply (Hag k g); [by left|done]. }
  split; [lia|]. intros k' g' r Hin Hr. rewrite Hframe.
  - destruct Hwf as [_ Hm]. destruct (Hm _ _ Hin) as [_ Hm'].
    destruct (Hm' _ Hr). lia.
  - intros k0 g0 Hin0 Hh.
    apply list_elem_of_singleton in Hin0 as [= -> ->].
    apply head_elem_of in Hh. by apply (Hdisj k' g' r Hin Hh).
  - apply (Hag k' g'); [by right|done].
Qed.

(** Every conflict uses up one answer. *)
Lemma process_groups_answers (h0 : heap) (gs : groups) (st st' : merge_state) :
  process_groups py_repr gs st = Ok st' ->
  groups_wf h0 gs ->
  length h0 <= length (st_heap st) ->
  (forall k g r, (k, g) ∈ gs -> r ∈ g -> st_heap st !! r = h0 !! r) ->
  Z.of_nat (answers (stdin (st_world st))) =
  (Z.of_nat (answers (stdin (st_world st'))) + count_conflicts h0 gs)%Z.
Proof.
  revert st. induction gs as [|[k g] gs IH]; intros st H Hwf Hlen Hag.
  - simpl in H. inv_ok. rewrite /count_conflicts /=. lia.
  - simpl in H. apply bind_ok in H as (st1 & Hstep & H).
    destruct (process_group_agree h0 k g gs st st1 Hstep Hwf Hlen Hag)
      as [Hlen1 Hag1].
    apply groups_wf_cons in Hwf as (Hwf & Hne & Hg & Hdisj).
    assert (Hcells : cells (st_heap st) g = cells h0 g).
    { apply cells_agree. intros r Hr. apply (Hag k g); [by left|done]. }
    assert (Hconf : conflicting (st_heap st) g = conflicting h0 g)
      by by rewrite /conflicting Hcells.
    apply process_group_step in Hstep as (o & _ & _ & _ & Hheap); [|done].
    rewrite Hconf in Hheap.
    rewrite count_conflicts_cons.
    pose proof (IH st1 H Hwf Hlen1 Hag1) as HI.
    destruct (length g =? 1)%nat eqn:El.
    + apply Nat.eqb_eq in El. rewrite -Hconf conflicting_singleton //.
      destruct Hheap as (_ & _ & Hw). rewrite Hw in HI. lia.
    + destruct (conflicting h0 g).
      * destruct Hheap as (_ & _ & d' & Hr & _).
        rewrite /resolve_screening_conflict in Hr.
        apply bind_ok in Hr as ([] & _ & Hr).
        apply bind_ok in Hr as ([d0 rest] & Hp & Hr).
        injection Hr as _ Hw. rewrite -Hw /= in HI.
        apply prompt_loop_answers in Hp. lia.
      * destruct Hheap as (_ & _ & _ & Hw). rewrite Hw in HI. lia.
Qed.

(** With fewer answers than conflicts the second loop ends in
    [EOFError]. *)
Lemma process_groups_eof (h0 : heap) (gs : groups) (st : merge_state) :
  groups_wf h0 gs ->
  length h0 <= length (st_heap st) ->
  (forall k g r, (k, g) ∈ gs -> r ∈ g -> st_heap st !! r = h0 !! r) ->
  (forall k g, (k, g) ∈ gs -> Forall (fun p => resolvable p) (cells h0 g)) ->
  (Z.of_nat (answers (stdin (st_world st))) < count_conflicts h0 gs)%Z ->
  process_groups py_repr gs st = Raise EOFError.
Proof.
  revert st. induction gs as [|[k g] gs IH]; intros st Hwf Hlen Hag Hres Hans.
  - rewrite /count_conflicts /= in Hans. lia.
  - pose proof Hwf as (Hwf' & Hne & Hg & Hdisj)%groups_wf_cons.
    assert (Hcells : cells (st_heap st) g = cells h0 g).
    { apply cells_agree. intros r Hr. apply (Hag k g); [by left|done]. }
    assert (Hconf : conflicting (st_heap st) g = conflicting h0 g)
      by by rewrite /conflicting Hcells.
    assert (Hv : Forall (fun r => r < length (st_heap st)) g).
    { apply Forall_forall. intros r Hr. destruct (Hg _ Hr). lia. }
    assert (Hrg : Forall (fun p => resolvable p) (cells (st_heap st) g)).
    { rewrite Hcells. apply (Hres k g). by left. }
    rewrite count_conflicts_cons in Hans.
    destruct (decide (conflicting h0 g /\ answers (stdin (st_world st)) = 0))
      as [[Hc Ha0]|Hno].
    + (* the conflict that finds no answer *)
      destruct (conflicting_multi _ _ Hc) as [_ El]. simpl.
      rewrite /process_group El cells_mapM_deref //. cbn [bind].
      destruct (py_set_total (map decision_of (cells (st_heap st) g)))
        as [s Hs].
      { apply Forall_fmap. eapply Forall_impl; [exact Hrg|].
        intros p Hp. by apply resolvable_hashable. }
      rewrite Hs. cbn [bind].
      rewrite (py_set_all_equal _ _ _ Hs); [by destruct g|].
      rewrite -Hconf /conflicting in Hc.
      destruct (all_equalb _); [done|].
      rewrite /resolve_screening_conflict show_conflict_total //;
        [by destruct g|].
      cbn [bind]. by rewrite prompt_loop_eof.
    + destruct (process_group_total k g st Hne Hv Hrg) as (st1 & Hst1 & Ha1).
      { rewrite Hconf. intros Hc.
        destruct (answers (stdin (st_world st))) eqn:Ea; [|lia].
        exfalso. by apply Hno. }
      simpl. rewrite Hst1. cbn [bind].
      destruct (process_group_agree h0 k g gs st st1 Hst1 Hwf Hlen Hag)
        as [Hlen1 Hag1].
      apply IH; try done.
      * intros k' g' Hin. apply (Hres k' g'). by right.
      * rewrite Ha1 Hconf. destruct (conflicting h0 g) eqn:Ec; [|lia].
        destruct (answers (stdin (st_world st))) eqn:Ea; [|lia].
        exfalso. by apply Hno.
Qed.

(** C3 as amended. The resolver has no unresolved outcome.  A conflict is
    only ever resolved by an option that the user typed: a merge that
    returns has used one answer per conflicting group.  When the input
    holds fewer answers than there are conflicting groups (none at all
    when no collaborator is attached), [input()] raises [EOFError] and the
    whole merge ends with that error: no result is returned for any
    group. *)
Theorem exhausted_input_aborts (h : heap) (w : world) (papers : list ref) :
  (forall st,
     deduplicate_with_conflict_resolution py_repr h w papers = Ok st ->
     Z.of_nat (answers (stdin w)) =
     (Z.of_nat (answers (stdin (st_world st)))
      + count_conflicts h (groups_of h papers))%Z)
  /\ (Forall (fun r => well_formed h r) papers ->
      (Z.of_nat (answers (stdin w))
       < count_conflicts h (groups_of h papers))%Z ->
      deduplicate_with_conflict_resolution py_repr h w papers
      = Raise EOFError).
Proof.
  split.
  - intros st H. rewrite dedup_unfold in H.
    apply bind_ok in H as ([gs noid] & Hg & H).
    apply bind_ok in H as (st1 & Hp & H). inv_ok.
    rewrite /groups_of Hg. cbn [st_world].
    apply group_loop_spec in Hg as (Hwf & _); [|apply groups_wf_nil].
    by apply process_groups_answers with (h0 := h) in Hp.
  - intros Hwf Hans. pose proof (well_formed_identified _ _ Hwf) as Hid.
    destruct (groups_of_spec h papers Hid) as (Hg & Hgwf & Hmem).
    rewrite dedup_unfold Hg. cbn [bind].
    rewrite (process_groups_eof h); try done.
    intros k g Hin. apply Forall_fmap. apply Forall_forall. intros r Hr.
    pose proof (groups_of_members _ _ _ _ _ Hid Hin Hr) as Hp.
    rewrite Forall_forall in Hwf. specialize (Hwf _ Hp).
    rewrite /well_formed in Hwf. by apply andb_prop_elim in Hwf as [_ ?].
Qed.

(** ** Identity keys *)

Lemma doi_key_inj (a b : string) : "doi:" +:+ a = "doi:" +:+ b -> a = b.
Proof. intros H. injection H as H. exact H. Qed.

Lemma doi_key (h : heap) (r : ref) (d : string) :
  identified h r ->
  get_default (cell h r) "doi" (VStr "") = VStr d ->
  lower (strip d) <> "" ->
  key_of h r = Some ("doi:" +:+ lower (strip d)).
Proof.
  intros (_ & _ & o & Ho & ->)%identified_cell Hd Hne.
  rewrite /paper_identifier Hd /= in Ho.
  apply bind_ok in Ho as (oa & _ & Ho). apply bind_ok in Ho as ([] & _ & Ho).
  injection Ho as <-.
  destruct (String.eqb_spec (lower (strip d)) ""); [done|]. done.
Qed.

Lemma same_key_same_group (h : heap) (papers : list ref) (r1 r2 : ref)
    (k : string) :
  Forall (fun r => identified h r) papers ->
  r1 ∈ papers -> r2 ∈ papers ->
  key_of h r1 = Some k -> key_of h r2 = Some k ->
  exists g, (k, g) ∈ groups_of h papers /\ r1 ∈ g /\ r2 ∈ g.
Proof.
  intros Hid H1 H2 K1 K2.
  exists (filter (fun r => has_key h k r) papers).
  assert (Hin : forall r, r ∈ papers -> key_of h r = Some k ->
                r ∈ filter (fun r => has_key h k r) papers).
  { intros r Hr Hk. apply list_elem_of_filter. split; [|done].
    rewrite /has_key. by apply bool_decide_spec. }
  split_and!; [|by apply Hin|by apply Hin].
  apply groups_of_spec; [done|]. split; [done|].
  intros E. specialize (Hin _ H1 K1). rewrite E in Hin.
  by apply elem_of_nil in Hin.
Qed.

(** C2 as amended. The identity key of a record with a non-empty DOI is
    "doi:" followed by the DOI trimmed and lowercased; no URL scheme or
    host prefix is removed.  Two input records whose DOIs are equal after
    trimming and lowercasing get the same key and are in the same
    identity group; two whose DOIs differ after trimming and lowercasing
    get different keys and are in no common group. *)
Theorem doi_identity (h : heap) (papers : list ref) (r1 r2 : ref)
    (d1 d2 : string) :
  Forall (fun r => identified h r) papers ->
  r1 ∈ papers -> r2 ∈ papers ->
  get_default (cell h r1) "doi" (VStr "") = VStr d1 ->
  get_default (cell h r2) "doi" (VStr "") = VStr d2 ->
  lower (strip d1) <> "" -> lower (strip d2) <> "" ->
  key_of h r1 = Some ("doi:" +:+ lower (strip d1))
  /\ key_of h r2 = Some ("doi:" +:+ lower (strip d2))
  /\ (lower (strip d1) = lower (strip d2) ->
      exists g,
        ("doi:" +:+ lower (strip d1), g) ∈ groups_of h papers
        /\ r1 ∈ g /\ r2 ∈ g)
  /\ (lower (strip d1) <> lower (strip d2) ->
      key_of h r1 <> key_of h r2
      /\ forall k g, (k, g) ∈ groups_of h papers -> ~ (r1 ∈ g /\ r2 ∈ g)).
Proof.
  intros Hid H1 H2 D1 D2 N1 N2.
  pose proof Hid as Hid'. rewrite Forall_forall in Hid'.
  pose proof (doi_key h r1 d1 (Hid' _ H1) D1 N1) as K1.
  pose proof (doi_key h r2 d2 (Hid' _ H2) D2 N2) as K2.
  split_and!; [done|done| |].
  - intros E. apply same_key_same_group; try done. by rewrite K2 E.
  - intros Hne.
    assert (Hk : key_of h r1 <> key_of h r2).
    { rewrite K1 K2. intros [= E]. by apply Hne, doi_key_inj. }
    split; [done|]. intros k g Hin [Hg1 Hg2].
    destruct (groups_of_spec h papers Hid) as (_ & [_ Hm] & _).
    destruct (Hm _ _ Hin) as [_ Hg].
    destruct (Hg _ Hg1) as [_ E1]. destruct (Hg _ Hg2) as [_ E2]. congruence.
Qed.

(** ** Two runs with different clocks *)

Lemma dict_set_set (d : pydict) (k : string) (v v' : value) :
  dict_set (dict_set d k v) k v' = dict_set d k v'.
Proof.
  induction d as [|[k0 v0] d IH]; simpl.
  - by rewrite String.eqb_refl.
  - destruct (String.eqb k0 k) eqn:E; simpl.
    + by rewrite String.eqb_refl.
    + by rewrite E IH.
Qed.

Lemma scrub_set (d : pydict) (block : pydict) :
  scrub (dict_set d "conflict_resolution" (VDict block)) =
  dict_set d "conflict_resolution" (VDict (dict_set block "timestamp" VNone)).
Proof. by rewrite /scrub dict_get_set_eq dict_set_set. Qed.

Lemma res_sim_bind {A B : Type} (R : A -> A -> Prop) (S : B -> B -> Prop)
    (m1 m2 : res A) (f1 f2 : A -> res B) :
  res_sim R m1 m2 ->
  (forall a b, R a b -> res_sim S (f1 a) (f2 b)) ->
  res_sim S (bind m1 f1) (bind m2 f2).
Proof. destruct m1, m2; simpl; try done. intros H Hf. by apply Hf. Qed.

Lemma res_sim_refl {A : Type} (r : res A) : res_sim eq r r.
Proof. by destruct r. Qed.

Lemma resolve_manual_clock (verdict method ts1 ts2 : string)
    (ps : list pydict) :
  res_sim same_but_timestamp
    (resolve_manual py_repr verdict method ts1 ps)
    (resolve_manual py_repr verdict method ts2 ps).
Proof.
  destruct ps as [|first ps]; [done|]. simpl.
  by rewrite /same_but_timestamp !scrub_set.
Qed.

Lemma resolve_highest_clock (ts1 ts2 : string) (ps : list pydict) :
  res_sim same_but_timestamp (resolve_highest ts1 ps) (resolve_highest ts2 ps).
Proof.
  rewrite /resolve_highest.
  destruct (max_confidence ps) as [m|e]; [|done]. cbn [bind].
  rewrite /dict_index !dict_get_set_ne //.
  destruct (dict_get m "decision"); [|done]. cbn [bind].
  rewrite /confidence_key !get_default_set_ne //.
  destruct (check_format_2f _) as [[]|]; [|done]. simpl.
  by rewrite /same_but_timestamp !scrub_set.
Qed.

Lemma resolve_recent_clock (ts1 ts2 : string) (ps : list pydict) :
  res_sim same_but_timestamp (resolve_recent ts1 ps) (resolve_recent ts2 ps).
Proof.
  rewrite /resolve_recent. destruct (last ps) as [m|]; [|done].
  rewrite /dict_index !dict_get_set_ne //.
  destruct (dict_get m "decision"); [|done]. simpl.
  by rewrite /same_but_timestamp !scrub_set.
Qed.

Lemma prompt_loop_clock (ps : list pydict) (ts1 ts2 : string)
    (lines : list string) :
  res_sim (fun a b => same_but_timestamp a.1 b.1 /\ a.2 = b.2)
    (prompt_loop py_repr ps ts1 lines) (prompt_loop py_repr ps ts2 lines).
Proof.
  induction lines as [|line lines IH]; [done|]. simpl.
  destruct (String.eqb (strip line) "1").
  { eapply res_sim_bind; [apply resolve_manual_clock|]. by intros a b. }
  destruct (String.eqb (strip line) "2").
  { eapply res_sim_bind; [apply resolve_manual_clock|]. by intros a b. }
  destruct (String.eqb (strip line) "3").
  { eapply res_sim_bind; [apply resolve_highest_clock|]. by intros a b. }
  destruct (String.eqb (strip line) "4").
  { eapply res_sim_bind; [apply resolve_recent_clock|]. by intros a b. }
  destruct (String.eqb (strip line) "5"); [|done].
  destruct (forM_ show_details_of ps) as [[]|]; done.
Qed.

Lemma resolve_screening_conflict_clock (ps : list pydict) (k : string)
    (w1 w2 : world) :
  stdin w1 = stdin w2 ->
  res_sim (fun a b => same_but_timestamp a.1 b.1 /\ stdin a.2 = stdin b.2)
    (resolve_screening_conflict py_repr ps k w1)
    (resolve_screening_conflict py_repr ps k w2).
Proof.
  intros Hin. rewrite /resolve_screening_conflict Hin.
  destruct (show_conflict ps) as [[]|]; [|done]. cbn [bind].
  eapply res_sim_bind; [apply prompt_loop_clock|].
  intros [d1 r1] [d2 r2] [Hd Hr]. simpl in *. by subst.
Qed.

Lemma deref_take (n : nat) (h1 h2 : heap) (r : ref) :
  take n h1 = take n h2 -> r < n -> deref h1 r = deref h2 r.
Proof.
  intros Ht Hr. rewrite /deref.
  by rewrite -(lookup_take_lt h1 n r) // -(lookup_take_lt h2 n r) // Ht.
Qed.

Lemma mapM_deref_take (n : nat) (h1 h2 : heap) (g : list ref) :
  take n h1 = take n h2 -> Forall (fun r => r < n) g ->
  mapM (deref h1) g = mapM (deref h2) g.
Proof.
  intros Ht. induction 1 as [|r g Hr _ IH]; [done|]. simpl.
  by rewrite (deref_take n h1 h2) // IH.
Qed.

Lemma same_but_timestamp_refl (d : pydict) : same_but_timestamp d d.
Proof. done. Qed.

(** One iteration of the second loop in two runs that agree so far. *)
Lemma process_group_clock (n : nat) (k : string) (g : list ref)
    (s1 s2 : merge_state) :
  st_sim n s1 s2 -> Forall (fun r => r < n) g ->
  res_sim (st_sim n) (process_group py_repr k g s1)
    (process_group py_repr k g s2).
Proof.
  intros (Hout & Hdr & Hcr & Hin & Hlen & Ht & Hsim) Hg.
  pose proof (Forall2_length _ _ _ Hsim) as Hlen2.
  rewrite /process_group.
  destruct (length g =? 1)%nat.
  - destruct g as [|r0 g]; [done|]. simpl.
    rewrite /st_sim /=. split_and!; try done. by rewrite Hout.
  - rewrite -(mapM_deref_take n (st_heap s1) (st_heap s2)) //.
    destruct (mapM (deref (st_heap s1)) g) as [ps|]; [|done]. cbn [bind].
    destruct (py_set (map decision_of ps)) as [s|]; [|done]. cbn [bind].
    destruct (length s =? 1)%nat.
    + destruct g as [|r0 g]; [done|]. cbn [bind].
      inversion Hg as [|? ? Hr0 _]; subst.
      rewrite -(deref_take n (st_heap s1) (st_heap s2)) //.
      destruct (deref (st_heap s1) r0) as [d0|]; [|done]. cbn [bind].
      rewrite /res_sim /st_sim /=. rewrite length_insert.
      split_and!; try done; try congruence.
      * rewrite !take_insert_lt //. by rewrite Ht.
      * apply Forall2_insert; [done|]. apply same_but_timestamp_refl.
    + eapply res_sim_bind;
        [by apply (resolve_screening_conflict_clock ps k _ _ Hin)|].
      intros [d1 w1] [d2 w2] [Hd Hw]. simpl in Hd, Hw.
      rewrite /res_sim /st_sim /=. rewrite length_app.
      split_and!; try done; try congruence; try lia.
      * rewrite !take_app_le; try lia. done.
      * apply Forall2_app; [done|]. by constructor.
Qed.

Lemma process_groups_clock (n : nat) (gs : groups) (s1 s2 : merge_state) :
  st_sim n s1 s2 ->
  (forall k g, (k, g) ∈ gs -> Forall (fun r => r < n) g) ->
  res_sim (st_sim n) (process_groups py_repr gs s1)
    (process_groups py_repr gs s2).
Proof.
  revert s1 s2. induction gs as [|[k g] gs IH]; intros s1 s2 Hs Hg; [done|].
  simpl. eapply res_sim_bind.
  - apply process_group_clock; [done|]. apply (Hg k g). by left.
  - intros a b Hab. apply IH; [done|].
    intros k' g' Hin. apply (Hg k' g'). by right.
Qed.

(** C6 as amended. Two runs of the merge over the same papers, with the
    same lines typed by the user but any two clocks, end alike: both raise
    the same exception, or both return the same list of merged papers and
    the same counters, the input objects being left identical and every
    object equal to its counterpart except for the timestamp that its
    resolution block records. *)
Theorem reproducible_up_to_timestamps (h : heap) (papers : list ref)
    (lines : list string) (clk1 clk2 : nat -> string) (t1 t2 : nat) :
  res_sim (st_sim (length h))
    (deduplicate_with_conflict_resolution py_repr h (typing lines clk1 t1)
       papers)
    (deduplicate_with_conflict_resolution py_repr h (typing lines clk2 t2)
       papers).
Proof.
  rewrite !dedup_unfold.
  destruct (group_loop h papers [] []) as [[gs noid]|e] eqn:Hg; [|done].
  cbn [bind].
  apply group_loop_spec in Hg as ([_ Hm] & _); [|apply groups_wf_nil].
  eapply res_sim_bind.
  - apply (process_groups_clock (length h)).
    + rewrite /st_sim /=. split_and!; try done.
      apply Forall_Forall2_diag. apply Forall_forall. by intros d _.
    + intros k g Hin. apply Forall_forall. intros r Hr.
      destruct (Hm _ _ Hin) as [_ Hmem]. by destruct (Hmem _ Hr).
  - intros s1 s2 (Hout & Hdr & Hcr & Hin & Hlen & Ht & Hsim).
    rewrite /res_sim /st_sim /=. split_and!; try done. by rewrite Hout.
Qed.

(** C8. A record without a decision field reads as UNKNOWN, and next to an
    INCLUDE sibling it makes its group conflicting; but when the user then
    takes the most recent decision (option 4) and that record is the last
    of its group, the merge ends in [KeyError]: the record is rejected,
    not normalised.  Likewise a record whose confidence is [None] stops
    the merge with [TypeError] as soon as its group is displayed, whatever
    the user would type. *)
Theorem missing_decision_rejected (clk : nat -> string) (t : nat)
    (lines : list string) :
  decision_of (cell missing_decision 1) = VStr "UNKNOWN"
  /\ groups_of missing_decision [0; 1] = [("doi:10.1/z", [0; 1])]
  /\ conflicting missing_decision [0; 1] = true
  /\ deduplicate_with_conflict_resolution py_repr missing_decision
       (typing ["4"] clk t) [0; 1] = Raise KeyError
  /\ conflicting null_confidence [0; 1] = true
  /\ deduplicate_with_conflict_resolution py_repr null_confidence
       (typing lines clk t) [0; 1] = Raise TypeError.
Proof. by split_and!. Qed.

End Merge.

(** * The scenarios of the specification, run *)

Lemma scenario_b_well_formed :
  Forall (fun r => well_formed scenario_b r) [0; 1].
Proof. repeat constructor. Defined.

Lemma scenario_a_well_formed :
  Forall (fun r => well_formed scenario_a r) [0; 1; 2].
Proof. repeat constructor. Defined.

Lemma scenario_d_well_formed :
  Forall (fun r => well_formed scenario_d r) [0; 1].
Proof. repeat constructor. Defined.

Lemma scenario_e_well_formed :
  Forall (fun r => well_formed scenario_e r) [0; 1; 2].
Proof. repeat constructor. Defined.

(** Scenario B under option 3: one conflict, one duplicate removed. *)
Lemma conflict_accounting_witness :
  exists st,
    deduplicate_with_conflict_resolution sample_repr scenario_b
      (typing ["3"] morning 0) [0; 1] = Ok st
    /\ conflicts_resolved st = 1%Z /\ duplicates_removed st = 1%Z.
Proof.
  destruct (conflict_accounting sample_repr scenario_b
              (typing ["3"] morning 0) [0; 1]) as [Hcount Hruns].
  destruct Hruns as [st Hst];
    [exact scenario_b_well_formed | vm_compute; discriminate |].
  exists st. split; [exact Hst|].
  destruct (Hcount st Hst) as [-> ->]. split; reflexivity.
Defined.

(** Scenario D: the paper without identifier comes last, unchanged. *)
Lemma no_identifier_papers_kept_witness :
  exists st outs,
    deduplicate_with_conflict_resolution sample_repr scenario_d
      (typing [] morning 0) [0; 1] = Ok st
    /\ length outs = 1
    /\ unique_papers st = outs ++ [0]
    /\ key_of scenario_d 0 = None
    /\ st_heap st !! 0 = scenario_d !! 0.
Proof.
  destruct (no_identifier_papers_kept sample_repr scenario_d
              (typing [] morning 0) [0; 1]) as [Hkept Hruns].
  destruct Hruns as [st Hst];
    [exact scenario_d_well_formed | vm_compute; discriminate |].
  destruct (Hkept st Hst) as (outs & Hlen & Hout & Hno).
  destruct (Hno 0) as (Hkey & _ & Hcell); [by left|reflexivity|].
  exists st, outs. split; [exact Hst|].
  split; [exact Hlen|]. split; [exact Hout|]. split; [exact Hkey|exact Hcell].
Defined.

Lemma scenario_a_groups :
  groups_of scenario_a [0; 1; 2] = [("doi:10.1/x", [0; 1; 2])].
Proof. reflexivity. Defined.

Lemma scenario_b_groups :
  groups_of scenario_b [0; 1] = [("doi:10.1/y", [0; 1])].
Proof. reflexivity. Defined.

(** Scenario A: the first record represents the group and carries the
    audit trail; its title is what it was. *)
Lemma unanimous_representative_witness :
  exists st d',
    deduplicate_with_conflict_resolution sample_repr scenario_a
      (typing [] morning 0) [0; 1; 2] = Ok st
    /\ 0 ∈ unique_papers st
    /\ st_heap st !! 0 = Some d'
    /\ dict_get d' "title" = Some (VStr "Paper X").
Proof.
  destruct (unanimous_representative sample_repr scenario_a
              (typing [] morning 0) [0; 1; 2]) as [Hrep Hruns].
  destruct Hruns as [st Hst];
    [exact scenario_a_well_formed | vm_compute; discriminate |].
  destruct (Hrep st Hst "doi:10.1/x" [0; 1; 2])
    as (r0 & d0 & d' & Hhd & Hd0 & Hin & Hcell & _ & Hframe);
    [rewrite scenario_a_groups; by left | reflexivity | reflexivity |].
  injection Hhd as <-. injection Hd0 as <-.
  exists st, d'. split; [exact Hst|]. split; [exact Hin|].
  split; [exact Hcell|]. rewrite Hframe; [discriminate|reflexivity].
Defined.

(** Scenario A: three audit records, with the members' triples. *)
Lemma audit_trail_witness :
  exists st d' records,
    deduplicate_with_conflict_resolution sample_repr scenario_a
      (typing [] morning 0) [0; 1; 2] = Ok st
    /\ st_heap st !! 0 = Some d'
    /\ dict_get d' "duplicate_sources" = Some (VList records)
    /\ length records = 3
    /\ map record_triple records =
       [Some (VNum 1, VStr "INCLUDE", VNum (9 # 10));
        Some (VNum 2, VStr "INCLUDE", VNum (6 # 10));
        Some (VNum 3, VStr "INCLUDE", VNum (95 # 100))].
Proof.
  destruct (audit_trail sample_repr scenario_a
              (typing [] morning 0) [0; 1; 2]) as [Haudit Hruns].
  destruct Hruns as [st Hst];
    [exact scenario_a_well_formed | vm_compute; discriminate |].
  destruct (Haudit st Hst "doi:10.1/x" [0; 1; 2])
    as (o & d' & Hin & Hcell & Hem);
    [rewrite scenario_a_groups; by left | reflexivity |].
  change (conflicting scenario_a [0; 1; 2]) with false in Hem.
  destruct Hem as (Hhd & records & Hrec & Hlen & Htriples).
  injection Hhd as <-.
  exists st, d', records. split; [exact Hst|]. split; [exact Hcell|].
  split; [exact Hrec|]. split; [exact Hlen|exact Htriples].
Defined.

(** Scenario B, forced INCLUDE: the resolved paper is appended to the
    store and keeps the title of the first member. *)
Lemma forced_resolution_frame_witness :
  exists st1 d,
    process_group sample_repr "doi:10.1/y" [0; 1]
      {| st_heap := scenario_b; st_world := typing ["5"; "1"] morning 0;
         unique_papers := []; duplicates_removed := 0;
         conflicts_resolved := 0 |} = Ok st1
    /\ st_heap st1 = scenario_b ++ [d]
    /\ dict_get d "decision" = Some (VStr "INCLUDE")
    /\ dict_get d "confidence" = Some (VNum 1)
    /\ dict_get d "title" = Some (VStr "Paper Y").
Proof.
  destruct (forced_resolution_frame sample_repr "doi:10.1/y" "1" [0; 1]
              {| st_heap := scenario_b;
                 st_world := typing ["5"; "1"] morning 0;
                 unique_papers := []; duplicates_removed := 0;
                 conflicts_resolved := 0 |})
    as (st1 & first & d & Hst1 & Hfirst & Hheap & _ & Hdec & Hconf & Hframe).
  - repeat constructor.
  - repeat constructor.
  - exact I.
  - reflexivity.
  - by left.
  - injection Hfirst as <-.
    exists st1, d. split; [exact Hst1|]. split; [exact Hheap|].
    split; [exact Hdec|]. split; [exact Hconf|].
    rewrite Hframe; reflexivity.
Defined.

(** Scenario B under option 3, at the resolver. *)
Lemma highest_confidence_selected_witness :
  exists d w' l1 m l2,
    resolve_screening_conflict sample_repr (cells scenario_b [0; 1])
      "doi:10.1/y" (typing ["3"] morning 0) = Ok (d, w')
    /\ cells scenario_b [0; 1] = l1 ++ m :: l2
    /\ (forall p, p ∈ l1 -> Qlt (conf p) (conf m))
    /\ (forall p, p ∈ l2 -> Qle (conf p) (conf m))
    /\ dict_get d "confidence" = dict_get m "confidence".
Proof.
  destruct highest_confidence_selected with (py_repr := sample_repr)
    as [Hsel _].
  destruct (Hsel (cells scenario_b [0; 1]) "doi:10.1/y"
              (typing ["3"] morning 0))
    as (d & w' & l1 & m & l2 & block & Hres & Hsplit & Hbefore & Hafter
        & _ & Hconf & _).
  - discriminate.
  - repeat constructor.
  - reflexivity.
  - exists d, w', l1, m, l2. split; [exact Hres|]. split; [exact Hsplit|].
    split; [exact Hbefore|]. split; [exact Hafter|exact Hconf].
Defined.

(** Scenario E with nobody at the keyboard: the merge ends in
    [EOFError]. *)
Lemma exhausted_input_aborts_witness :
  deduplicate_with_conflict_resolution sample_repr scenario_e
    (typing [] morning 0) [0; 1; 2] = Raise EOFError.
Proof.
  destruct (exhausted_input_aborts sample_repr scenario_e
              (typing [] morning 0) [0; 1; 2]) as [_ Haborts].
  apply Haborts; [exact scenario_e_well_formed | reflexivity].
Defined.

(** Scenario A: " 10.1/x " and "10.1/X" are the same DOI once trimmed and
    lowercased. *)
Lemma doi_identity_witness :
  key_of scenario_a 1 = Some "doi:10.1/x"
  /\ key_of scenario_a 2 = Some "doi:10.1/x"
  /\ exists g,
       ("doi:10.1/x", g) ∈ groups_of scenario_a [0; 1; 2]
       /\ 1 ∈ g /\ 2 ∈ g.
Proof.
  destruct (doi_identity scenario_a [0; 1; 2] 1 2 "10.1/X" " 10.1/x ")
    as (Hk1 & Hk2 & Hsame & _).
  - repeat constructor.
  - right; by left.
  - right; right; by left.
  - reflexivity.
  - reflexivity.
  - discriminate.
  - discriminate.
  - split; [exact Hk1|]. split; [exact Hk2|]. apply Hsame. reflexivity.
Defined.

(** * Where the specification and the code part *)

(** C1 as stated fails: in scenario B resolved by option 1, the group has
    two members and the merged paper has no [duplicate_sources]. *)
Lemma conflicting_group_without_duplicate_sources :
  exists st d,
    groups_of scenario_b [0; 1] = [("doi:10.1/y", [0; 1])]
    /\ deduplicate_with_conflict_resolution sample_repr scenario_b
         (typing ["1"] morning 0) [0; 1] = Ok st
    /\ unique_papers st = [2]
    /\ st_heap st !! 2 = Some d
    /\ dict_get d "duplicate_sources" = None.
Proof. eexists _, _. by split_and!; try reflexivity. Qed.

(** C2 as stated fails: the DOI a URL and the bare DOI are equal after
    trimming, lowercasing and removing the URL prefix, and not empty, but
    the two records get different keys and end in different groups. *)
Lemma url_prefix_not_stripped :
  spec_normalize_doi "https://doi.org/10.1/X" = spec_normalize_doi "10.1/x"
  /\ spec_normalize_doi "10.1/x" <> ""
  /\ key_of doi_as_url 0 = Some "doi:https://doi.org/10.1/x"
  /\ key_of doi_as_url 1 = Some "doi:10.1/x"
  /\ groups_of doi_as_url [0; 1] =
     [("doi:https://doi.org/10.1/x", [0]); ("doi:10.1/x", [1])].
Proof. by split_and!. Qed.

(** C3 as stated fails: in scenario E with no line to read, the merge
    returns nothing, neither an unresolved group nor the paper of the
    other group. *)
Lemma no_collaborator_no_result :
  groups_of scenario_e [0; 1; 2] =
    [("doi:10.1/y", [0; 1]); ("doi:10.1/z", [2])]
  /\ conflicting scenario_e [0; 1] = true
  /\ ~ exists st,
       deduplicate_with_conflict_resolution sample_repr scenario_e
         (typing [] morning 0) [0; 1; 2] = Ok st.
Proof.
  split_and!; [done|done|]. intros [st Hst]. discriminate Hst.
Qed.

(** C6 as stated fails: scenario B resolved by option 3 at two different
    times gives two different merged papers. *)
Lemma timestamps_differ :
  exists st1 st2,
    deduplicate_with_conflict_resolution sample_repr scenario_b
      (typing ["3"] morning 0) [0; 1] = Ok st1
    /\ deduplicate_with_conflict_resolution sample_repr scenario_b
         (typing ["3"] evening 0) [0; 1] = Ok st2
    /\ unique_papers st1 = [2] /\ unique_papers st2 = [2]
    /\ st_heap st1 !! 2 <> st_heap st2 !! 2.
Proof. eexists _, _. by split_and!; try reflexivity. Qed.

(** * Simple deduplication *)

Lemma any_seen_spec (ids : list (string * string)) (seen : gset string) :
  any_seen ids seen = true <->
  exists k, k ∈ map identifier_key ids /\ k ∈ seen.
Proof.
  induction ids as [|id ids IH]; simpl.
  - split; [done|]. intros (k & Hk & _). by apply elem_of_nil in Hk.
  - destruct (decide (identifier_key id ∈ seen)) as [Hin|Hin].
    + rewrite bool_decide_eq_true_2 //. split; [|done].
      intros _. exists (identifier_key id). split; [by left|done].
    + rewrite bool_decide_eq_false_2 // IH. split.
      * intros (k & Hk & Hs). exists k. split; [by right|done].
      * intros (k & [->|Hk]%elem_of_cons & Hs); [done|]. by exists k.
Qed.

Lemma add_seen_spec (ids : list (string * string)) (seen : gset string)
    (k : string) :
  k ∈ add_seen ids seen <-> k ∈ seen \/ k ∈ map identifier_key ids.
Proof.
  revert seen. induction ids as [|id ids IH]; intros seen; simpl.
  - split; [by left|]. intros [?|H]; [done|]. by apply elem_of_nil in H.
  - rewrite IH elem_of_union elem_of_singleton elem_of_cons. tauto.
Qed.

(** The keys of one paper are distinct: a DOI key and an OpenAlex key
    never coincide. *)
Lemma paper_identifiers_NoDup (paper : pydict) (ids : list (string * string)) :
  paper_identifiers paper = Ok ids -> NoDup (map identifier_key ids).
Proof.
  rewrite /paper_identifiers. intros H.
  apply bind_ok in H as (d & _ & H). apply bind_ok in H as (o & _ & H).
  injection H as <-. simpl.
  destruct (String.eqb (lower d) ""); destruct (String.eqb o ""); simpl;
    repeat constructor; try by intros H%elem_of_nil.
  intros H%list_elem_of_singleton. discriminate H.
Qed.

Lemma keys_of_read (h : heap) (r : ref) (paper : pydict)
    (ids : list (string * string)) :
  deref h r = Ok paper -> paper_identifiers paper = Ok ids ->
  keys_of h r = map identifier_key ids /\ readable h r.
Proof. intros Hd Hp. by rewrite /keys_of /readable Hd /= Hp. Qed.

Lemma keys_of_NoDup (h : heap) (r : ref) : NoDup (keys_of h r).
Proof.
  rewrite /keys_of. destruct (deref h r) as [paper|]; [|constructor].
  destruct (paper_identifiers paper) as [ids|] eqn:E; [|constructor].
  by eapply paper_identifiers_NoDup.
Qed.

(** All the keys of a list of papers. *)
Local Abbreviation all_keys h l := (concat (map (keys_of h) l)).

(** What the loop does to the three accumulators. *)
Lemma simple_loop_spec (h : heap) (papers u u' : list ref) (seen : gset string)
    (d d' : Z) :
  simple_loop h papers u seen d = Ok (u', d') ->
  exists kept,
    u' = u ++ kept
    /\ kept `sublist_of` papers
    /\ (Z.of_nat (length kept) + (d' - d) = Z.of_nat (length papers))%Z
    /\ (d <= d')%Z
    /\ Forall (fun r => readable h r) papers
    /\ NoDup (all_keys h kept)
    /\ (forall k, k ∈ all_keys h kept -> k ∉ seen)
    /\ (forall r, r ∈ papers -> keys_of h r = [] -> r ∈ kept)
    /\ (forall r, r ∈ papers ->
          r ∈ kept
          \/ exists k, k ∈ keys_of h r /\ (k ∈ seen \/ k ∈ all_keys h kept)).
Proof.
  revert u seen d. induction papers as [|r papers IH]; intros u seen d H.
  - simpl in H. injection H as <- <-. exists []. rewrite app_nil_r.
    split_and!; try done; try lia.
    + constructor.
    + intros k Hk. by apply elem_of_nil in Hk.
    + intros r Hr. by apply elem_of_nil in Hr.
  - simpl in H. apply bind_ok in H as (paper & Hd & H).
    apply bind_ok in H as (ids & Hids & H).
    destruct (keys_of_read _ _ _ _ Hd Hids) as [Hkeys Hread].
    pose proof (paper_identifiers_NoDup _ _ Hids) as Hnd.
    destruct ids as [|id ids].
    + (* no identifier: kept *)
      apply IH in H as (kept & -> & Hsub & Hlen & Hle & Hall & Hk & Hs & Hno & Hcov).
      exists (r :: kept). rewrite -app_assoc /= Hkeys /=.
      split_and!; try done.
      * by constructor.
      * lia.
      * by constructor.
      * intros r' [->|Hr']%elem_of_cons Hnil; [by left|].
        right. by apply Hno.
      * intros r' [->|Hr']%elem_of_cons; [left; by left|].
        destruct (Hcov _ Hr') as [?|?]; [left; by right|by right].
    + destruct (any_seen (id :: ids) seen) eqn:Hany.
      * (* a key has been seen: dropped *)
        apply any_seen_spec in Hany as (k & Hk1 & Hk2).
        apply IH in H
          as (kept & -> & Hsub & Hlen & Hle & Hall & Hk & Hs & Hno & Hcov).
        exists kept. split_and!; try done.
        -- by constructor.
        -- simpl. lia.
        -- lia.
        -- by constructor.
        -- intros r' [->|Hr']%elem_of_cons Hnil; [|by apply Hno].
           rewrite Hnil in Hkeys. discriminate Hkeys.
        -- intros r' [->|Hr']%elem_of_cons; [|by apply Hcov].
           right. exists k. rewrite Hkeys. split; [done|by left].
      * (* new keys: kept and remembered *)
        assert (Hfresh : forall k, k ∈ map identifier_key (id :: ids) ->
                           k ∉ seen).
        { intros k Hk Hs. assert (any_seen (id :: ids) seen = true)
            by (apply any_seen_spec; by exists k). congruence. }
        apply IH in H
          as (kept & -> & Hsub & Hlen & Hle & Hall & Hk & Hs & Hno & Hcov).
        exists (r :: kept). rewrite -app_assoc.
        cbn [app map concat]. rewrite Hkeys.
        split_and!; try done.
        -- by constructor.
        -- simpl. lia.
        -- by constructor.
        -- apply NoDup_app. split_and!; [done| |done].
           intros k Hk1 Hk2. apply (Hs k Hk2). apply add_seen_spec. by right.
        -- intros k [Hk1|Hk2]%elem_of_app; [by apply Hfresh|].
           intros Hin. apply (Hs k Hk2). apply add_seen_spec. by left.
        -- intros r' [->|Hr']%elem_of_cons Hnil; [by left|].
           right. by apply Hno.
        -- intros r' [->|Hr']%elem_of_cons; [left; by left|].
           destruct (Hcov _ Hr') as [?|(k & Hk1 & Hk2)]; [left; by right|].
           right. exists k. split; [done|].
           destruct Hk2 as [Hk2|Hk2].
           ++ apply add_seen_spec in Hk2 as [?|?]; [by left|].
              right. apply elem_of_app. by left.
           ++ right. apply elem_of_app. by right.
Qed.

Lemma simple_unfold (h : heap) (papers : list ref) :
  deduplicate_papers_simple h papers = simple_loop h papers [] ∅ 0.
Proof. by destruct papers. Qed.

Lemma elem_of_concat {A : Type} (x : A) (ls : list (list A)) :
  x ∈ concat ls <-> exists l, l ∈ ls /\ x ∈ l.
Proof.
  rewrite list_elem_of_In in_concat. split.
  - intros (l & Hl & Hx). exists l. by rewrite !list_elem_of_In.
  - intros (l & Hl & Hx). exists l. by rewrite -!list_elem_of_In.
Qed.

(** X1. Accounting and order of the simple deduplication: the papers kept
    and the duplicates counted add up to the input, and the papers kept
    are a sublist of the input: nothing is reordered or invented. *)
Theorem simple_accounting (h : heap) (papers u : list ref) (d : Z) :
  deduplicate_papers_simple h papers = Ok (u, d) ->
  (Z.of_nat (length u) + d = Z.of_nat (length papers))%Z
  /\ (0 <= d)%Z
  /\ u `sublist_of` papers.
Proof.
  rewrite simple_unfold.
  intros (kept & -> & Hsub & Hlen & Hle & _)%simple_loop_spec.
  simpl. split_and!; [lia|lia|done].
Qed.

(** X2. What the simple deduplication keeps: every paper without
    identifier stays in the output, and every input paper is either kept
    or shares an identifier key with a paper that is kept. *)
Theorem simple_coverage (h : heap) (papers u : list ref) (d : Z) :
  deduplicate_papers_simple h papers = Ok (u, d) ->
  forall r, r ∈ papers ->
    (keys_of h r = [] -> r ∈ u)
    /\ (r ∈ u
        \/ exists r' k, r' ∈ u /\ k ∈ keys_of h r /\ k ∈ keys_of h r').
Proof.
  rewrite simple_unfold.
  intros (kept & -> & _ & _ & _ & _ & _ & _ & Hno & Hcov)%simple_loop_spec
    r Hr.
  simpl. split; [by apply Hno|].
  destruct (Hcov _ Hr) as [?|(k & Hk & [Hs|Hs])]; [by left| |].
  - by apply elem_of_empty in Hs.
  - right. apply elem_of_concat in Hs as (ks & Hks & Hk').
    apply list_elem_of_fmap in Hks as (r' & -> & Hr').
    by exists r', k.
Qed.

(** X3. No two papers kept by the simple deduplication share an
    identifier: listing the keys (DOI key, OpenAlex key) of the output
    papers gives no key twice. *)
Theorem simple_no_shared_key (h : heap) (papers u : list ref) (d : Z) :
  deduplicate_papers_simple h papers = Ok (u, d) ->
  NoDup (concat (map (keys_of h) u)).
Proof.
  rewrite simple_unfold.
  by intros (kept & -> & _ & _ & _ & _ & Hnd & _)%simple_loop_spec.
Qed.

Lemma simple_loop_distinct (h : heap) (l u : list ref) (seen : gset string)
    (d : Z) :
  Forall (fun r => readable h r) l ->
  NoDup (all_keys h l) ->
  (forall k, k ∈ all_keys h l -> k ∉ seen) ->
  simple_loop h l u seen d = Ok (u ++ l, d).
Proof.
  intros Hall. revert u seen.
  induction Hall as [|r l Hr _ IH]; intros u seen Hnd Hs; simpl.
  - by rewrite app_nil_r.
  - rewrite /readable in Hr.
    destruct (deref h r) as [paper|] eqn:Hd; [|done]. cbn [bind] in Hr |- *.
    destruct (paper_identifiers paper) as [ids|] eqn:Hids; [|done].
    destruct (keys_of_read _ _ _ _ Hd Hids) as [Hkeys _].
    cbn [map concat] in Hnd, Hs. rewrite Hkeys in Hnd Hs.
    cbn [bind]. apply NoDup_app in Hnd as (Hnd1 & Hdisj & Hnd2).
    assert (Hs2 : forall k, k ∈ all_keys h l -> k ∉ seen).
    { intros k Hk. apply Hs. apply elem_of_app. by right. }
    destruct ids as [|id ids].
    + rewrite IH; [done|done|by rewrite -app_assoc].
    + assert (Hany : any_seen (id :: ids) seen = false).
      { destruct (any_seen (id :: ids) seen) eqn:E; [|done].
        apply any_seen_spec in E as (k & Hk & Hk').
        exfalso. apply (Hs k); [|done]. apply elem_of_app. by left. }
      rewrite Hany IH; [done| |by rewrite -app_assoc].
      intros k Hk [Hin|Hin]%add_seen_spec.
      * by apply (Hs2 k).
      * by apply (Hdisj k).
Qed.

Lemma sublist_Forall {A : Type} (P : A -> Prop) (l1 l2 : list A) :
  l1 `sublist_of` l2 -> Forall P l2 -> Forall P l1.
Proof.
  induction 1 as [|x l1 l2 _ IH|x l1 l2 _ IH]; intros H; [done| |].
  - inversion H; subst. constructor; [done|by apply IH].
  - inversion H; subst. by apply IH.
Qed.

(** X4. The simple deduplication is idempotent: run on its own output it
    returns the same list and counts no duplicate. *)
Theorem simple_idempotent (h : heap) (papers u : list ref) (d : Z) :
  deduplicate_papers_simple h papers = Ok (u, d) ->
  deduplicate_papers_simple h u = Ok (u, 0%Z).
Proof.
  rewrite !simple_unfold.
  intros (kept & -> & Hsub & _ & _ & Hall & Hnd & _)%simple_loop_spec.
  simpl. apply simple_loop_distinct.
  - by eapply sublist_Forall.
  - done.
  - intros k _ Hk. by apply elem_of_empty in Hk.
Qed.

Lemma paper_identifiers_string_ids (p : pydict) :
  if string_ids p then exists ids, paper_identifiers p = Ok ids
  else paper_identifiers p = Raise AttributeError.
Proof.
  rewrite /string_ids /paper_identifiers.
  destruct (get_default p "doi" (VStr "")); simpl; try done;
    destruct (get_default p "openalex_id" (VStr "")); simpl; try done; eauto.
Qed.

Lemma simple_loop_errors (h : heap) (papers u : list ref) (seen : gset string)
    (d : Z) :
  Forall (fun r => r < length h) papers ->
  match simple_loop h papers u seen d with
  | Ok _ => Forall (fun r => string_ids (cell h r)) papers
  | Raise e =>
      e = AttributeError
      /\ Exists (fun r => ~ string_ids (cell h r)) papers
  end.
Proof.
  intros Hv. revert u seen d.
  induction Hv as [|r papers Hr _ IH]; intros u seen d; simpl; [done|].
  destruct (lookup_lt_is_Some_2 _ _ Hr) as [p Hp].
  assert (Hcell : cell h r = p) by by rewrite /cell Hp.
  rewrite /deref Hp. cbn [bind].
  pose proof (paper_identifiers_string_ids p) as Hids.
  destruct (string_ids p) eqn:Hs.
  - destruct Hids as [ids ->]. cbn [bind].
    assert (Hok : string_ids (cell h r)) by by rewrite Hcell Hs.
    destruct ids as [|id ids]; [|destruct (any_seen (id :: ids) seen)].
    + specialize (IH (u ++ [r]) seen d).
      destruct (simple_loop h papers (u ++ [r]) seen d);
        [by constructor|]. destruct IH as [-> IH]. split; [done|].
      by apply Exists_cons_tl.
    + specialize (IH u seen (d + 1)%Z).
      destruct (simple_loop h papers u seen (d + 1));
        [by constructor|]. destruct IH as [-> IH]. split; [done|].
      by apply Exists_cons_tl.
    + specialize (IH (u ++ [r]) (add_seen (id :: ids) seen) d).
      destruct (simple_loop h papers (u ++ [r]) (add_seen (id :: ids) seen) d);
        [by constructor|]. destruct IH as [-> IH]. split; [done|].
      by apply Exists_cons_tl.
  - rewrite Hids. simpl. split; [done|]. apply Exists_cons_hd.
    rewrite Hcell Hs. exact id.
Qed.

(** X5. Errors of the simple deduplication: it returns exactly when the
    DOI and the OpenAlex ID of every paper are strings or absent; a paper
    where one of them is anything else (null, a number) makes the whole
    call end in [AttributeError], whatever the other papers are. *)
Theorem simple_errors (h : heap) (papers : list ref) :
  Forall (fun r => r < length h) papers ->
  match deduplicate_papers_simple h papers with
  | Ok _ => Forall (fun r => string_ids (cell h r)) papers
  | Raise e =>
      e = AttributeError
      /\ Exists (fun r => ~ string_ids (cell h r)) papers
  end.
Proof. rewrite simple_unfold. apply simple_loop_errors. Qed.

(** * More about the merge *)

Lemma groups_add_perm (pg : groups) (k : string) (r : ref) :
  concat (map snd (groups_add pg k r)) ≡ₚ r :: concat (map snd pg).
Proof.
  induction pg as [|[k' g] pg IH]; simpl; [done|].
  destruct (String.eqb k' k); simpl.
  - rewrite -app_assoc /=. symmetry. apply Permutation_middle.
  - rewrite IH. symmetry. apply Permutation_middle.
Qed.

Lemma group_loop_perm (h : heap) (papers : list ref) (pg pg' : groups)
    (noid noid' : list ref) :
  group_loop h papers pg noid = Ok (pg', noid') ->
  concat (map snd pg') ++ noid' ≡ₚ papers ++ concat (map snd pg) ++ noid.
Proof.
  revert pg noid. induction papers as [|r papers IH]; intros pg noid H.
  - simpl in H. by injection H as <- <-.
  - simpl in H. apply bind_ok in H as (paper & _ & H).
    apply bind_ok in H as ([k|] & _ & H); apply IH in H; rewrite H.
    + rewrite groups_add_perm. simpl. symmetry. apply Permutation_middle.
    + simpl. rewrite !app_assoc. symmetry. apply Permutation_cons_append.
Qed.

Lemma groups_of_perm (h : heap) (papers : list ref) :
  Forall (fun r => identified h r) papers ->
  papers ≡ₚ concat (map snd (groups_of h papers))
            ++ no_identifier_papers_of h papers.
Proof.
  intros Hid. destruct (groups_of_spec h papers Hid) as (Hg & _).
  apply group_loop_perm in Hg. simpl in Hg. by rewrite Hg !app_nil_r.
Qed.

(** X6. Grouping loses and repeats nothing: the groups of the first loop
    and the papers without identifier are together a rearrangement of the
    input list; the groups have distinct keys, and each one holds, in
    input order, exactly the input papers that have its key. *)
Theorem groups_partition (h : heap) (papers : list ref) :
  Forall (fun r => identified h r) papers ->
  papers ≡ₚ concat (map snd (groups_of h papers))
            ++ no_identifier_papers_of h papers
  /\ NoDup (map fst (groups_of h papers))
  /\ forall k g, (k, g) ∈ groups_of h papers ->
       g <> [] /\ g = filter (fun r => has_key h k r) papers.
Proof.
  intros Hid. destruct (groups_of_spec h papers Hid) as (Hg & [Hnd _] & Hm).
  split_and!; [by apply groups_of_perm|done|].
  intros k g Hin. apply Hm in Hin as [-> ?]. done.
Qed.

Lemma sum_duplicates_length (gs : groups) :
  Forall (fun kg => kg.2 <> []) gs ->
  sum_duplicates gs =
  (Z.of_nat (length (concat (map snd gs))) - Z.of_nat (length gs))%Z.
Proof.
  induction 1 as [|[k g] gs Hg _ IH]; [done|]. simpl in *.
  rewrite IH length_app /multi_member.
  destruct g as [|r [|r' g]]; [done|simpl; lia|].
  assert ((1 <? length (r :: r' :: g))%nat = true) as ->
    by (apply Nat.ltb_lt; simpl; lia).
  simpl. lia.
Qed.

Section MergeExtra.

Variable py_repr : value -> string.

(** X7. Length accounting of the merge: in every run that returns, the
    number of merged papers is the number of input papers minus
    [duplicates_removed]; it is also the number of identity groups plus
    the number of papers without identifier. *)
Theorem merge_length_accounting (h : heap) (w : world) (papers : list ref)
    (st : merge_state) :
  deduplicate_with_conflict_resolution py_repr h w papers = Ok st ->
  (Z.of_nat (length (unique_papers st)) + duplicates_removed st
   = Z.of_nat (length papers))%Z
  /\ length (unique_papers st) =
     length (groups_of h papers) + length (no_identifier_papers_of h papers).
Proof.
  intros H.
  apply dedup_spec in H as (Hwf & Hid & outs & Hout & Hall & Hdr & _).
  apply Forall2_length in Hall.
  pose proof (groups_of_perm h papers Hid) as Hperm.
  apply Permutation_length in Hperm. rewrite length_app in Hperm.
  rewrite Hout length_app -Hall. split; [|done].
  rewrite Hdr sum_duplicates_length; [|lia].
  apply Forall_forall. intros [k g] Hin.
  destruct Hwf as [_ Hm]. by destruct (Hm _ _ Hin).
Qed.

(** The second loop changes no stored object other than the first member
    of a unanimous group with several members. *)
Lemma process_groups_frame (h0 : heap) (gs : groups) (st st' : merge_state) :
  process_groups py_repr gs st = Ok st' ->
  groups_wf h0 gs ->
  length h0 <= length (st_heap st) ->
  (forall k g r, (k, g) ∈ gs -> r ∈ g -> st_heap st !! r = h0 !! r) ->
  length (st_heap st) <= length (st_heap st')
  /\ forall r, r < length (st_heap st) ->
       (forall k g, (k, g) ∈ gs -> head g = Some r ->
          length g = 1 \/ conflicting h0 g) ->
       st_heap st' !! r = st_heap st !! r.
Proof.
  revert st. induction gs as [|[k g] gs IH]; intros st H Hwf Hlen Hag.
  - simpl in H. by injection H as <-.
  - simpl in H. apply bind_ok in H as (st1 & Hstep & H).
    destruct (process_group_agree py_repr h0 k g gs st st1 Hstep Hwf Hlen Hag)
      as [Hlen1 Hag1].
    apply groups_wf_cons in Hwf as (Hwf & Hne & Hg & Hdisj).
    assert (Hcells : cells (st_heap st) g = cells h0 g).
    { apply cells_agree. intros r Hr. apply (Hag k g); [by left|done]. }
    assert (Hconf : conflicting (st_heap st) g = conflicting h0 g)
      by by rewrite /conflicting Hcells.
    apply process_group_step in Hstep as (o & _ & _ & _ & Hheap); [|done].
    rewrite Hconf in Hheap.
    destruct (IH st1 H Hwf Hlen1 Hag1) as [Hle' Hfr'].
    assert (Hstep1 : length (st_heap st) <= length (st_heap st1)
      /\ forall r, r < length (st_heap st) ->
           (head g = Some r -> length g = 1 \/ conflicting h0 g) ->
           st_heap st1 !! r = st_heap st !! r).
    { destruct (length g =? 1)%nat eqn:El; [|destruct (conflicting h0 g)].
      - destruct Hheap as (_ & -> & _). done.
      - destruct Hheap as (_ & _ & d' & _ & ->). rewrite length_app.
        split; [lia|]. intros r Hr _. by rewrite lookup_app_l.
      - destruct Hheap as (Hhd & _ & -> & _). rewrite length_insert.
        split; [done|]. intros r Hr Hcond.
        rewrite list_lookup_insert_ne //. intros <-.
        destruct (Hcond Hhd) as [E|E]; [|done].
        apply Nat.eqb_neq in El. done. }
    destruct Hstep1 as [Hle1 Hfr1]. split; [lia|].
    intros r Hr Hcond. rewrite Hfr'; [lia| |].
    + intros k' g' Hin. apply (Hcond k' g'). by right.
    + apply Hfr1; [done|]. apply (Hcond k g). by left.
Qed.

(** X8. The merge leaves its input objects alone, with one exception: in
    every run that returns, the store only grows, and an input object is
    unchanged unless it is the first member of a unanimous group with
    several members.  The members of conflicting groups keep their
    recorded decisions. *)
Theorem merge_store_frame (h : heap) (w : world) (papers : list ref)
    (st : merge_state) :
  deduplicate_with_conflict_resolution py_repr h w papers = Ok st ->
  length h <= length (st_heap st)
  /\ forall r, r < length h ->
       (forall k g, (k, g) ∈ groups_of h papers -> head g = Some r ->
          length g = 1 \/ conflicting h g) ->
       st_heap st !! r = h !! r.
Proof.
  intros H. rewrite dedup_unfold in H.
  apply bind_ok in H as ([gs noid] & Hg & H).
  apply bind_ok in H as (st1 & Hp & H). injection H as <-.
  rewrite /groups_of Hg. cbn [st_heap].
  apply group_loop_spec in Hg as (Hwf & _); [|apply groups_wf_nil].
  by apply process_groups_frame with (h0 := h) in Hp.
Qed.

(** ** Papers with distinct keys *)

Lemma groups_add_fresh (pg : groups) (k : string) (r : ref) :
  k ∉ map fst pg -> groups_add pg k r = pg ++ [(k, [r])].
Proof.
  induction pg as [|[k' g] pg IH]; intros Hk; simpl; [done|].
  destruct (String.eqb_spec k' k) as [->|Hne].
  - exfalso. apply Hk. by left.
  - rewrite IH //. intros Hin. apply Hk. by right.
Qed.

Lemma group_loop_distinct (h : heap) (l : list ref) (pg : groups)
    (noid : list ref) :
  Forall (fun r => identified h r) l ->
  NoDup (map fst pg ++ map fst (singles h l)) ->
  group_loop h l pg noid =
    Ok (pg ++ singles h l, noid ++ filter (fun r => has_no_key h r) l).
Proof.
  intros Hall. revert pg noid.
  induction Hall as [|r l Hr _ IH]; intros pg noid Hnd.
  - by rewrite /= !app_nil_r.
  - apply identified_cell in Hr as (_ & Hcell & o & Ho & Hk).
    simpl. rewrite /deref Hcell. cbn [bind]. rewrite Ho. cbn [bind].
    rewrite /singles /= -/(singles h l) filter_cons /has_no_key Hk.
    destruct o as [k|]; simpl.
    + rewrite /singles /= Hk /= -/(singles h l) in Hnd.
      rewrite groups_add_fresh.
      { apply NoDup_app in Hnd as (_ & Hd & _). intros Hin.
        apply (Hd k Hin). by left. }
      rewrite IH.
      { rewrite map_app /= -app_assoc. done. }
      by rewrite -app_assoc.
    + rewrite /singles /= Hk /= -/(singles h l) in Hnd.
      rewrite IH; [exact Hnd|by rewrite -app_assoc].
Qed.

Lemma process_groups_singles (h : heap) (l : list ref) (st : merge_state) :
  process_groups py_repr (singles h l) st =
  Ok {| st_heap := st_heap st; st_world := st_world st;
        unique_papers :=
          unique_papers st ++ filter (fun r => has_some_key h r) l;
        duplicates_removed := duplicates_removed st;
        conflicts_resolved := conflicts_resolved st |}.
Proof.
  revert st. induction l as [|r l IH]; intros st.
  - simpl. rewrite app_nil_r. by destruct st.
  - rewrite /singles /= -/(singles h l) filter_cons
      /has_some_key /has_no_key.
    destruct (key_of h r) as [k|] eqn:Hk; simpl.
    + rewrite IH /=. by rewrite -app_assoc.
    + apply IH.
Qed.

(** The merge on papers with distinct keys: one group each, nothing to
    resolve. *)
Lemma dedup_distinct (h : heap) (w : world) (l : list ref) :
  Forall (fun r => identified h r) l ->
  NoDup (map fst (singles h l)) ->
  deduplicate_with_conflict_resolution py_repr h w l =
  Ok {| st_heap := h; st_world := w;
        unique_papers :=
          filter (fun r => has_some_key h r) l
          ++ filter (fun r => has_no_key h r) l;
        duplicates_removed := 0; conflicts_resolved := 0 |}.
Proof.
  intros Hall Hnd. rewrite dedup_unfold group_loop_distinct //.
  cbn [bind]. by rewrite process_groups_singles.
Qed.

(** ** Running the merge on its own output *)

(** The identity key depends on three fields only. *)
Lemma paper_identifier_ext (p q : pydict) :
  dict_get p "doi" = dict_get q "doi" ->
  dict_get p "openalex_id" = dict_get q "openalex_id" ->
  dict_get p "title" = dict_get q "title" ->
  paper_identifier p = paper_identifier q.
Proof.
  intros H1 H2 H3. by rewrite /paper_identifier /get_default H1 H2 H3.
Qed.

Lemma key_of_Some_cell (h : heap) (r : ref) (k : string) :
  key_of h r = Some k ->
  exists p, h !! r = Some p /\ paper_identifier p = Ok (Some k).
Proof.
  rewrite /key_of /deref. destruct (h !! r) as [p|]; [|done].
  destruct (paper_identifier p) as [o|] eqn:E; [|done].
  intros ->. by exists p.
Qed.

Lemma cell_key_of (h : heap) (r : ref) (p : pydict) (o : option string) :
  h !! r = Some p -> paper_identifier p = Ok o ->
  identified h r /\ key_of h r = o.
Proof.
  intros Hp Ho. by rewrite /identified /key_of /deref Hp /= Ho.
Qed.

Lemma emitted_key (h h' : heap) (gs : groups) (kg : string * list ref)
    (o : ref) :
  groups_wf h gs -> kg ∈ gs -> emitted py_repr h h' kg o ->
  identified h' o /\ key_of h' o = Some kg.1.
Proof.
  intros [_ Hm] Hin Hem. destruct kg as [k g]. simpl.
  destruct (Hm _ _ Hin) as [Hne Hg].
  assert (Hhead : forall r, head g = Some r ->
            exists p, h !! r = Some p /\ paper_identifier p = Ok (Some k)).
  { intros r Hr. apply head_elem_of in Hr.
    destruct (Hg _ Hr) as [_ Hk]. by apply key_of_Some_cell. }
  rewrite /emitted /= in Hem.
  destruct (length g =? 1)%nat; [|destruct (conflicting h g)].
  - destruct Hem as [Hhd Hcell].
    destruct (Hhead _ Hhd) as (p & Hp & Hk). rewrite Hp in Hcell.
    by eapply cell_key_of.
  - destruct Hem as (_ & d' & w & w' & Hcell & Hres).
    apply resolve_screening_conflict_ok in Hres as (_ & c & _ & Hc).
    apply resolve_choice_audit in Hc as (src & block & Hsrc & _ & _ & Hk).
    apply list_elem_of_fmap in Hsrc as (r & -> & Hr).
    destruct (Hg _ Hr) as [_ Hkey].
    apply key_of_Some_cell in Hkey as (p & Hp & Hid).
    rewrite Hp /= in Hk.
    apply (cell_key_of h' o d'); [done|]. rewrite -Hid.
    apply paper_identifier_ext; by apply Hk.
  - destruct Hem as [Hhd Hcell].
    destruct (Hhead _ Hhd) as (p & Hp & Hk). rewrite Hp /= in Hcell.
    apply (cell_key_of h' o _ _ Hcell). rewrite -Hk.
    apply paper_identifier_ext; by rewrite dict_get_set_ne.
Qed.

Lemma singles_app (h : heap) (l1 l2 : list ref) :
  singles h (l1 ++ l2) = singles h l1 ++ singles h l2.
Proof. apply omap_app. Qed.

Lemma singles_keyed (h : heap) (gs : groups) (outs : list ref) :
  Forall2 (fun kg o => key_of h o = Some kg.1) gs outs ->
  map fst (singles h outs) = map fst gs
  /\ filter (fun r => has_some_key h r) outs = outs
  /\ filter (fun r => has_no_key h r) outs = [].
Proof.
  induction 1 as [|kg o gs outs Hk _ (IH1 & IH2 & IH3)]; [done|].
  rewrite /singles /= -/(singles h outs) !filter_cons
    /has_some_key /has_no_key Hk /=.
  by rewrite IH1 IH2 IH3.
Qed.

Lemma singles_unkeyed (h : heap) (l : list ref) :
  Forall (fun r => key_of h r = None) l ->
  singles h l = []
  /\ filter (fun r => has_some_key h r) l = []
  /\ filter (fun r => has_no_key h r) l = l.
Proof.
  induction 1 as [|r l Hk _ (IH1 & IH2 & IH3)]; [done|].
  split_and!.
  - rewrite /singles /= Hk /=. exact IH1.
  - by rewrite filter_cons /has_some_key /has_no_key Hk /= -IH2.
  - by rewrite filter_cons /has_no_key Hk /= IH3.
Qed.

Lemma Forall2_impl_elem {A B : Type} (R S : A -> B -> Prop) (l : list A)
    (k : list B) :
  Forall2 R l k -> (forall x y, x ∈ l -> R x y -> S x y) -> Forall2 S l k.
Proof.
  induction 1 as [|a b l k Hab _ IH]; intros Himp; [constructor|].
  constructor.
  - apply Himp; [by left|done].
  - apply IH. intros x y Hx. apply Himp. by right.
Qed.

Lemma Forall2_elem_of_r {A B : Type} (R : A -> B -> Prop) (l : list A)
    (k : list B) (y : B) :
  Forall2 R l k -> y ∈ k -> exists x, x ∈ l /\ R x y.
Proof.
  induction 1 as [|a b l k Hab _ IH]; intros Hy.
  - by apply elem_of_nil in Hy.
  - apply elem_of_cons in Hy as [->|Hy].
    + exists a. split; [by left|done].
    + destruct (IH Hy) as (x & Hx & HR). exists x. split; [by right|done].
Qed.

(** X9. The merge is idempotent: run again on the merged papers of a run
    that returned, in the store that run left, it returns the same list,
    counts no duplicate and no conflict, leaves the store as it is and
    reads no input. *)
Theorem merge_idempotent (h : heap) (w w2 : world) (papers : list ref)
    (st : merge_state) :
  deduplicate_with_conflict_resolution py_repr h w papers = Ok st ->
  deduplicate_with_conflict_resolution py_repr (st_heap st) w2
    (unique_papers st) =
  Ok {| st_heap := st_heap st; st_world := w2;
        unique_papers := unique_papers st;
        duplicates_removed := 0; conflicts_resolved := 0 |}.
Proof.
  intros H.
  apply dedup_spec in H
    as (Hwf & Hid & outs & Hout & Hall & _ & _ & _ & Hframe).
  (* the outputs of the groups carry the keys of the groups *)
  assert (Houts : Forall2 (fun kg o => identified (st_heap st) o
                             /\ key_of (st_heap st) o = Some kg.1)
                    (groups_of h papers) outs).
  { eapply Forall2_impl_elem; [exact Hall|].
    intros kg o Hin Hem. by eapply emitted_key. }
  (* the papers without identifier are as they were *)
  assert (Hnoid : Forall (fun r => identified (st_heap st) r
                            /\ key_of (st_heap st) r = None)
                    (no_identifier_papers_of h papers)).
  { apply Forall_forall. intros r [Hno Hr]%list_elem_of_filter.
    rewrite /has_no_key in Hno. apply bool_decide_spec in Hno.
    rewrite Forall_forall in Hid. specialize (Hid _ Hr).
    apply identified_cell in Hid as (Hlt & Hcell & o & Ho & Hk).
    rewrite Hno in Hk. subst o.
    apply (cell_key_of _ _ (cell h r)); [|done].
    rewrite Hframe //. intros k g Hin Hhd.
    destruct Hwf as [_ Hm]. destruct (Hm _ _ Hin) as [_ Hg].
    apply head_elem_of in Hhd. destruct (Hg _ Hhd) as [_ E]. congruence. }
  destruct (singles_keyed (st_heap st) (groups_of h papers) outs)
    as (Hs1 & Hs2 & Hs3).
  { eapply Forall2_impl; [exact Houts|]. by intros kg o [_ ?]. }
  destruct (singles_unkeyed (st_heap st) (no_identifier_papers_of h papers))
    as (Hn1 & Hn2 & Hn3).
  { eapply Forall_impl; [exact Hnoid|]. by intros r [_ ?]. }
  rewrite Hout dedup_distinct.
  - apply Forall_app. split.
    + apply Forall_forall. intros o Ho.
      destruct (Forall2_elem_of_r _ _ _ _ Houts Ho) as (kg & _ & ? & _).
      done.
    + eapply Forall_impl; [exact Hnoid|]. by intros r [? _].
  - rewrite singles_app Hn1 app_nil_r Hs1. by destruct Hwf.
  - by rewrite !filter_app Hs2 Hs3 Hn2 Hn3 app_nil_r.
Qed.

(** ** The two deduplications together *)

(** The identity key of the merge is the first key of the simple
    deduplication: the DOI key if there is a DOI, else the OpenAlex key. *)
Lemma paper_identifier_first_key (p : pydict) (o : option string) :
  paper_identifier p = Ok o ->
  exists ids,
    paper_identifiers p = Ok ids /\ o = head (map identifier_key ids).
Proof.
  rewrite /paper_identifier /paper_identifiers. intros H.
  apply bind_ok in H as (d & -> & H). apply bind_ok in H as (oa & -> & H).
  apply bind_ok in H as ([] & _ & H). injection H as <-. simpl.
  eexists. split; [done|].
  destruct (String.eqb (lower d) ""); destruct (String.eqb oa ""); done.
Qed.

Lemma key_in_keys (h : heap) (r : ref) (k : string) :
  key_of h r = Some k -> k ∈ keys_of h r.
Proof.
  intros (p & Hp & Hk)%key_of_Some_cell.
  apply paper_identifier_first_key in Hk as (ids & Hids & Hhd).
  rewrite /keys_of /deref Hp /= Hids. symmetry in Hhd.
  by apply head_elem_of in Hhd.
Qed.

Lemma singles_keys_sub (h : heap) (l : list ref) (k : string) :
  k ∈ map fst (singles h l) -> k ∈ concat (map (keys_of h) l).
Proof.
  induction l as [|r l IH]; [done|].
  rewrite /singles /= -/(singles h l).
  destruct (key_of h r) as [k'|] eqn:Hk; simpl.
  - intros [->|Hin]%elem_of_cons; apply elem_of_app.
    + left. by apply key_in_keys.
    + right. by apply IH.
  - intros Hin. apply elem_of_app. right. by apply IH.
Qed.

Lemma singles_NoDup (h : heap) (l : list ref) :
  NoDup (concat (map (keys_of h) l)) -> NoDup (map fst (singles h l)).
Proof.
  induction l as [|r l IH]; [constructor|]. simpl.
  intros (Hnd1 & Hdisj & Hnd2)%NoDup_app.
  rewrite /singles /= -/(singles h l).
  destruct (key_of h r) as [k|] eqn:Hk; simpl; [|by apply IH].
  apply NoDup_cons. split; [|by apply IH].
  intros Hin%singles_keys_sub. apply (Hdisj k); [|done].
  by apply key_in_keys.
Qed.

(** X10. After the simple deduplication the merge has nothing left to do:
    on the papers that [deduplicate_papers_simple] kept (their titles
    being printable) it finds no duplicate and no conflict, asks nothing,
    changes no object and returns the same papers, those with an
    identifier first. *)
Theorem merge_after_simple (h : heap) (w : world) (papers u : list ref)
    (d : Z) :
  deduplicate_papers_simple h papers = Ok (u, d) ->
  Forall (fun r => identified h r) u ->
  deduplicate_with_conflict_resolution py_repr h w u =
  Ok {| st_heap := h; st_world := w;
        unique_papers :=
          filter (fun r => has_some_key h r) u
          ++ filter (fun r => has_no_key h r) u;
        duplicates_removed := 0; conflicts_resolved := 0 |}.
Proof.
  intros Hs Hid. apply dedup_distinct; [done|].
  apply singles_NoDup. rewrite simple_unfold in Hs.
  by apply simple_loop_spec in Hs as (kept & -> & _ & _ & _ & _ & Hnd & _).
Qed.

(** ** More about the prompt *)

(** X11. Most recent (option 4): on displayable papers the resolver
    returns a copy of the last member of the group, whatever the
    screening timestamps say; the copy differs from that member in the
    key [conflict_resolution] only, whose block has the method
    "most_recent" and lists every original decision. *)
Theorem most_recent_selected (ps : list pydict) (k : string) (w : world) :
  ps <> [] -> Forall (fun p => resolvable p) ps ->
  selected (stdin w) = Some "4" ->
  exists d w' m block,
    resolve_screening_conflict py_repr ps k w = Ok (d, w')
    /\ last ps = Some m
    /\ (forall key, key <> "conflict_resolution" ->
          dict_get d key = dict_get m key)
    /\ dict_get d "conflict_resolution" = Some (VDict block)
    /\ dict_get block "method" = Some (VStr "most_recent")
    /\ dict_get block "original_decisions" = Some (original_decisions ps).
Proof.
  intros Hne Hall Hsel.
  destruct (resolve_screening_conflict_selected py_repr ps k "4" w
              Hne Hall Hsel) as [rest Hr].
  destruct (resolve_recent_total (clock w (ticks w)) ps Hne Hall) as [d Hd].
  rewrite /resolve_choice /= Hd /= in Hr.
  apply resolve_recent_result in Hd as (m & Hm & ->).
  eexists _, _, m, _. split_and!; try done.
  - intros key Hkey. by rewrite dict_get_set_ne.
  - by rewrite dict_get_set_eq.
  - done.
  - done.
Qed.

Lemma selected_skip (skipped rest : list string) (line : string) :
  Forall (fun l => resolving l = false) skipped ->
  resolving line = true ->
  selected (skipped ++ line :: rest) = Some (strip line).
Proof.
  intros Hsk Hline. induction Hsk as [|l skipped Hl _ IH]; simpl.
  - by rewrite Hline.
  - by rewrite Hl.
Qed.

Lemma prompt_loop_skip (ps : list pydict) (ts line : string)
    (skipped rest : list string) :
  forM_ show_details_of ps = Ok tt ->
  Forall (fun l => resolving l = false) skipped ->
  resolving line = true ->
  prompt_loop py_repr ps ts (skipped ++ line :: rest) =
  (let* d := resolve_choice py_repr (strip line) ts ps in Ok (d, rest)).
Proof.
  intros Hdet Hsk Hline.
  induction Hsk as [|l skipped Hl _ IH]; simpl.
  - rewrite /resolving in Hline. rewrite /resolve_choice.
    destruct (String.eqb (strip line) "1"); [done|].
    destruct (String.eqb (strip line) "2"); [done|].
    destruct (String.eqb (strip line) "3"); [done|].
    destruct (String.eqb (strip line) "4"); done.
  - rewrite /resolving in Hl.
    destruct (String.eqb (strip l) "1"); [done|].
    destruct (String.eqb (strip l) "2"); [done|].
    destruct (String.eqb (strip l) "3"); [done|].
    destruct (String.eqb (strip l) "4"); [done|].
    rewrite Hdet /=. by destruct (String.eqb (strip l) "5").
Qed.

(** X12. Asking again: lines that are not one of the options 1 to 4
    (option 5, "show more details", and any other text) resolve nothing.
    When the display of the group runs through, the resolver reads up to
    and including the first line that is an option 1 to 4, returns what
    that option gives at the time of the answer, and leaves exactly the
    lines after it; the clock is read once. *)
Theorem prompt_asks_again (ps : list pydict) (k line : string)
    (skipped rest : list string) (clk : nat -> string) (t : nat) :
  show_conflict ps = Ok tt ->
  forM_ show_details_of ps = Ok tt ->
  Forall (fun l => resolving l = false) skipped ->
  resolving line = true ->
  resolve_screening_conflict py_repr ps k
    (typing (skipped ++ line :: rest) clk t) =
  (let* d := resolve_choice py_repr (strip line) (clk t) ps in
   Ok (d, typing rest clk (S t))).
Proof.
  intros Hshow Hdet Hsk Hline.
  rewrite /resolve_screening_conflict Hshow /=.
  rewrite prompt_loop_skip //.
  by destruct (resolve_choice py_repr (strip line) (clk t) ps).
Qed.

(** ** Collected papers and the totals of the summary *)

Lemma source_field_ne (k : string) :
  source_field k = false ->
  "decision" <> k /\ "confidence" <> k /\ "reason" <> k
  /\ "source_query_id" <> k /\ "source_query_description" <> k
  /\ "screening_timestamp" <> k /\ "model_used" <> k.
Proof.
  rewrite /source_field. intros H.
  repeat (apply orb_false_elim in H as [H ?]).
  split_and!; intros <-; done.
Qed.

(** X13. A collected paper: the copy of the paper of a screening result
    always has the keys decision, confidence and reason, read from the
    result, an absent one as [None]; so for the merge its decision never
    reads as the default "UNKNOWN" and its confidence never as the default
    0.0.  It carries the id of the source query, and every key of the
    paper that is not one of the seven written ones is unchanged. *)
Theorem collected_paper_fields (py_str : value -> string)
    (query_config result paper_data d : pydict) (query_id : value) :
  dict_get result "paper" = Some (VDict paper_data) ->
  paper_with_source py_str query_config query_id (VDict result) = Ok d ->
  dict_get d "decision" = Some (get_none result "decision")
  /\ dict_get d "confidence" = Some (get_none result "confidence")
  /\ dict_get d "reason" = Some (get_none result "reason")
  /\ dict_get d "source_query_id" = Some query_id
  /\ decision_of d = get_none result "decision"
  /\ confidence_key d = get_none result "confidence"
  /\ forall k, source_field k = false ->
       dict_get d k = dict_get paper_data k.
Proof.
  intros Hp. rewrite /paper_with_source /get_default Hp /=.
  intros [= <-].
  assert (H1 : forall v, dict_get
    (dict_set (dict_set (dict_set (dict_set (dict_set (dict_set (dict_set
       paper_data "decision" v) "confidence"
       (default VNone (dict_get result "confidence"))) "reason"
       (default VNone (dict_get result "reason"))) "source_query_id" query_id)
       "source_query_description"
       (default (VStr ("Query " +:+ py_str query_id))
          (dict_get query_config "description")))
       "screening_timestamp"
       (default VNone (dict_get result "screening_timestamp")))
       "model_used" (default VNone (dict_get result "model_used")))
    "decision" = Some v).
  { intros v. do 6 (rewrite dict_get_set_ne //). by rewrite dict_get_set_eq. }
  rewrite /decision_of /confidence_key /get_none /get_default.
  split_and!.
  - apply H1.
  - do 5 (rewrite dict_get_set_ne //). by rewrite dict_get_set_eq.
  - do 4 (rewrite dict_get_set_ne //). by rewrite dict_get_set_eq.
  - do 3 (rewrite dict_get_set_ne //). by rewrite dict_get_set_eq.
  - by rewrite H1.
  - do 5 (rewrite dict_get_set_ne //). by rewrite dict_get_set_eq.
  - intros k (? & ? & ? & ? & ? & ? & ?)%source_field_ne.
    by rewrite !dict_get_set_ne.
Qed.



Lemma count_decision_bounds (h : heap) (l : list ref) :
  (0 <= count_decision h l "INCLUDE")%Z
  /\ (0 <= count_decision h l "EXCLUDE")%Z
  /\ (count_decision h l "INCLUDE" + count_decision h l "EXCLUDE"
      <= Z.of_nat (length l))%Z.
Proof.
  rewrite /count_decision. split_and!; try lia.
  induction l as [|r l IH]; [done|]. rewrite !filter_cons.
  destruct (get_none (cell h r) "decision") as [| | |s| |]; simpl;
    try (simpl in IH; lia).
  destruct (String.eqb_spec s "INCLUDE") as [->|?]; simpl; simpl in IH; [lia|].
  destruct (String.eqb s "EXCLUDE"); simpl; lia.
Qed.

(** X15. The numbers of the summary: when the totals are computed, the
    papers after deduplication are the papers screened and are the
    collected records minus the duplicates removed; approved and excluded
    papers together are at most the papers screened, while pending is
    always 0.  The "Duplicates removed" of the flow diagram (identified
    minus after deduplication) is the counter of the deduplication in the
    legacy branch; in the late-stage branch it differs from it by the
    difference between the papers counted in the paper files and the
    records collected. *)
Theorem totals_consistent (h h' : heap) (w w' : world) (all_papers : list ref)
    (late_stage_dedup : bool) (total_papers_collected : Z) (t : totals) :
  screening_totals py_repr h w all_papers late_stage_dedup
    total_papers_collected = Ok (Some (t, h', w')) ->
  total_after_deduplication t = total_screened t
  /\ (total_screened t + totals_duplicates_removed t
      = Z.of_nat (length all_papers))%Z
  /\ (0 <= total_approved t)%Z /\ (0 <= total_excluded t)%Z
  /\ (total_approved t + total_excluded t <= total_screened t)%Z
  /\ total_pending t = 0%Z
  /\ flow_duplicates_removed t =
     (totals_duplicates_removed t
      + (if late_stage_dedup
         then total_papers_collected - Z.of_nat (length all_papers)
         else 0))%Z.
Proof.
  rewrite /screening_totals. intros H.
  destruct all_papers as [|r0 papers0] eqn:Ep; [done|]. rewrite -Ep in H |- *.
  clear Ep. apply bind_ok in H as (st & Hst & H). injection H as <- _ _.
  rewrite /flow_duplicates_removed /=.
  destruct (count_decision_bounds (st_heap st) (unique_papers st))
    as (Ha & He & Hae).
  assert (Hlen : (Z.of_nat (length (unique_papers st)) + duplicates_removed st
                  = Z.of_nat (length all_papers))%Z).
  { destruct late_stage_dedup.
    - rewrite dedup_unfold in Hst.
      pose proof Hst as Hst'. rewrite -dedup_unfold in Hst'.
      apply dedup_spec in Hst' as (Hwf & Hid & outs & Hout & Hall & Hdr & _).
      apply Forall2_length in Hall.
      pose proof (groups_of_perm h all_papers Hid) as Hperm.
      apply Permutation_length in Hperm. rewrite length_app in Hperm.
      rewrite Hout length_app -Hall Hdr sum_duplicates_length; [|lia].
      apply Forall_forall. intros [k g] Hin.
      destruct Hwf as [_ Hm]. by destruct (Hm _ _ Hin).
    - apply bind_ok in Hst as ([u d] & Hs & Hst). injection Hst as <-.
      rewrite simple_unfold in Hs.
      apply simple_loop_spec in Hs as (kept & -> & _ & Hl & _). simpl. lia. }
  split_and!; try done; try lia.
  destruct late_stage_dedup; lia.
Qed.

(** ** Errors of the first loop, and the OpenAlex key *)

Lemma paper_identifier_cases (p : pydict) :
  if string_ids p && printable_title p
  then exists o, paper_identifier p = Ok o
  else exists e,
         paper_identifier p = Raise e
         /\ (e = AttributeError \/ e = TypeError).
Proof.
  rewrite /string_ids /printable_title /paper_identifier.
  destruct (get_default p "doi" (VStr "")); simpl; eauto;
    destruct (get_default p "openalex_id" (VStr "")); simpl; eauto;
    destruct (get_default p "title" (VStr "No title")); simpl; eauto.
Qed.

Lemma group_loop_errors (h : heap) (papers : list ref) (pg : groups)
    (noid : list ref) :
  Forall (fun r => r < length h) papers ->
  Exists (fun r => string_ids (cell h r) && printable_title (cell h r)
                   = false) papers ->
  exists e,
    group_loop h papers pg noid = Raise e
    /\ (e = AttributeError \/ e = TypeError).
Proof.
  intros Hv. revert pg noid.
  induction Hv as [|r papers Hr _ IH]; intros pg noid Hex.
  - by apply Exists_nil in Hex.
  - destruct (lookup_lt_is_Some_2 _ _ Hr) as [p Hp].
    assert (Hcell : cell h r = p) by by rewrite /cell Hp.
    simpl. rewrite /deref Hp. cbn [bind].
    pose proof (paper_identifier_cases p) as Hc.
    destruct (string_ids p && printable_title p) eqn:Hgood.
    + destruct Hc as [o ->]. cbn [bind].
      apply Exists_cons in Hex as [Hbad|Hex];
        [rewrite Hcell in Hbad; congruence|].
      destruct o; by apply IH.
    + destruct Hc as (e & -> & He). by exists e.
Qed.

(** X16. Errors of the merge on its input: one paper whose DOI or
    OpenAlex ID is not a string (null, a number), or whose title cannot be
    sliced, makes the whole merge end in [AttributeError] or [TypeError]
    during grouping, before any conflict is shown, whatever the other
    papers and the answers of the user are. *)
Theorem merge_input_errors (h : heap) (w : world) (papers : list ref) :
  Forall (fun r => r < length h) papers ->
  Exists (fun r => string_ids (cell h r) && printable_title (cell h r)
                   = false) papers ->
  exists e,
    deduplicate_with_conflict_resolution py_repr h w papers = Raise e
    /\ (e = AttributeError \/ e = TypeError).
Proof.
  intros Hv Hex. rewrite dedup_unfold.
  destruct (group_loop_errors h papers [] [] Hv Hex) as (e & -> & He).
  by exists e.
Qed.

Lemma openalex_key_inj (a b : string) :
  "openalex:" +:+ a = "openalex:" +:+ b -> a = b.
Proof. intros H. injection H as H. exact H. Qed.

Lemma openalex_key (h : heap) (r : ref) (d o : string) :
  identified h r ->
  get_default (cell h r) "doi" (VStr "") = VStr d -> strip d = "" ->
  get_default (cell h r) "openalex_id" (VStr "") = VStr o -> strip o <> "" ->
  key_of h r = Some ("openalex:" +:+ strip o).
Proof.
  intros (_ & _ & k & Hk & ->)%identified_cell Hd Hd0 Ho Ho0.
  rewrite /paper_identifier Hd Ho /= Hd0 /= in Hk.
  apply bind_ok in Hk as ([] & _ & Hk). injection Hk as <-.
  destruct (String.eqb_spec (strip o) ""); [done|]. done.
Qed.

(** X17. The OpenAlex key: a record without DOI but with an OpenAlex ID
    has the key "openalex:" followed by the ID trimmed, not lowercased.
    Two such records are in the same group exactly when their trimmed IDs
    are equal; and such a record is never in a group with a record that
    has a DOI, even when both carry the same OpenAlex ID. *)
Theorem openalex_identity (h : heap) (papers : list ref) (r1 r2 r3 : ref)
    (d1 d2 d3 o1 o2 : string) :
  Forall (fun r => identified h r) papers ->
  r1 ∈ papers -> r2 ∈ papers -> r3 ∈ papers ->
  get_default (cell h r1) "doi" (VStr "") = VStr d1 -> strip d1 = "" ->
  get_default (cell h r2) "doi" (VStr "") = VStr d2 -> strip d2 = "" ->
  get_default (cell h r3) "doi" (VStr "") = VStr d3 ->
  lower (strip d3) <> "" ->
  get_default (cell h r1) "openalex_id" (VStr "") = VStr o1 ->
  get_default (cell h r2) "openalex_id" (VStr "") = VStr o2 ->
  strip o1 <> "" -> strip o2 <> "" ->
  key_of h r1 = Some ("openalex:" +:+ strip o1)
  /\ (strip o1 = strip o2 <->
      exists g, ("openalex:" +:+ strip o1, g) ∈ groups_of h papers
                /\ r1 ∈ g /\ r2 ∈ g)
  /\ forall k g, (k, g) ∈ groups_of h papers -> ~ (r1 ∈ g /\ r3 ∈ g).
Proof.
  intros Hid H1 H2 H3 D1 E1 D2 E2 D3 N3 O1 O2 N1 N2.
  pose proof Hid as Hid'. rewrite Forall_forall in Hid'.
  pose proof (openalex_key h r1 d1 o1 (Hid' _ H1) D1 E1 O1 N1) as K1.
  pose proof (openalex_key h r2 d2 o2 (Hid' _ H2) D2 E2 O2 N2) as K2.
  pose proof (doi_key h r3 d3 (Hid' _ H3) D3 N3) as K3.
  destruct (groups_of_spec h papers Hid) as (_ & [_ Hm] & _).
  split_and!; [done| |].
  - split.
    + intros E. apply same_key_same_group; try done. by rewrite K2 E.
    + intros (g & Hin & Hg1 & Hg2).
      destruct (Hm _ _ Hin) as [_ Hg]. destruct (Hg _ Hg2) as [_ E2'].
      apply openalex_key_inj. congruence.
  - intros k g Hin [Hg1 Hg3].
    destruct (Hm _ _ Hin) as [_ Hg].
    destruct (Hg _ Hg1) as [_ E1']. destruct (Hg _ Hg3) as [_ E3'].
    rewrite K1 in E1'. rewrite K3 in E3'. rewrite -E1' in E3'.
    discriminate E3'.
Qed.

End MergeExtra.

(** * The further properties, run on the scenarios *)

Lemma simple_accounting_witness :
  (Z.of_nat (length [0; 2]) + 1 = Z.of_nat (length [0; 1; 2]))%Z
  /\ (0 <= 1)%Z
  /\ [0; 2] `sublist_of` [0; 1; 2].
Proof. apply (simple_accounting scenario_e [0; 1; 2] [0; 2] 1). reflexivity. Defined.

Lemma simple_coverage_witness :
  (keys_of scenario_e 1 = [] -> 1 ∈ [0; 2])
  /\ (1 ∈ [0; 2]
      \/ exists r' k,
           r' ∈ [0; 2] /\ k ∈ keys_of scenario_e 1
           /\ k ∈ keys_of scenario_e r').
Proof.
  apply (simple_coverage scenario_e [0; 1; 2] [0; 2] 1);
    [reflexivity | right; by left].
Defined.

Lemma simple_no_shared_key_witness :
  NoDup (concat (map (keys_of scenario_e) [0; 2])).
Proof.
  apply (simple_no_shared_key scenario_e [0; 1; 2] [0; 2] 1). reflexivity.
Defined.

Lemma simple_idempotent_witness :
  deduplicate_papers_simple scenario_e [0; 2] = Ok ([0; 2], 0%Z).
Proof.
  apply (simple_idempotent scenario_e [0; 1; 2] [0; 2] 1). reflexivity.
Defined.

Lemma simple_errors_witness :
  match deduplicate_papers_simple null_doi [0] with
  | Ok _ => Forall (fun r => string_ids (cell null_doi r)) [0]
  | Raise e =>
      e = AttributeError
      /\ Exists (fun r => ~ string_ids (cell null_doi r)) [0]
  end.
Proof. apply (simple_errors null_doi [0]). repeat constructor. Defined.

Lemma groups_partition_witness :
  [0; 1; 2] ≡ₚ concat (map snd (groups_of scenario_e [0; 1; 2]))
               ++ no_identifier_papers_of scenario_e [0; 1; 2]
  /\ NoDup (map fst (groups_of scenario_e [0; 1; 2]))
  /\ forall k g, (k, g) ∈ groups_of scenario_e [0; 1; 2] ->
       g <> [] /\ g = filter (fun r => has_key scenario_e k r) [0; 1; 2].
Proof. apply (groups_partition scenario_e [0; 1; 2]). repeat constructor. Defined.

Lemma merge_length_accounting_witness :
  exists st,
    deduplicate_with_conflict_resolution sample_repr scenario_e
      (typing ["3"] morning 0) [0; 1; 2] = Ok st
    /\ (Z.of_nat (length (unique_papers st)) + duplicates_removed st
        = Z.of_nat (length [0; 1; 2]))%Z
    /\ length (unique_papers st) =
       length (groups_of scenario_e [0; 1; 2])
       + length (no_identifier_papers_of scenario_e [0; 1; 2]).
Proof.
  destruct (deduplicate_with_conflict_resolution sample_repr scenario_e
              (typing ["3"] morning 0) [0; 1; 2]) as [st|e] eqn:Hrun;
    [|vm_compute in Hrun; discriminate Hrun].
  exists st. split; [reflexivity|].
  exact (merge_length_accounting _ _ _ _ _ Hrun).
Defined.

Lemma merge_store_frame_witness :
  exists st,
    deduplicate_with_conflict_resolution sample_repr scenario_b
      (typing ["1"] morning 0) [0; 1] = Ok st
    /\ st_heap st !! 0 = scenario_b !! 0.
Proof.
  destruct (deduplicate_with_conflict_resolution sample_repr scenario_b
              (typing ["1"] morning 0) [0; 1]) as [st|e] eqn:Hrun;
    [|vm_compute in Hrun; discriminate Hrun].
  exists st. split; [reflexivity|].
  apply (merge_store_frame _ _ _ _ _ Hrun); [simpl; lia|].
  intros k g Hin Hhd. right.
  rewrite scenario_b_groups in Hin.
  apply list_elem_of_singleton in Hin. injection Hin as -> ->. exact I.
Defined.

Lemma merge_idempotent_witness :
  exists st,
    deduplicate_with_conflict_resolution sample_repr scenario_a
      (typing [] morning 0) [0; 1; 2] = Ok st
    /\ deduplicate_with_conflict_resolution sample_repr (st_heap st)
         (typing [] evening 0) (unique_papers st) =
       Ok {| st_heap := st_heap st; st_world := typing [] evening 0;
             unique_papers := unique_papers st;
             duplicates_removed := 0; conflicts_resolved := 0 |}.
Proof.
  destruct (deduplicate_with_conflict_resolution sample_repr scenario_a
              (typing [] morning 0) [0; 1; 2]) as [st|e] eqn:Hrun;
    [|vm_compute in Hrun; discriminate Hrun].
  exists st. split; [reflexivity|].
  exact (merge_idempotent _ _ _ _ _ _ Hrun).
Defined.

Lemma merge_after_simple_witness :
  deduplicate_with_conflict_resolution sample_repr scenario_e
    (typing [] morning 0) [0; 2] =
  Ok {| st_heap := scenario_e; st_world := typing [] morning 0;
        unique_papers :=
          filter (fun r => has_some_key scenario_e r) [0; 2]
          ++ filter (fun r => has_no_key scenario_e r) [0; 2];
        duplicates_removed := 0; conflicts_resolved := 0 |}.
Proof.
  apply (merge_after_simple sample_repr scenario_e (typing [] morning 0)
           [0; 1; 2] [0; 2] 1); [reflexivity | repeat constructor].
Defined.

Lemma most_recent_selected_witness :
  exists d w' m block,
    resolve_screening_conflict sample_repr (cells scenario_b [0; 1])
      "doi:10.1/y" (typing ["4"] morning 0) = Ok (d, w')
    /\ last (cells scenario_b [0; 1]) = Some m
    /\ (forall key, key <> "conflict_resolution" ->
          dict_get d key = dict_get m key)
    /\ dict_get d "conflict_resolution" = Some (VDict block)
    /\ dict_get block "method" = Some (VStr "most_recent")
    /\ dict_get block "original_decisions" =
       Some (original_decisions (cells scenario_b [0; 1])).
Proof.
  apply (most_recent_selected sample_repr (cells scenario_b [0; 1])
           "doi:10.1/y" (typing ["4"] morning 0));
    [discriminate | repeat constructor | reflexivity].
Defined.

Lemma prompt_asks_again_witness :
  resolve_screening_conflict sample_repr (cells scenario_b [0; 1])
    "doi:10.1/y" (typing (["5"; "include"] ++ " 2 " :: ["1"]) morning 0) =
  (let* d := resolve_choice sample_repr (strip " 2 ") (morning 0)
               (cells scenario_b [0; 1]) in
   Ok (d, typing ["1"] morning 1)).
Proof.
  apply (prompt_asks_again sample_repr (cells scenario_b [0; 1])
           "doi:10.1/y" " 2 " ["5"; "include"] ["1"] morning 0);
    [reflexivity | reflexivity | repeat constructor | reflexivity].
Defined.

Lemma collected_paper_fields_witness :
  exists d,
    paper_with_source sample_str sample_query_config (VNum 1)
      (VDict sample_result) = Ok d
    /\ dict_get d "decision" = Some VNone
    /\ decision_of d = VNone
    /\ dict_get d "title" = Some (VStr "Paper Y").
Proof.
  eexists. split; [reflexivity|].
  destruct (collected_paper_fields sample_str sample_query_config
              sample_result
              [("title", VStr "Paper Y"); ("doi", VStr "10.1/y");
               ("decision", VStr "stale")] _ (VNum 1)
              eq_refl eq_refl)
    as (Hdec & _ & _ & _ & Hread & _ & Hframe).
  split; [exact Hdec|]. split; [exact Hread|].
  rewrite Hframe; reflexivity.
Defined.


Lemma totals_consistent_witness :
  exists t h' w',
    screening_totals sample_repr scenario_b (typing ["3"] morning 0) [0; 1]
      true 2 = Ok (Some (t, h', w'))
    /\ total_after_deduplication t = total_screened t
    /\ (total_screened t + totals_duplicates_removed t
        = Z.of_nat (length [0; 1]))%Z
    /\ (0 <= total_approved t)%Z /\ (0 <= total_excluded t)%Z
    /\ (total_approved t + total_excluded t <= total_screened t)%Z
    /\ total_pending t = 0%Z
    /\ flow_duplicates_removed t =
       (totals_duplicates_removed t + (2 - Z.of_nat (length [0; 1])))%Z.
Proof.
  destruct (screening_totals sample_repr scenario_b (typing ["3"] morning 0)
              [0; 1] true 2) as [[[[t h'] w']|]|e] eqn:Hrun;
    [|vm_compute in Hrun; discriminate Hrun
     |vm_compute in Hrun; discriminate Hrun].
  exists t, h', w'. split; [reflexivity|].
  exact (totals_consistent _ _ _ _ _ _ _ _ _ Hrun).
Defined.

Lemma merge_input_errors_witness :
  exists e,
    deduplicate_with_conflict_resolution sample_repr null_doi
      (typing [] morning 0) [0] = Raise e
    /\ (e = AttributeError \/ e = TypeError).
Proof.
  apply (merge_input_errors sample_repr null_doi (typing [] morning 0) [0]).
  - repeat constructor.
  - left. reflexivity.
Defined.

Lemma openalex_identity_witness :
  key_of shared_openalex 1 = Some "openalex:W1"
  /\ (exists g, ("openalex:W1", g) ∈ groups_of shared_openalex [0; 1; 2]
                /\ 1 ∈ g /\ 2 ∈ g)
  /\ forall k g, (k, g) ∈ groups_of shared_openalex [0; 1; 2] ->
       ~ (1 ∈ g /\ 0 ∈ g).
Proof.
  destruct (openalex_identity shared_openalex [0; 1; 2] 1 2 0
              "" "" "10.1/w" " W1 " "W1")
    as (Hk & Hsame & Hnot).
  - repeat constructor.
  - right; by left.
  - right; right; by left.
  - by left.
  - reflexivity.
  - reflexivity.
  - reflexivity.
  - reflexivity.
  - reflexivity.
  - discriminate.
  - reflexivity.
  - reflexivity.
  - discriminate.
  - discriminate.
  - split; [exact Hk|]. split; [|exact Hnot]. apply Hsame. reflexivity.
Defined.
